(** * Apple Container Helper: a shallow embedding of the listing, reconciliation,
      connection-example, dispatch and run-command code, and its properties.

    Sources embedded here:
    - containerUtils.ts   (class ContainerManager)
    - containerProvider.ts (class ContainerProvider and its tree items)
    - extension.ts         (the registered command handlers)
    - containerDetails.ts  (class ContainerDetailsPanel)
    - containerForm.ts     (class ContainerFormPanel)

    A string is its sequence of UTF-16 code units, as in ECMAScript; white
    space ([trim], the regular expression \s) is the ECMAScript class
    WhiteSpace with LineTerminator.  A number is an IEEE 754 binary64 value.
    The functions of the JavaScript runtime that the code calls but does not
    define (JSON.parse, JSON.stringify, String.prototype.toLowerCase, number
    formatting, parseFloat) are fields of a [Runtime] record, so every theorem
    holds for any runtime. *)

From Stdlib Require Import List ZArith NArith Lia Bool Arith SpecFloat.
From Stdlib Require Strings.Byte.
Import ListNotations.
Set Warnings "-register-all".
Open Scope list_scope.

(** ** JavaScript strings *)

Module JsString.

(** A UTF-16 code unit: a number below 65536.  The type does not enforce
    the bound, and nothing below depends on it. *)
Definition char : Type := N.

Inductive string : Type :=
| EmptyString
| String (c : char) (s : string).

(** *** String literals

    A literal of this file stands for the code units of its text: the
    UTF-8 bytes of the literal are decoded to code points, and a code point
    above U+FFFF becomes its surrogate pair. *)

Definition continuation (b : Byte.byte) : option N :=
  let n := Strings.Byte.to_N b in
  if ((128 <=? n) && (n <? 192))%N then Some (n - 128)%N else None.

Definition units (codePoint : N) : list char :=
  if (codePoint <? 65536)%N then [codePoint]
  else [(55296 + (codePoint - 65536) / 1024)%N; (56320 + (codePoint - 65536) mod 1024)%N].

Fixpoint decode (fuel : nat) (bytes : list Byte.byte) : option (list char) :=
  match fuel, bytes with
  | _, [] => Some []
  | O, _ :: _ => None
  | S fuel', b :: rest =>
      let n := Strings.Byte.to_N b in
      if (n <? 128)%N then option_map (cons n) (decode fuel' rest)
      else if ((192 <=? n) && (n <? 224))%N then
        match rest with
        | b1 :: rest' =>
            match continuation b1, decode fuel' rest' with
            | Some c1, Some us => Some (units ((n - 192) * 64 + c1)%N ++ us)
            | _, _ => None
            end
        | _ => None
        end
      else if ((224 <=? n) && (n <? 240))%N then
        match rest with
        | b1 :: b2 :: rest' =>
            match continuation b1, continuation b2, decode fuel' rest' with
            | Some c1, Some c2, Some us =>
                Some (units (((n - 224) * 64 + c1) * 64 + c2)%N ++ us)
            | _, _, _ => None
            end
        | _ => None
        end
      else if ((240 <=? n) && (n <? 248))%N then
        match rest with
        | b1 :: b2 :: b3 :: rest' =>
            match continuation b1, continuation b2, continuation b3, decode fuel' rest' with
            | Some c1, Some c2, Some c3, Some us =>
                Some (units ((((n - 240) * 64 + c1) * 64 + c2) * 64 + c3)%N ++ us)
            | _, _, _, _ => None
            end
        | _ => None
        end
      else None
  end.

Definition of_units (us : list char) : string := fold_right String EmptyString us.

Definition of_bytes (bytes : list Byte.byte) : option string :=
  option_map of_units (decode (List.length bytes) bytes).

(** Only a string below U+0080 is shown as a literal. *)
Fixpoint to_bytes (s : string) : option (list Byte.byte) :=
  match s with
  | EmptyString => Some []
  | String c s' =>
      if (c <? 128)%N then
        match Strings.Byte.of_N c, to_bytes s' with
        | Some b, Some bytes => Some (b :: bytes)
        | _, _ => None
        end
      else None
  end.

Definition char_of_bytes (bytes : list Byte.byte) : option N :=
  match bytes with
  | [b] => if (Strings.Byte.to_N b <? 128)%N then Some (Strings.Byte.to_N b) else None
  | _ => None
  end.

Definition bytes_of_char (c : N) : option (list Byte.byte) :=
  if (c <? 128)%N then option_map (fun b => [b]) (Strings.Byte.of_N c) else None.

(** *** The operations of ECMAScript on strings *)

(** [a + b] *)
Fixpoint append (a b : string) : string :=
  match a with
  | EmptyString => b
  | String c a' => String c (append a' b)
  end.

(** [s.length] *)
Fixpoint length (s : string) : nat :=
  match s with
  | EmptyString => O
  | String _ s' => S (length s')
  end.

(** [a === b] *)
Fixpoint eqb (a b : string) : bool :=
  match a, b with
  | EmptyString, EmptyString => true
  | String x a', String y b' => N.eqb x y && eqb a' b'
  | _, _ => false
  end.

(** [s.startsWith(p)] *)
Fixpoint prefix (p s : string) : bool :=
  match p, s with
  | EmptyString, _ => true
  | String x p', String y s' => N.eqb x y && prefix p' s'
  | String _ _, EmptyString => false
  end.

(** [s.substring(n, n + m)] for [n + m] within the string, and
    [s.substring(n)] beyond. *)
Fixpoint substring (n m : nat) (s : string) : string :=
  match n, m, s with
  | O, O, _ => EmptyString
  | O, S m', EmptyString => s
  | O, S m', String c s' => String c (substring O m' s')
  | S n', _, EmptyString => s
  | S n', _, String c s' => substring n' m s'
  end.

Declare Scope string_scope.
Delimit Scope string_scope with string.
Bind Scope string_scope with string.
String Notation string of_bytes to_bytes : string_scope.
Declare Scope char_scope.
Delimit Scope char_scope with char.
Bind Scope char_scope with char.
String Notation N char_of_bytes bytes_of_char : char_scope.
Notation "a ++ b" := (append a b) (right associativity, at level 60) : string_scope.
Open Scope string_scope.

(** The double quote character, for template literals that contain one. *)
Definition dquote : string := String 34%N EmptyString.

(** Truthiness of a string: the empty string is falsy. *)
Definition nonempty (s : string) : bool :=
  match s with
  | EmptyString => false
  | String _ _ => true
  end.

(** [a || b] on strings. *)
Definition or_else (a b : string) : string :=
  if nonempty a then a else b.

(** WhiteSpace and LineTerminator of ECMAScript: TAB, LF, VT, FF, CR, SPACE,
    NO-BREAK SPACE, OGHAM SPACE MARK, EN QUAD to HAIR SPACE, LINE SEPARATOR,
    PARAGRAPH SEPARATOR, NARROW NO-BREAK SPACE, MEDIUM MATHEMATICAL SPACE,
    IDEOGRAPHIC SPACE and ZERO WIDTH NO-BREAK SPACE.  Each is one code
    unit. *)
Definition is_space (c : char) : bool :=
  (((9 <=? c) && (c <=? 13))
   || (c =? 32) || (c =? 160) || (c =? 5760)
   || ((8192 <=? c) && (c <=? 8202))
   || (c =? 8232) || (c =? 8233) || (c =? 8239) || (c =? 8287)
   || (c =? 12288) || (c =? 65279))%N.

Definition newline : char := 10%N.

Fixpoint trim_start (s : string) : string :=
  match s with
  | EmptyString => EmptyString
  | String c s' => if is_space c then trim_start s' else s
  end.

Fixpoint all_space (s : string) : bool :=
  match s with
  | EmptyString => true
  | String c s' => is_space c && all_space s'
  end.

Fixpoint trim_end (s : string) : string :=
  match s with
  | EmptyString => EmptyString
  | String c s' => if all_space s then EmptyString else String c (trim_end s')
  end.

(** [s.trim()] *)
Definition trim (s : string) : string := trim_end (trim_start s).

(** [s.split(c)] for a one-character separator: never the empty list. *)
Fixpoint split (c : char) (s : string) : list string :=
  match s with
  | EmptyString => [EmptyString]
  | String a s' =>
      if N.eqb a c then EmptyString :: split c s'
      else match split c s' with
           | h :: t => String a h :: t
           | [] => [String a EmptyString]
           end
  end.

Definition starts_with_space (s : string) : bool :=
  match s with
  | EmptyString => false
  | String c _ => is_space c
  end.

(** [s.split(/\s+/)]: the separators are the maximal runs of white space. *)
Fixpoint split_ws (s : string) : list string :=
  match s with
  | EmptyString => [EmptyString]
  | String a s' =>
      if is_space a then
        if starts_with_space s' then split_ws s' else EmptyString :: split_ws s'
      else match split_ws s' with
           | h :: t => String a h :: t
           | [] => [String a EmptyString]
           end
  end.

(** [hay.includes(needle)] *)
Fixpoint includes (hay needle : string) : bool :=
  JsString.prefix needle hay ||
  match hay with
  | EmptyString => false
  | String _ hay' => includes hay' needle
  end.

(** [xs.join(sep)] *)
Fixpoint join (sep : string) (xs : list string) : string :=
  match xs with
  | [] => EmptyString
  | [x] => x
  | x :: rest => x ++ sep ++ join sep rest
  end.

(** ASCII case folding, the instance of [toLowerCase] used in examples. *)
Definition lower_ascii (c : char) : char :=
  if ((65 <=? c) && (c <=? 90))%N then (c + 32)%N else c.

Fixpoint lower (s : string) : string :=
  match s with
  | EmptyString => EmptyString
  | String c s' => String (lower_ascii c) (lower s')
  end.

(** Replaces each apostrophe by a double quote: lets a JSON text be
    written down without quoting. *)
Fixpoint q (s : string) : string :=
  match s with
  | EmptyString => EmptyString
  | String c s' =>
      String (if N.eqb c 39 then 34%N else c) (q s')
  end.

End JsString.
Import JsString.
Open Scope string_scope.

(** ** JavaScript numbers *)

Module JsNumber.

(** A Number: an IEEE 754 binary64 value. *)
Definition number : Type := spec_float.

(** ToBoolean: zero of either sign and NaN are falsy. *)
Definition truthy (n : number) : bool :=
  match n with
  | S754_zero _ | S754_nan => false
  | S754_infinity _ | S754_finite _ _ _ => true
  end.

(** [n === m] *)
Definition eqb (n m : number) : bool := SFeqb n m.

(** The Number of an integer, rounded to the nearest value. *)
Definition of_Z (z : Z) : number := binary_normalize 53 1024 z 0 false.

(** The Number of an array length. *)
Definition of_nat (n : nat) : number := of_Z (Z.of_nat n).

End JsNumber.
Definition number : Type := JsNumber.number.

(** ** JSON values as the code sees them *)

(** What [JSON.parse] returns.  An object is its list of members in the order
    of the text; when a key is repeated the last member is the property, and
    [Js.member] reads that one. *)
Inductive json : Type :=
| JNull
| JBool (b : bool)
| JNum (n : number)
| JStr (s : string)
| JArr (items : list json)
| JObj (members : list (string * json)).

(** A JavaScript value reached from parsed JSON: [None] is [undefined]. *)
Definition jsvalue : Type := option json.

(** A thrown value, as [`${error}`] shows it. *)
Inductive exn : Type :=
| ExecError (text : string)     (* rejection of execAsync *)
| SyntaxError (text : string)   (* thrown by JSON.parse *)
| TypeError (text : string).    (* property read on null or undefined,
                                   call of something that is not a function *)

Definition exn_text (e : exn) : string :=
  match e with
  | ExecError t => t
  | SyntaxError t => "SyntaxError: " ++ t
  | TypeError t => "TypeError: " ++ t
  end.

Module Js.

Definition undefined : jsvalue := None.
Definition str (s : string) : jsvalue := Some (JStr s).
(** The object literal [{}]. *)
Definition empty_object : jsvalue := Some (JObj []).

(** ToBoolean *)
Definition truthy (v : jsvalue) : bool :=
  match v with
  | None => false
  | Some JNull => false
  | Some (JBool b) => b
  | Some (JNum n) => JsNumber.truthy n
  | Some (JStr s) => nonempty s
  | Some (JArr _) => true
  | Some (JObj _) => true
  end.

(** [a || b] *)
Definition or (a b : jsvalue) : jsvalue := if truthy a then a else b.

Fixpoint member (k : string) (ms : list (string * json)) : jsvalue :=
  match ms with
  | [] => None
  | (k', v) :: rest =>
      match member k rest with
      | Some later => Some later
      | None => if JsString.eqb k' k then Some v else None
      end
  end.

(** [v.k] for one of the keys the code reads (configuration, id, hostname,
    image, reference, status, descriptor, digest, size): none of them is a
    property of a string, number, boolean or array. *)
Definition get (v : jsvalue) (k : string) : exn + jsvalue :=
  match v with
  | None => inl (TypeError ("Cannot read properties of undefined (reading '" ++ k ++ "')"))
  | Some JNull => inl (TypeError ("Cannot read properties of null (reading '" ++ k ++ "')"))
  | Some (JObj ms) => inr (member k ms)
  | Some _ => inr None
  end.

(** [v?.k] *)
Definition get_opt (v : jsvalue) (k : string) : jsvalue :=
  match v with
  | Some (JObj ms) => member k ms
  | _ => None
  end.

(** [v === s] for a string [s] *)
Definition strict_eq_string (s : string) (v : jsvalue) : bool :=
  match v with
  | Some (JStr s') => JsString.eqb s s'
  | _ => false
  end.

(** [a === b]: two arrays or objects that come from different calls of
    [JSON.parse] are never the same object. *)
Definition strict_eq (a b : jsvalue) : bool :=
  match a, b with
  | None, None => true
  | Some JNull, Some JNull => true
  | Some (JBool x), Some (JBool y) => Bool.eqb x y
  | Some (JNum x), Some (JNum y) => JsNumber.eqb x y
  | Some (JStr x), Some (JStr y) => JsString.eqb x y
  | _, _ => false
  end.

Definition is_string (v : jsvalue) : bool :=
  match v with
  | Some (JStr _) => true
  | _ => false
  end.

End Js.

(** ** The runtime *)

Record Runtime : Type := {
  (** [JSON.parse(text)]: the parsed value, or the SyntaxError's message. *)
  JSON_parse : string -> string + json;
  (** [JSON.stringify(v, null, 2)] *)
  JSON_stringify : json -> string;
  (** [s.toLowerCase()] *)
  toLowerCase : string -> string;
  (** [`${n}`] for a number *)
  Number_toString : number -> string;
  (** [parseFloat(s)] *)
  parseFloat : string -> number;
  (** [`${v}`] for a value that is not a string *)
  ToString : jsvalue -> string;
  (** [`${Math.round(v / 1024)}`] *)
  round_kb : json -> string
}.

(** [`${v}`] *)
Definition template (rt : Runtime) (v : jsvalue) : string :=
  match v with
  | Some (JStr s) => s
  | _ => ToString rt v
  end.

(** ** Exceptions inside an expression *)

(** A computation that returns or throws, with nothing else observable. *)
Definition E (A : Type) : Type := (exn + A)%type.

Definition bindE {A B : Type} (e : E A) (k : A -> E B) : E B :=
  match e with
  | inl x => inl x
  | inr a => k a
  end.

Notation "'let!' x ':=' e 'in' k" := (bindE e (fun x => k))
  (at level 10, x name, e at level 100, k at level 200).

(** [xs.map(f)] where [f] may throw: the first throw ends the loop. *)
Fixpoint mapE {A B : Type} (f : A -> E B) (xs : list A) : E (list B) :=
  match xs with
  | [] => inr []
  | x :: rest =>
      let! y := f x in
      let! ys := mapE f rest in
      inr (y :: ys)
  end.

(** What is thrown when [callee.method(...)] is evaluated and the value
    [v] of [callee] has no such method: the property read throws on null and
    undefined, the call throws on anything else. *)
Definition no_method (v : jsvalue) (callee method : string) : exn :=
  match v with
  | None => TypeError ("Cannot read properties of undefined (reading '" ++ method ++ "')")
  | Some JNull => TypeError ("Cannot read properties of null (reading '" ++ method ++ "')")
  | Some _ => TypeError (callee ++ "." ++ method ++ " is not a function")
  end.

(** [v.map(f)] on a parsed value: only an array has a [map] method.
    [callee] is the text of the expression whose value [v] is. *)
Definition array_map {B : Type} (callee : string) (v : json) (f : json -> E B) : E (list B) :=
  match v with
  | JArr items => mapE f items
  | _ => inl (no_method (Some v) callee "map")
  end.

(** [v.split(c)] on a value: only a string has a [split] method. *)
Definition value_split (callee : string) (v : jsvalue) (c : char) : E (list string) :=
  match v with
  | Some (JStr s) => inr (split c s)
  | _ => inl (no_method v callee "split")
  end.

(** [v.toLowerCase()] on a value: only a string has the method. *)
Definition value_toLowerCase (rt : Runtime) (callee : string) (v : jsvalue) : E string :=
  match v with
  | Some (JStr s) => inr (toLowerCase rt s)
  | _ => inl (no_method v callee "toLowerCase")
  end.

(** [v.includes(s)]: a string looks for a substring, an array for an
    element that is the string [s]; nothing else has the method. *)
Definition value_includes (callee : string) (v : jsvalue) (s : string) : E bool :=
  match v with
  | Some (JStr t) => inr (includes t s)
  | Some (JArr items) => inr (existsb (fun x => Js.strict_eq_string s (Some x)) items)
  | _ => inl (no_method v callee "includes")
  end.

(** [v.substring(0, n)] on a value: only a string has the method. *)
Definition value_substring (callee : string) (v : jsvalue) (n : nat) : E string :=
  match v with
  | Some (JStr t) => inr (JsString.substring 0 n t)
  | _ => inl (no_method v callee "substring")
  end.

(** ** containerUtils.ts: the records *)

Module Container.
(** [interface Container].  The four fields copied out of the parsed JSON
    hold whatever value the JSON had there: the cast [as Container] checks
    nothing. *)
Record t : Type := {
  id : jsvalue;
  name : jsvalue;
  image : jsvalue;
  status : jsvalue;
  ports : option string;
  created : string;
  ipAddress : option string;
  os : option string;
  arch : option string
}.
End Container.

Module Image.
(** [interface Image] *)
Record t : Type := {
  id : jsvalue;
  repository : string;
  tag : string;
  size : string;
  created : string;
  reference : jsvalue
}.
End Image.

Module TableEntry.
(** The element type of [parseContainerTable]'s result. *)
Record t : Type := {
  id : string;
  ipAddress : option string;
  os : option string;
  arch : option string
}.
End TableEntry.

Module RunOptions.
(** The [options] parameter of [runContainerAdvanced]; [None] is a
    property that is not there. *)
Record t : Type := {
  name : option string;
  ports : option (list string);
  referencePorts : option (list string);
  volumes : option (list string);
  env : option (list string);
  detach : option bool;
  interactive : option bool;
  tty : option bool;
  remove : option bool;
  command : option string;
  workdir : option string;
  user : option string;
  entrypoint : option string;
  cpus : option number;
  memory : option string;
  network : option string;
  labels : option (list string);
  dns : option (list string)
}.
End RunOptions.

(** ** The host: processes, notifications, terminals *)

(** The markup of the details panel, kept as what it is a function of. *)
Record Html : Type := {
  html_container : Container.t;
  html_inspectionData : json
}.

(** The callbacks that the code hands to [setTimeout], each with what it
    closes over: there is one, in [runContainerAdvanced], and it closes over
    [portsList]. *)
Inductive Callback : Type :=
| AccessInstructions (portsList : string).

(** What the extension does to the outside, in the order it does it. *)
Inductive Event : Type :=
| Exec (cmd : string)                            (* execAsync(cmd) *)
| ShowInformation (msg : string) (items : list string)
| ShowWarning (msg : string) (items : list string)
| ShowError (msg : string)
| ShowInputBox (prompt : string)
| Terminal (name text : string)                  (* createTerminal(name), sendText(text), show() *)
| TreeRefresh                                    (* containerProvider.refresh() *)
| StatusBar (text tooltip : string)
| OpenDocument (content : string)                (* openTextDocument, showTextDocument *)
| PanelTitle (title : string)                    (* this._panel.title = title *)
| PanelHtml (html : Html)                        (* this._panel.webview.html = html *)
| PanelDispose                                   (* this._panel.dispose() *)
| SetTimeout (callback : Callback) (delay : Z).  (* setTimeout(callback, delay) *)

(** The outside: each answer may depend on everything that happened before. *)
Record Env : Type := {
  (** the child process: its standard output, or the text of the rejection *)
  cli : list Event -> string -> string + string;
  (** the user's answer to the latest message or input box; [None] when it
      is dismissed *)
  user : list Event -> option string;
  (** [vscode.workspace.workspaceFolders?.[0]], as its file system path *)
  workspaceFolder : option string
}.

(** An asynchronous function: reads the outside, extends the trace, and
    resolves or rejects. *)
Definition M (A : Type) : Type := Env -> list Event -> E A * list Event.

Definition ret {A : Type} (a : A) : M A := fun _ tr => (inr a, tr).

Definition bind {A B : Type} (m : M A) (k : A -> M B) : M B :=
  fun env tr =>
    match m env tr with
    | (inl e, tr') => (inl e, tr')
    | (inr a, tr') => k a env tr'
    end.

Notation "x <- m ;; k" := (bind m (fun x => k))
  (at level 61, m at next level, right associativity).
Notation "m ;;; k" := (bind m (fun _ => k))
  (at level 61, right associativity).

Definition lift {A : Type} (e : E A) : M A := fun _ tr => (e, tr).

(** [try { body } catch (error) { handler }] *)
Definition try_catch {A : Type} (body : M A) (handler : exn -> M A) : M A :=
  fun env tr =>
    match body env tr with
    | (inl e, tr') => handler e env tr'
    | (inr a, tr') => (inr a, tr')
    end.

Definition emit (e : Event) : M unit := fun _ tr => (inr tt, (tr ++ [e])%list).

(** [await execAsync(cmd)], keeping [stdout] *)
Definition execAsync (cmd : string) : M string :=
  fun env tr =>
    (match cli env tr cmd with
     | inl text => inl (ExecError text)
     | inr stdout => inr stdout
     end, (tr ++ [Exec cmd])%list).

(** A message or input box whose answer is awaited. *)
Definition ask (e : Event) : M (option string) :=
  fun env tr => (inr (user env (tr ++ [e])%list), (tr ++ [e])%list).

Definition showInformationMessage (msg : string) : M unit := emit (ShowInformation msg []).
Definition showErrorMessage (msg : string) : M unit := emit (ShowError msg).
Definition showWarningMessage (msg : string) (items : list string) : M (option string) :=
  ask (ShowWarning msg items).
Definition showInputBox (prompt : string) : M (option string) := ask (ShowInputBox prompt).
Definition terminal (name text : string) : M unit := emit (Terminal name text).

(** Runs a handler from a given past; the new trace extends the old one. *)
Definition run {A : Type} (m : M A) (env : Env) (tr : list Event) : E A * list Event :=
  m env tr.

(** Truthiness of optional properties. *)
Definition present (o : option string) : bool :=
  match o with
  | Some s => nonempty s
  | None => false
  end.

(** [o?.f] *)
Definition opt_get {A B : Type} (f : A -> option B) (o : option A) : option B :=
  match o with
  | Some a => f a
  | None => None
  end.

(** The string of a property that was found truthy. *)
Definition or_else_none (o : option string) : string :=
  match o with
  | Some s => s
  | None => EmptyString
  end.

(** [confirm === 'Yes'] *)
Definition confirmed (confirm : option string) : bool :=
  match confirm with
  | Some choice => JsString.eqb choice "Yes"
  | None => false
  end.

Definition set (o : option bool) : bool :=
  match o with
  | Some b => b
  | None => false
  end.

(** ** containerUtils.ts: class ContainerManager *)

Module ContainerManager.
Section WithRuntime.
Variable rt : Runtime.

(** The body of the [lines.map] callback in [parseContainerTable]. *)
Definition parseLine (line : string) : TableEntry.t :=
  let parts := split_ws (trim line) in
  if (6 <=? List.length parts)%nat then
    {| TableEntry.id := nth 0 parts EmptyString;
       TableEntry.os := Some (nth 2 parts EmptyString);
       TableEntry.arch := Some (nth 3 parts EmptyString);
       TableEntry.ipAddress :=
         if negb (JsString.eqb (nth 5 parts EmptyString) "N/A")
         then Some (nth 5 parts EmptyString) else None |}
  else
    {| TableEntry.id := EmptyString; TableEntry.os := None;
       TableEntry.arch := None; TableEntry.ipAddress := None |}.

Definition parseContainerTable (output : string) : list TableEntry.t :=
  let lines := skipn 1 (split newline output) in  (* Skip header *)
  filter (fun entry => nonempty (TableEntry.id entry)) (map parseLine lines).

(** The body of the [rawContainers.map] callback in [listContainers]. *)
Definition toContainer (containerTable : list TableEntry.t) (rawContainer : json)
  : E Container.t :=
  let! configuration := Js.get (Some rawContainer) "configuration" in
  let config := Js.or configuration Js.empty_object in
  let! config_id := Js.get config "id" in
  let id := Js.or config_id (Js.str "unknown") in
  let! config_image := Js.get config "image" in
  let image := Js.or (Js.get_opt config_image "reference") (Js.str "unknown") in
  (* Find matching container in table for IP address *)
  let tableEntry :=
    find (fun entry => Js.strict_eq_string (TableEntry.id entry) id) containerTable in
  let! hostname := Js.get config "hostname" in
  let! raw_status := Js.get (Some rawContainer) "status" in
  inr {| Container.id := id;
         Container.name := Js.or hostname id;
         Container.image := image;
         Container.status := Js.or raw_status (Js.str "unknown");
         Container.ports := Some EmptyString;
         Container.created := "unknown";
         Container.ipAddress := opt_get TableEntry.ipAddress tableEntry;
         Container.os := opt_get TableEntry.os tableEntry;
         Container.arch := opt_get TableEntry.arch tableEntry |}.

(** [JSON.parse(text)] *)
Definition parse (text : string) : M json :=
  lift (match JSON_parse rt text with
        | inl msg => inl (SyntaxError msg)
        | inr v => inr v
        end).

Definition listContainers (all : bool) : M (list Container.t) :=
  try_catch
    ((* First try to get JSON format for detailed info *)
     let jsonCmd :=
       if all then "container list --all --format json"
       else "container list --format json" in
     jsonOutput <- execAsync jsonCmd ;;
     rawContainers <- parse jsonOutput ;;
     (* Then get table format for IP addresses *)
     let tableCmd := if all then "container ls --all" else "container ls" in
     tableOutput <- execAsync tableCmd ;;
     let containerTable := parseContainerTable tableOutput in
     lift (array_map "rawContainers" rawContainers (toContainer containerTable)))
    (fun error =>
       showErrorMessage ("Failed to list containers: " ++ exn_text error) ;;;
       ret []).

(** The body of the [rawImages.map] callback in [listImages]. *)
Definition toImage (rawImage : json) : E Image.t :=
  let! raw_reference := Js.get (Some rawImage) "reference" in
  let reference := Js.or raw_reference (Js.str EmptyString) in
  let! at_parts := value_split "reference" reference "@" in
  let repositoryWithTag := hd EmptyString at_parts in
  let colon_parts := split ":" repositoryWithTag in
  let repository := nth 0 colon_parts EmptyString in
  let tag := nth_error colon_parts 1 in
  let! descriptor := Js.get (Some rawImage) "descriptor" in
  let size := Js.get_opt descriptor "size" in
  inr {| Image.id := Js.or (Js.get_opt descriptor "digest") (Js.str EmptyString);
         Image.repository := or_else repository "unknown";
         Image.tag :=
           match tag with
           | Some t => or_else t "latest"
           | None => "latest"
           end;
         Image.size :=
           match size with
           | Some j => if Js.truthy size then round_kb rt j ++ " KB" else "unknown"
           | None => "unknown"
           end;
         Image.created := "unknown";
         Image.reference := reference |}.

Definition listImages : M (list Image.t) :=
  try_catch
    (stdout <- execAsync "container image list --format json" ;;
     rawImages <- parse stdout ;;
     lift (array_map "rawImages" rawImages toImage))
    (fun error =>
       showErrorMessage ("Failed to list images: " ++ exn_text error) ;;;
       ret []).


Definition startContainer (containerId : jsvalue) : M bool :=
  try_catch
    (execAsync ("container start " ++ template rt containerId) ;;;
     showInformationMessage
       ("Container " ++ template rt containerId ++ " started successfully") ;;;
     ret true)
    (fun error =>
       showErrorMessage ("Failed to start container: " ++ exn_text error) ;;;
       ret false).

Definition stopContainer (containerId : jsvalue) : M bool :=
  try_catch
    (execAsync ("container stop " ++ template rt containerId) ;;;
     showInformationMessage
       ("Container " ++ template rt containerId ++ " stopped successfully") ;;;
     ret true)
    (fun error =>
       showErrorMessage ("Failed to stop container: " ++ exn_text error) ;;;
       ret false).

Definition removeContainer (containerId : jsvalue) (force : bool) : M bool :=
  try_catch
    (let forceFlag := if force then " --force" else EmptyString in
     execAsync ("container delete" ++ forceFlag ++ " " ++ template rt containerId) ;;;
     showInformationMessage
       ("Container " ++ template rt containerId ++ " removed successfully") ;;;
     ret true)
    (fun error =>
       showErrorMessage ("Failed to remove container: " ++ exn_text error) ;;;
       ret false).

Definition removeImage (imageId : jsvalue) : M bool :=
  try_catch
    (execAsync ("container image delete " ++ template rt imageId) ;;;
     showInformationMessage ("Image " ++ template rt imageId ++ " removed successfully") ;;;
     ret true)
    (fun error =>
       showErrorMessage ("Failed to remove image: " ++ exn_text error) ;;;
       ret false).

Definition streamContainerLogs (containerId containerName : jsvalue) : M unit :=
  let terminalName := "Logs: " ++ template rt (Js.or containerName containerId) in
  (* Send the streaming logs command *)
  terminal terminalName ("container logs --follow " ++ template rt containerId).

(** [Promise<any>]: the parsed inspection, or [null]. *)
Definition inspectContainer (containerId : jsvalue) : M json :=
  try_catch
    (stdout <- execAsync ("container inspect " ++ template rt containerId) ;;
     parse stdout)
    (fun error =>
       showErrorMessage ("Failed to inspect container: " ++ exn_text error) ;;;
       ret JNull).

Definition inspectImageJson (imageReference : jsvalue) : M json :=
  try_catch
    (stdout <- execAsync ("container image inspect " ++ template rt imageReference) ;;
     parse stdout)
    (fun error =>
       showErrorMessage ("Failed to inspect image: " ++ exn_text error) ;;;
       ret JNull).

Definition buildImage (contextPath : string) (tag dockerfile : option string) : M bool :=
  try_catch
    (let cmd := "container build " ++ contextPath in
     let cmd := if present tag then cmd ++ " --tag " ++ or_else_none tag else cmd in
     let cmd :=
       if present dockerfile then cmd ++ " --file " ++ or_else_none dockerfile else cmd in
     terminal "Container Build" cmd ;;;
     ret true)
    (fun error =>
       showErrorMessage ("Failed to build image: " ++ exn_text error) ;;;
       ret false).

(** [xs.forEach(x => { cmd += prefix + x })] *)
Definition append_each (flag : string) (xs : list string) (cmd : string) : string :=
  fold_left (fun cmd x => cmd ++ flag ++ x) xs cmd.

(** [if (options?.xs) { options.xs.forEach(...) }]: an array is truthy. *)
Definition append_all (flag : string) (xs : option (list string)) (cmd : string) : string :=
  match xs with
  | Some items => append_each flag items cmd
  | None => cmd
  end.

(** The value of [cmd] when [runContainerAdvanced] sends it to the terminal. *)
Definition runCommand (image : string) (options : option RunOptions.t) : string :=
  let opt {A : Type} (f : RunOptions.t -> option A) : option A := opt_get f options in
  let cmd := "container run" in
  (* Runtime options *)
  let cmd := if set (opt RunOptions.detach) then cmd ++ " --detach" else cmd in
  let cmd := if set (opt RunOptions.interactive) then cmd ++ " --interactive" else cmd in
  let cmd := if set (opt RunOptions.tty) then cmd ++ " --tty" else cmd in
  let cmd := if set (opt RunOptions.remove) then cmd ++ " --rm" else cmd in
  (* Container management *)
  let cmd :=
    if present (opt RunOptions.name)
    then cmd ++ " --name " ++ or_else_none (opt RunOptions.name) else cmd in
  let cmd :=
    if present (opt RunOptions.workdir)
    then cmd ++ " --workdir " ++ dquote ++ or_else_none (opt RunOptions.workdir) ++ dquote
    else cmd in
  let cmd :=
    if present (opt RunOptions.user)
    then cmd ++ " --user " ++ or_else_none (opt RunOptions.user) else cmd in
  let cmd :=
    if present (opt RunOptions.entrypoint)
    then cmd ++ " --entrypoint " ++ dquote ++ or_else_none (opt RunOptions.entrypoint) ++ dquote
    else cmd in
  (* Resources *)
  let cmd :=
    match opt RunOptions.cpus with
    | Some n => if JsNumber.truthy n then cmd ++ " --cpus " ++ Number_toString rt n else cmd
    | None => cmd
    end in
  let cmd :=
    if present (opt RunOptions.memory)
    then cmd ++ " --memory " ++ or_else_none (opt RunOptions.memory) else cmd in
  let cmd := append_all " --dns " (opt RunOptions.dns) cmd in
  (* Storage *)
  let cmd := append_all " -v " (opt RunOptions.volumes) cmd in
  (* Environment and labels *)
  let cmd := append_all " -e " (opt RunOptions.env) cmd in
  let cmd := append_all " -l " (opt RunOptions.labels) cmd in
  let cmd := cmd ++ " " ++ image in
  let cmd :=
    if present (opt RunOptions.command)
    then cmd ++ " " ++ or_else_none (opt RunOptions.command) else cmd in
  cmd.

(** The text of the notice shown after the run when ports were named. *)
Definition portsNotice (portsList : string) : string :=
  "Container started! Use 'container ls' to get the IP address, then access ports "
  ++ portsList ++ " directly on that IP.".

(** The callback that [runContainerAdvanced] hands to [setTimeout], with
    the [then] callback on the user's selection: what happens when the
    timer fires. *)
Definition accessInstructions (portsList : string) : M unit :=
  selection <- ask (ShowInformation (portsNotice portsList) ["Show Container List"]) ;;
  match selection with
  | Some choice =>
      if JsString.eqb choice "Show Container List"
      then terminal "Container List" "container ls"
      else ret tt
  | None => ret tt
  end.

(** The timer is set and the function returns: the callback runs when the
    host fires the timer, two seconds later. *)
Definition runContainerAdvanced (image : string) (options : option RunOptions.t) : M bool :=
  try_catch
    (let cmd := runCommand image options in
     terminal "Container Run" cmd ;;;
     (* Show access instructions if ports were specified *)
     match opt_get RunOptions.referencePorts options with
     | Some (p :: ps) =>
         let portsList := join ", " (p :: ps) in
         emit (SetTimeout (AccessInstructions portsList) 2000)
     | _ => ret tt
     end ;;;
     ret true)
    (fun error =>
       showErrorMessage ("Failed to run container: " ++ exn_text error) ;;;
       ret false).

(* Backward compatibility - use the advanced method *)
Definition runContainer (image : string) (options : option RunOptions.t) : M bool :=
  runContainerAdvanced image options.

Definition pullImage (image : string) : M bool :=
  try_catch
    (terminal "Image Pull" ("container image pull " ++ image) ;;;
     ret true)
    (fun error =>
       showErrorMessage ("Failed to pull image: " ++ exn_text error) ;;;
       ret false).

Definition execInContainer (containerId : jsvalue) (command : string) : M unit :=
  try_catch
    (terminal ("Container Exec - " ++ template rt containerId)
       ("container exec --interactive --tty " ++ template rt containerId ++ " " ++ command))
    (fun error =>
       showErrorMessage ("Failed to exec in container: " ++ exn_text error)).

Definition pruneImages : M bool :=
  try_catch
    (confirm <- showWarningMessage
       "Are you sure you want to prune unused images? This will remove all dangling images."
       ["Yes"; "No"] ;;
     if confirmed confirm then
       execAsync "container image prune --force" ;;;
       showInformationMessage "Images pruned successfully" ;;;
       ret true
     else ret false)
    (fun error =>
       showErrorMessage ("Failed to prune images: " ++ exn_text error) ;;;
       ret false).

Definition isContainerCliAvailable : M bool :=
  try_catch
    (execAsync "which container" ;;;
     ret true)
    (fun _ => ret false).

(** The warning is shown without buttons and its answer is not awaited. *)
Definition startContainerSystem : M unit :=
  try_catch
    (execAsync "container system start" ;;;
     showInformationMessage "Container system started successfully")
    (fun error =>
       emit (ShowWarning ("Failed to start container system: " ++ exn_text error) [])).

Definition getContainerLogs (containerId : jsvalue) (follow : bool) : M string :=
  try_catch
    (let followFlag := if follow then " --follow" else EmptyString in
     execAsync ("container logs" ++ followFlag ++ " " ++ template rt containerId))
    (fun error =>
       showErrorMessage ("Failed to get container logs: " ++ exn_text error) ;;;
       ret EmptyString).

End WithRuntime.
End ContainerManager.

(** ** The host's timers *)

(** What runs when the timer of a callback fires. *)
Definition fire (callback : Callback) : M unit :=
  match callback with
  | AccessInstructions portsList => ContainerManager.accessInstructions portsList
  end.

(** The callbacks whose timers a stretch of the trace set, in the order in
    which they were set; the delays of the code are all the same, so this is
    the order in which they fire. *)
Fixpoint timers (events : list Event) : list Callback :=
  match events with
  | [] => []
  | SetTimeout callback _ :: rest => callback :: timers rest
  | _ :: rest => timers rest
  end.

Fixpoint fireAll (callbacks : list Callback) : M unit :=
  match callbacks with
  | [] => ret tt
  | callback :: rest => fire callback ;;; fireAll rest
  end.

(** A handler and, once its steps are over, the timers that it set: the
    trace when nothing else happens before the timers fire. *)
Definition thenTimers {A : Type} (m : M A) : M A :=
  fun env tr =>
    match m env tr with
    | (result, tr') =>
        (result, snd (fireAll (timers (skipn (List.length tr) tr')) env tr'))
    end.

(** ** containerProvider.ts: class ContainerProvider *)

Module ContainerProvider.

(** The element type of [getConnectionExamples]'s result. *)
Record Example : Type := {
  label : string;
  value : string;
  copyValue : string
}.

(** The constructor arguments of a [ContainerDetailItem]; its icon, tooltip
    and command are functions of these. *)
Record ContainerDetailItem : Type := {
  item_label : string;
  item_value : jsvalue;
  item_type : string;
  item_copyValue : jsvalue
}.

Section WithRuntime.
Variable rt : Runtime.

(** [examples.push({label, value: text, copyValue: text})] *)
Definition example (l text : string) : Example :=
  {| label := l; value := text; copyValue := text |}.

Definition getConnectionExamples (container : Container.t) : E (list Example) :=
  let ip :=
    match Container.ipAddress container with
    | Some s => s
    | None => "undefined"
    end in
  let! imageLower := value_toLowerCase rt "container.image" (Container.image container) in
  let has := includes imageLower in
  inr
    ((* Database connections *)
     if has "redis" then
       [example "🔗 Redis CLI" ("redis-cli -h " ++ ip ++ " -p 6379")]
     else if has "postgres" || has "postgresql" then
       [example "🐘 PostgreSQL" ("psql -h " ++ ip ++ " -p 5432 -U postgres")]
     else if has "mysql" || has "mariadb" then
       let tool := if has "mariadb" then "mariadb" else "mysql" in
       [example "🐬 MySQL/MariaDB" (tool ++ " -h " ++ ip ++ " -P 3306 -u root -p")]
     else if has "mongo" then
       [example "🍃 MongoDB" ("mongosh mongodb://" ++ ip ++ ":27017")]
     else if has "cassandra" then
       [example "🔸 Cassandra" ("cqlsh " ++ ip ++ " 9042")]
     (* Web servers and frameworks *)
     else if has "nginx" || has "apache" || has "httpd" then
       [example "🌐 Web Server" ("curl http://" ++ ip ++ ":80")]
     else if has "node" || has "express" then
       [example "📗 Node.js App" ("curl http://" ++ ip ++ ":3000")]
     else if has "python" || has "flask" || has "django" then
       [example "🐍 Python App" ("curl http://" ++ ip ++ ":8000")]
     else if has "java" || has "spring" || has "tomcat" then
       [example "☕ Java App" ("curl http://" ++ ip ++ ":8080")]
     (* Message brokers and caches *)
     else if has "rabbitmq" then
       [example "🐰 RabbitMQ Management" ("http://" ++ ip ++ ":15672")]
     else if has "kafka" then
       [example "📨 Kafka Bootstrap" (ip ++ ":9092")]
     else if has "elasticsearch" then
       [example "🔍 Elasticsearch" ("curl http://" ++ ip ++ ":9200")]
     (* Development tools *)
     else if has "jenkins" then
       [example "🔧 Jenkins" ("http://" ++ ip ++ ":8080")]
     else if has "gitlab" then
       [example "🦊 GitLab" ("http://" ++ ip ++ ":80")]
     (* Generic fallbacks for common web ports *)
     else
       ((* Check if it's likely a web service *)
        (if has "web" || has "server" || has "api"
         then [example "🌐 Default Web Port" ("http://" ++ ip ++ ":8080")]
         else [])
        ++
        (* Always suggest common ports *)
        [{| label := "🔗 Common Ports";
            value := ip ++ ":PORT (80, 8080, 3000, 5000)";
            copyValue := ip ++ ":" |}])%list).

Definition item (l : string) (v : jsvalue) (t : string) (c : jsvalue)
  : ContainerDetailItem :=
  {| item_label := l; item_value := v; item_type := t; item_copyValue := c |}.

Definition getContainerDetails (container : Container.t) : E (list ContainerDetailItem) :=
  let details : list ContainerDetailItem := [] in
  let! statusLower := value_toLowerCase rt "container.status" (Container.status container) in
  let isRunning := includes statusLower "running" in
  let ipAddress := or_else_none (Container.ipAddress container) in
  (* Container ID (copyable) *)
  let details :=
    (details ++ [item "📋 Container ID" (Container.id container) "copy-id"
                   (Container.id container)])%list in
  (* IP Address (copyable if available) *)
  let details :=
    if present (Container.ipAddress container)
    then (details ++ [item "🌐 IP Address" (Js.str ipAddress) "copy-ip"
                        (Js.str ipAddress)])%list
    else details in
  (* Image (copyable) *)
  let details :=
    (details ++ [item "📦 Image" (Container.image container) "copy-image"
                   (Container.image container)])%list in
  (* Status (informational) *)
  let statusIcon := if isRunning then "▶️" else "⏹️" in
  let details :=
    (details ++ [item "📊 Status"
                   (Js.str (statusIcon ++ " " ++ template rt (Container.status container)))
                   "status" Js.undefined])%list in
  (* Dynamic connection examples based on container image *)
  let! details :=
    if present (Container.ipAddress container) && isRunning then
      let! connectionExamples := getConnectionExamples container in
      let details :=
        (details ++ map (fun e => item (label e) (Js.str (value e)) "copy-command"
                                    (Js.str (copyValue e))) connectionExamples)%list in
      (* Always include generic connection options *)
      let details :=
        (details ++ [item "🌍 Base URL" (Js.str ("http://" ++ ipAddress)) "copy-url"
                       (Js.str ("http://" ++ ipAddress))])%list in
      inr (details ++ [item "🖥️ SSH Access" (Js.str ("ssh user@" ++ ipAddress))
                         "copy-command" (Js.str ("ssh user@" ++ ipAddress))])%list
    else inr details in
  (* Platform info *)
  let details :=
    if present (Container.os container) && present (Container.arch container)
    then (details ++ [item "💻 Platform"
                        (Js.str (or_else_none (Container.os container) ++ "/"
                                 ++ or_else_none (Container.arch container)))
                        "platform" Js.undefined])%list
    else details in
  (* Created timestamp *)
  let details :=
    if nonempty (Container.created container)
       && negb (JsString.eqb (Container.created container) "Unknown")
    then (details ++ [item "🕒 Created" (Js.str (Container.created container))
                        "created" Js.undefined])%list
    else details in
  inr details.

End WithRuntime.

(** [new vscode.ThemeIcon(id, new vscode.ThemeColor(color))] *)
Record ThemeIcon : Type := {
  icon_id : string;
  icon_color : option string
}.

(** [class ContainerItem]: the tree item of a container.  Its command is
    showContainerDetails, with the container as its argument. *)
Record ContainerItem : Type := {
  ci_container : Container.t;
  ci_label : jsvalue;
  ci_description : string;
  ci_tooltip : string;
  ci_contextValue : string;
  ci_iconPath : ThemeIcon
}.

(** [class ImageItem]: the tree item of an image.  Its command is
    inspectImage, with the image as its argument. *)
Record ImageItem : Type := {
  ii_image : Image.t;
  ii_label : string;
  ii_tooltip : string;
  ii_description : string;
  ii_contextValue : string;
  ii_iconPath : ThemeIcon
}.

(** The [type] of a [SectionItem]. *)
Inductive SectionType : Type := containers | images.

(** [class SectionItem] *)
Record SectionItem : Type := {
  si_label : string;
  si_type : SectionType;
  si_contextValue : string;
  si_iconPath : ThemeIcon
}.

(** What the tree holds. *)
Inductive TreeElement : Type :=
| OfSection (section : SectionItem)
| OfContainer (containerItem : ContainerItem)
| OfImage (imageItem : ImageItem)
| OfDetail (detail : ContainerDetailItem).

Section Items.
Variable rt : Runtime.

Definition newSectionItem (l : string) (t : SectionType) : SectionItem :=
  {| si_label := l;
     si_type := t;
     si_contextValue :=
       "section-" ++ match t with containers => "containers" | images => "images" end;
     si_iconPath :=
       {| icon_id := match t with containers => "server-environment" | images => "package" end;
          icon_color := None |} |}.

(** [ContainerItem.buildTooltip] *)
Definition buildTooltip (container : Container.t) : string :=
  let lines :=
    ["Container: " ++ template rt (Js.or (Container.name container) (Js.str "N/A"));
     "ID: " ++ template rt (Container.id container);
     "Image: " ++ template rt (Container.image container);
     "Status: " ++ template rt (Container.status container);
     "Created: " ++ Container.created container;
     if present (Container.ports container)
     then "Ports: " ++ or_else_none (Container.ports container)
     else "Ports: N/A"] in
  join (String newline EmptyString) lines.

(** [container.image.includes('/') ? container.image.split('/').pop() ||
    container.image : container.image] *)
Definition imageShort (image : jsvalue) : E jsvalue :=
  let! hasSlash := value_includes "container.image" image "/" in
  if hasSlash then
    let! parts := value_split "container.image" image "/" in
    inr (Js.or (Js.str (last parts EmptyString)) image)
  else inr image.

(** The icon of a container, from its status in lower case. *)
Definition statusThemeIcon (statusLower : string) : ThemeIcon :=
  if includes statusLower "running" then
    {| icon_id := "play"; icon_color := Some "charts.green" |}
  else if includes statusLower "stopped" || includes statusLower "exited" then
    {| icon_id := "debug-stop"; icon_color := Some "charts.red" |}
  else
    {| icon_id := "circle-outline"; icon_color := None |}.

(** [new ContainerItem(container)] *)
Definition newContainerItem (container : Container.t) : E ContainerItem :=
  (* Display container name or short ID as the main label *)
  let! displayName :=
    if Js.truthy (Container.name container) then inr (Container.name container)
    else
      let! short := value_substring "container.id" (Container.id container) 12 in
      inr (Js.str short) in
  (* Enhanced description showing key info *)
  let! short := imageShort (Container.image container) in
  let description := template rt short ++ " • " ++ template rt (Container.status container) in
  let description :=
    if present (Container.ipAddress container)
    then description ++ " • " ++ or_else_none (Container.ipAddress container)
    else description in
  (* Enhanced tooltip with all details *)
  let tooltip := buildTooltip container in
  let! statusLower := value_toLowerCase rt "container.status" (Container.status container) in
  inr {| ci_container := container;
         ci_label := displayName;
         ci_description := description;
         ci_tooltip := tooltip;
         ci_contextValue := "container-" ++ statusLower;
         (* Set icon based on status *)
         ci_iconPath := statusThemeIcon statusLower |}.

(** [new ImageItem(image)] *)
Definition newImageItem (image : Image.t) : ImageItem :=
  {| ii_image := image;
     ii_label := Image.repository image ++ ":" ++ Image.tag image;
     ii_tooltip :=
       "ID: " ++ template rt (Image.id image) ++ String newline EmptyString
       ++ "Size: " ++ Image.size image ++ String newline EmptyString
       ++ "Created: " ++ Image.created image;
     ii_description := Image.size image;
     ii_contextValue := "image";
     ii_iconPath := {| icon_id := "package"; icon_color := None |} |}.

(** The tooltip that the constructor of [ContainerDetailItem] sets. *)
Definition detailTooltip (d : ContainerDetailItem) : string :=
  if Js.truthy (item_copyValue d)
  then item_label d ++ ": " ++ template rt (item_value d) ++ String newline EmptyString
       ++ "Click to copy: " ++ template rt (item_copyValue d)
  else item_label d ++ ": " ++ template rt (item_value d).

(** The icon that the constructor of [ContainerDetailItem] sets: the
    [switch] on its type. *)
Definition detailIcon (d : ContainerDetailItem) : E string :=
  let t := item_type d in
  if JsString.eqb t "copy-id" then inr "clippy"
  else if JsString.eqb t "copy-ip" then inr "globe"
  else if JsString.eqb t "copy-image" then inr "package"
  else if JsString.eqb t "copy-command" then inr "terminal"
  else if JsString.eqb t "copy-url" then inr "link-external"
  else if JsString.eqb t "status" then
    let! running := value_includes "value" (item_value d) "running" in
    inr (if running then "play" else "debug-stop")
  else if JsString.eqb t "platform" then inr "device-desktop"
  else if JsString.eqb t "created" then inr "clock"
  else if JsString.eqb t "id" then inr "symbol-string"
  else if JsString.eqb t "image" then inr "package"
  else if JsString.eqb t "ip" then inr "globe"
  else if JsString.eqb t "ports" then inr "plug"
  else if JsString.eqb t "access" then inr "link-external"
  else inr "circle-outline".

(** Whether the constructor makes the row a copy-to-clipboard command:
    [this.copyValue && type.startsWith('copy-')]. *)
Definition detailClickable (d : ContainerDetailItem) : bool :=
  Js.truthy (item_copyValue d) && JsString.prefix "copy-" (item_type d).

Definition getContainerItems (showAllContainers : bool) : M (list ContainerItem) :=
  try_catch
    (containerList <- ContainerManager.listContainers rt showAllContainers ;;
     lift (mapE newContainerItem containerList))
    (fun _ => ret []).

Definition getImageItems : M (list ImageItem) :=
  try_catch
    (imageList <- ContainerManager.listImages rt ;;
     ret (map newImageItem imageList))
    (fun _ => ret []).

(** [getChildren(element)], for the current value of [showAllContainers];
    [None] is the root. *)
Definition getChildren (showAllContainers : bool) (element : option TreeElement)
  : M (list TreeElement) :=
  match element with
  | None =>
      (* Root level - return containers and images sections *)
      ret [OfSection (newSectionItem "Containers" containers);
           OfSection (newSectionItem "Images" images)]
  | Some (OfSection section) =>
      match si_type section with
      | containers =>
          items <- getContainerItems showAllContainers ;;
          ret (map OfContainer items)
      | images =>
          items <- getImageItems ;;
          ret (map OfImage items)
      end
  | Some (OfContainer containerItem) =>
      details <- lift (getContainerDetails rt (ci_container containerItem)) ;;
      ret (map OfDetail details)
  | Some _ => ret []
  end.

(** [toggleShowAll]; returns the new value of [showAllContainers]. *)
Definition toggleShowAll (showAllContainers : bool) : M bool :=
  emit TreeRefresh ;;;
  ret (negb showAllContainers).

End Items.
End ContainerProvider.

(** ** extension.ts: the registered commands *)

Module Extension.
Section WithRuntime.
Variable rt : Runtime.

(** [xs.filter(p)] where [p] may throw. *)
Fixpoint filterE {A : Type} (p : A -> E bool) (xs : list A) : E (list A) :=
  match xs with
  | [] => inr []
  | x :: rest =>
      let! keep := p x in
      let! kept := filterE p rest in
      inr (if keep then x :: kept else kept)
  end.

Definition refresh : M unit := emit TreeRefresh.

(** The callers do not await [updateStatusBar], and each calls it as the
    last thing it does: its steps come after theirs, in their order. *)
Definition updateStatusBar : M unit :=
  try_catch
    (containers <- ContainerManager.listContainers rt false ;;
     running <- lift (filterE
                        (fun c =>
                           let! lower := value_toLowerCase rt "c.status" (Container.status c) in
                           inr (includes lower "running"))
                        containers) ;;
     let runningContainers := Number_toString rt (JsNumber.of_nat (List.length running)) in
     emit (StatusBar ("$(server-environment) " ++ runningContainers ++ " running")
             (runningContainers ++ " containers running. Click to refresh.")))
    (fun _ =>
       emit (StatusBar "$(server-environment) Container CLI unavailable"
               "Apple Container CLI is not available")).

(** [`${item.container.name || item.container.id}`] *)
Definition displayName (c : Container.t) : string :=
  template rt (Js.or (Container.name c) (Container.id c)).

Definition refreshContainers : M unit :=
  refresh ;;; updateStatusBar.

Definition refreshImages : M unit := refresh.

Definition pruneImages : M unit :=
  success <- ContainerManager.pruneImages ;;
  if success then refresh else ret tt.

(** A tree item argument: [None] when [item && item.container] is falsy. *)
Definition startContainer (item : option Container.t) : M unit :=
  match item with
  | Some container =>
      ContainerManager.startContainer rt (Container.id container) ;;;
      refresh ;;;
      updateStatusBar
  | None => ret tt
  end.

Definition stopContainer (item : option Container.t) : M unit :=
  match item with
  | Some container =>
      ContainerManager.stopContainer rt (Container.id container) ;;;
      refresh ;;;
      updateStatusBar
  | None => ret tt
  end.

Definition removeContainer (item : option Container.t) : M unit :=
  match item with
  | Some container =>
      confirm <- showWarningMessage
        ("Are you sure you want to remove container " ++ dquote
         ++ displayName container ++ dquote ++ "?")
        ["Yes"; "No"] ;;
      if confirmed confirm then
        ContainerManager.removeContainer rt (Container.id container) false ;;;
        refresh ;;;
        updateStatusBar
      else ret tt
  | None => ret tt
  end.

Definition forceRemoveContainer (item : option Container.t) : M unit :=
  match item with
  | Some container =>
      confirm <- showWarningMessage
        ("Are you sure you want to force remove container " ++ dquote
         ++ displayName container ++ dquote ++ "?")
        ["Yes"; "No"] ;;
      if confirmed confirm then
        ContainerManager.removeContainer rt (Container.id container) true ;;;
        refresh ;;;
        updateStatusBar
      else ret tt
  | None => ret tt
  end.

(** [if (inspection) { openTextDocument(...); showTextDocument(doc) }] *)
Definition showInspection (inspection : json) : M unit :=
  if Js.truthy (Some inspection)
  then emit (OpenDocument (JSON_stringify rt inspection))
  else ret tt.

Definition inspectContainer (container : Container.t) : M unit :=
  inspection <- ContainerManager.inspectContainer rt (Container.id container) ;;
  showInspection inspection.

Definition execInContainer (item : option Container.t) : M unit :=
  match item with
  | Some container =>
      command <- showInputBox "Enter command to execute" ;;
      if present command
      then ContainerManager.execInContainer rt (Container.id container)
             (or_else_none command)
      else ret tt
  | None => ret tt
  end.

Definition removeImage (item : option Image.t) : M unit :=
  match item with
  | Some image =>
      confirm <- showWarningMessage
        ("Are you sure you want to remove image " ++ dquote
         ++ Image.repository image ++ ":" ++ Image.tag image ++ dquote ++ "?")
        ["Yes"; "No"] ;;
      if confirmed confirm then
        ContainerManager.removeImage rt (Image.id image) ;;;
        refresh
      else ret tt
  | None => ret tt
  end.

Definition inspectImage (image : Image.t) : M unit :=
  inspection <- ContainerManager.inspectImageJson rt (Image.reference image) ;;
  showInspection inspection.

(** [ports.split(',').map(p => p.trim()).filter(p => p)] *)
Definition splitPorts (ports : string) : list string :=
  filter nonempty (map trim (split "," ports)).

Definition runFromImage (item : option Image.t) : M unit :=
  match item with
  | Some image =>
      name <- showInputBox "Container name (optional)" ;;
      match name with
      | None => ret tt          (* the user cancelled the input *)
      | Some name =>
          ports <- showInputBox
            "Ports to expose (for reference, comma-separated, e.g., 80,3000,6379)" ;;
          match ports with
          | None => ret tt      (* the user cancelled the input *)
          | Some ports =>
              let options :=
                {| RunOptions.name := if nonempty name then Some name else None;
                   RunOptions.ports := None;
                   (* Store ports for reference (not used in command but for user info) *)
                   RunOptions.referencePorts :=
                     if nonempty ports then Some (splitPorts ports) else None;
                   RunOptions.volumes := None;
                   RunOptions.env := None;
                   RunOptions.detach := Some true;
                   RunOptions.interactive := Some true;
                   RunOptions.tty := Some true;
                   RunOptions.remove := None;
                   RunOptions.command := None;
                   RunOptions.workdir := None;
                   RunOptions.user := None;
                   RunOptions.entrypoint := None;
                   RunOptions.cpus := None;
                   RunOptions.memory := None;
                   RunOptions.network := None;
                   RunOptions.labels := None;
                   RunOptions.dns := None |} in
              ContainerManager.runContainer rt
                (Image.repository image ++ ":" ++ Image.tag image) (Some options) ;;;
              refresh ;;;
              updateStatusBar
          end
      end
  | None => ret tt
  end.

Definition pullImage : M unit :=
  image <- showInputBox "Enter image name to pull (e.g., nginx:latest)" ;;
  if present image then
    ContainerManager.pullImage (or_else_none image) ;;;
    refresh
  else ret tt.

Definition workspaceFolders : M (option string) :=
  fun env tr => (inr (workspaceFolder env), tr).

Definition buildImage : M unit :=
  folder <- workspaceFolders ;;
  match folder with
  | None => showErrorMessage "No workspace folder open"
  | Some _ =>
      contextPath <- showInputBox "Build context path" ;;
      match contextPath with
      | None => ret tt
      | Some contextPath =>
          tag <- showInputBox "Image tag (optional)" ;;
          match tag with
          | None => ret tt
          | Some tag =>
              dockerfile <- showInputBox "Dockerfile path (optional)" ;;
              match dockerfile with
              | None => ret tt
              | Some dockerfile =>
                  if nonempty contextPath then
                    ContainerManager.buildImage contextPath (Some tag) (Some dockerfile) ;;;
                    refresh
                  else ret tt
              end
          end
      end
  end.

(** The handler of containerLogs and of streamLogs. *)
Definition streamLogs (item : option Container.t) : M unit :=
  match item with
  | Some container =>
      ContainerManager.streamContainerLogs rt (Container.id container)
        (Container.name container)
  | None => ret tt
  end.

End WithRuntime.
End Extension.

(** ** containerDetails.ts: the message handler of ContainerDetailsPanel *)

Module ContainerDetailsPanel.
Section WithRuntime.
Variable rt : Runtime.

(** [_getHtmlForWebview]: its first statement lowers the status, which
    throws when the status is not a string; nothing else in it throws. *)
Definition getHtmlForWebview (container : Container.t) (inspectionData : json) : E Html :=
  let! statusLower := value_toLowerCase rt "container.status" (Container.status container) in
  let isRunning := includes statusLower "running" in
  inr {| html_container := container; html_inspectionData := inspectionData |}.

(** [_update] *)
Definition update (container : Container.t) : M unit :=
  (* Get detailed inspection data *)
  inspectionData <-
    try_catch (ContainerManager.inspectContainer rt (Container.id container))
      (fun _ => ret JNull) ;;   (* Inspection might fail if container doesn't exist anymore *)
  html <- lift (getHtmlForWebview container inspectionData) ;;
  emit (PanelHtml html).

(** [_refreshContainer]; returns the new value of [this._container].  The
    message handler does not await it, and calls it as the last thing it
    does: its steps come after those of the handler.  The field
    is assigned before [_update] is called, so what [_update] throws is
    caught with the field already changed: the catch clause stands twice
    here, once for each value of the field. *)
Definition refreshContainer (container : Container.t) : M Container.t :=
  let failed (current : Container.t) (error : exn) : M Container.t :=
    showErrorMessage ("Failed to refresh container: " ++ exn_text error) ;;;
    ret current in
  try_catch
    (containers <- ContainerManager.listContainers rt true ;;
     match find (fun c => Js.strict_eq (Container.id c) (Container.id container))
             containers with
     | Some updated =>
         emit (PanelTitle
                 ("Container: "
                  ++ template rt (Js.or (Container.name updated) (Container.id updated)))) ;;;
         try_catch (update updated ;;; ret updated) (failed updated)
     | None => ret container
     end)
    (failed container).

(** The callback of [onDidReceiveMessage], on [message.command]; returns
    the new value of [this._container]. *)
Definition onDidReceiveMessage (container : Container.t) (command : string)
  : M Container.t :=
  if JsString.eqb command "startContainer" then
    ContainerManager.startContainer rt (Container.id container) ;;;
    refreshContainer container
  else if JsString.eqb command "stopContainer" then
    ContainerManager.stopContainer rt (Container.id container) ;;;
    refreshContainer container
  else if JsString.eqb command "removeContainer" then
    confirm <- showWarningMessage
      ("Are you sure you want to remove container " ++ dquote
       ++ template rt (Js.or (Container.name container) (Container.id container))
       ++ dquote ++ "?")
      ["Yes"; "No"] ;;
    if confirmed confirm then
      ContainerManager.removeContainer rt (Container.id container) false ;;;
      emit PanelDispose ;;;
      ret container
    else ret container
  else if JsString.eqb command "viewLogs" then
    ContainerManager.streamContainerLogs rt (Container.id container)
      (Container.name container) ;;;
    ret container
  else if JsString.eqb command "refresh" then
    refreshContainer container
  else ret container.

End WithRuntime.
End ContainerDetailsPanel.

(** ** containerForm.ts: the message handler of ContainerFormPanel *)

Module ContainerFormPanel.

(** The [data] that the form's script posts with runContainer: the values
    of its text fields and text areas, and the states of its check boxes.
    The script sets no network. *)
Record FormData : Type := {
  image : string;
  name : string;
  command : string;
  detach : bool;
  interactive : bool;
  tty : bool;
  remove : bool;
  ports : string;
  dns : string;
  volumes : string;
  workdir : string;
  user : string;
  entrypoint : string;
  cpus : string;
  memory : string;
  env : string;
  labels : string;
  network : option string
}.

Section WithRuntime.
Variable rt : Runtime.

(** [text || undefined] *)
Definition orUndefined (text : string) : option string :=
  if nonempty text then Some text else None.

(** [text ? text.split('\n').filter(x => x.trim()) : []] *)
Definition lines (text : string) : list string :=
  if nonempty text
  then filter (fun x => nonempty (trim x)) (split newline text)
  else [].

(** The options that [_handleRunContainer] builds from the data. *)
Definition optionsOf (data : FormData) : RunOptions.t :=
  {| RunOptions.name := orUndefined (name data);
     RunOptions.ports := None;
     RunOptions.referencePorts := Some (lines (ports data));
     RunOptions.volumes := Some (lines (volumes data));
     RunOptions.env := Some (lines (env data));
     RunOptions.detach := Some (detach data);
     RunOptions.interactive := Some (interactive data);
     RunOptions.tty := Some (tty data);
     RunOptions.remove := Some (remove data);
     RunOptions.command := orUndefined (command data);
     RunOptions.workdir := orUndefined (workdir data);
     RunOptions.user := orUndefined (user data);
     RunOptions.entrypoint := orUndefined (entrypoint data);
     RunOptions.cpus := if nonempty (cpus data) then Some (parseFloat rt (cpus data)) else None;
     RunOptions.memory := orUndefined (memory data);
     RunOptions.network :=
       match network data with
       | Some n => orUndefined n
       | None => None
       end;
     RunOptions.labels := Some (lines (labels data));
     RunOptions.dns := Some (lines (dns data)) |}.

(** [_handleRunContainer]; [this._panel.dispose()] is the event
    [PanelDispose]. *)
Definition handleRunContainer (data : FormData) : M unit :=
  try_catch
    (success <- ContainerManager.runContainerAdvanced rt (image data) (Some (optionsOf data)) ;;
     if success then
       showInformationMessage "Container started successfully" ;;;
       emit PanelDispose
     else ret tt)
    (fun error => showErrorMessage ("Failed to run container: " ++ exn_text error)).

(** The callback of [onDidReceiveMessage], on [message.command] and
    [message.data]. *)
Definition onDidReceiveMessage (command : string) (data : FormData) : M unit :=
  if JsString.eqb command "runContainer" then handleRunContainer data
  else if JsString.eqb command "closePanel" then emit PanelDispose
  else ret tt.

End WithRuntime.
End ContainerFormPanel.

(** ** A runtime for the examples *)

(** A small instance of [Runtime], used to run the model on concrete inputs.
    Its [JSON_parse] reads null, true, false, integers, strings with the
    one-letter escapes, arrays and objects; its [JSON_stringify] prints
    without indentation. *)
Module ExampleRuntime.

Definition is_json_space (c : char) : bool :=
  ((c =? 32) || (c =? 9) || (c =? 10) || (c =? 13))%N.

Fixpoint skip_space (s : string) : string :=
  match s with
  | String c s' => if is_json_space c then skip_space s' else s
  | EmptyString => EmptyString
  end.

Definition is_digit (c : char) : bool :=
  ((48 <=? c) && (c <=? 57))%N.

(** The digits at the start of [s], as a number, and the rest. *)
Fixpoint digits (acc : Z) (s : string) : Z * string :=
  match s with
  | String c s' =>
      if is_digit c
      then digits (10 * acc + Z.of_N (c - 48))%Z s'
      else (acc, s)
  | EmptyString => (acc, s)
  end.

Definition ends_number (s : string) : bool :=
  match s with
  | String c _ => negb (N.eqb c "."%char || N.eqb c "e"%char || N.eqb c "E"%char)
  | EmptyString => true
  end.

Definition numeral (s : string) : option (json * string) :=
  match s with
  | String c s' =>
      if N.eqb c "-"%char then
        match s' with
        | String d _ =>
            if is_digit d then
              let (n, rest) := digits 0 s' in
              if ends_number rest then Some (JNum (SFopp (JsNumber.of_Z n)), rest) else None
            else None
        | EmptyString => None
        end
      else if is_digit c then
        let (n, rest) := digits 0 s in
        if ends_number rest then Some (JNum (JsNumber.of_Z n), rest) else None
      else None
  | EmptyString => None
  end.

Definition unescape (c : char) : option char :=
  if ((c =? 34) || (c =? 92) || (c =? 47))%N then Some c
  else if N.eqb c "b"%char then Some 8%N
  else if N.eqb c "f"%char then Some 12%N
  else if N.eqb c "n"%char then Some 10%N
  else if N.eqb c "r"%char then Some 13%N
  else if N.eqb c "t"%char then Some 9%N
  else None.

(** The characters up to the closing quote, and the rest after it. *)
Fixpoint chars (s : string) : option (string * string) :=
  match s with
  | EmptyString => None
  | String c s' =>
      if (c =? 34)%N then Some (EmptyString, s')
      else if (c =? 92)%N then
        match s' with
        | String e s'' =>
            match unescape e, chars s'' with
            | Some c', Some (body, rest) => Some (String c' body, rest)
            | _, _ => None
            end
        | EmptyString => None
        end
      else if (c <? 32)%N then None
      else
        match chars s' with
        | Some (body, rest) => Some (String c body, rest)
        | None => None
        end
  end.

Definition literal (word : string) (v : json) (s : string) : option (json * string) :=
  if JsString.prefix word s
  then Some (v, JsString.substring (JsString.length word) (JsString.length s) s)
  else None.

Fixpoint element (fuel : nat) (s : string) : option (json * string) :=
  match fuel with
  | O => None
  | S fuel' =>
      match skip_space s with
      | EmptyString => None
      | String c rest as text =>
          if (c =? 34)%N then
            match chars rest with
            | Some (body, rest') => Some (JStr body, rest')
            | None => None
            end
          else if N.eqb c "["%char then
            match skip_space rest with
            | String d rest' =>
                if N.eqb d "]"%char then Some (JArr [], rest')
                else
                  match elements fuel' rest with
                  | Some (items, rest'') => Some (JArr items, rest'')
                  | None => None
                  end
            | EmptyString => None
            end
          else if N.eqb c "{"%char then
            match skip_space rest with
            | String d rest' =>
                if N.eqb d "}"%char then Some (JObj [], rest')
                else
                  match members fuel' rest with
                  | Some (ms, rest'') => Some (JObj ms, rest'')
                  | None => None
                  end
            | EmptyString => None
            end
          else if N.eqb c "n"%char then literal "null" JNull text
          else if N.eqb c "t"%char then literal "true" (JBool true) text
          else if N.eqb c "f"%char then literal "false" (JBool false) text
          else numeral text
      end
  end
with elements (fuel : nat) (s : string) : option (list json * string) :=
  match fuel with
  | O => None
  | S fuel' =>
      match element fuel' s with
      | Some (v, rest) =>
          match skip_space rest with
          | String c rest' =>
              if N.eqb c ","%char then
                match elements fuel' rest' with
                | Some (vs, rest'') => Some (v :: vs, rest'')
                | None => None
                end
              else if N.eqb c "]"%char then Some ([v], rest')
              else None
          | EmptyString => None
          end
      | None => None
      end
  end
with members (fuel : nat) (s : string) : option (list (string * json) * string) :=
  match fuel with
  | O => None
  | S fuel' =>
      match skip_space s with
      | String c rest =>
          if (c =? 34)%N then
            match chars rest with
            | Some (key, rest1) =>
                match skip_space rest1 with
                | String colon rest2 =>
                    if N.eqb colon ":"%char then
                      match element fuel' rest2 with
                      | Some (v, rest3) =>
                          match skip_space rest3 with
                          | String d rest4 =>
                              if N.eqb d ","%char then
                                match members fuel' rest4 with
                                | Some (ms, rest5) => Some ((key, v) :: ms, rest5)
                                | None => None
                                end
                              else if N.eqb d "}"%char then Some ([(key, v)], rest4)
                              else None
                          | EmptyString => None
                          end
                      | None => None
                      end
                    else None
                | EmptyString => None
                end
            | None => None
            end
          else None
      | EmptyString => None
      end
  end.

Definition parse (text : string) : string + json :=
  match element (S (JsString.length text)) text with
  | Some (v, rest) =>
      match skip_space rest with
      | EmptyString => inr v
      | String _ _ => inl "Unexpected non-whitespace character after JSON"
      end
  | None => inl "Unexpected token in JSON"
  end.

Fixpoint decimal_digits (fuel : nat) (n : Z) (acc : string) : string :=
  match fuel with
  | O => acc
  | S fuel' =>
      let acc' := String (48 + Z.to_N (n mod 10))%N acc in
      if (n <? 10)%Z then acc' else decimal_digits fuel' (n / 10) acc'
  end.

Definition decimal (n : Z) : string :=
  if (n <? 0)%Z
  then "-" ++ decimal_digits (S (Z.to_nat (Z.log2 (- n)))) (- n) EmptyString
  else decimal_digits (S (Z.to_nat (Z.log2 n))) n EmptyString.

(** The digits after the decimal point of [r / 2 ^ k], for [r] below
    [2 ^ k]: the expansion ends, at the latest after [k] digits. *)
Fixpoint fraction_digits (fuel : nat) (r k : Z) : string :=
  match fuel with
  | O => EmptyString
  | S fuel' =>
      if (r =? 0)%Z then EmptyString
      else String (48 + Z.to_N ((10 * r) / 2 ^ k))%N
             (fraction_digits fuel' ((10 * r) mod 2 ^ k) k)
  end.

(** [`${n}`]: the exact decimal expansion, which is what ECMAScript prints
    for the integers below 10^21 and for the fractions whose shortest
    round-trip text is the exact one (0.5, 1.25, ...). *)
Definition number_text (n : number) : string :=
  match n with
  | S754_zero _ => "0"
  | S754_nan => "NaN"
  | S754_infinity s => if s then "-Infinity" else "Infinity"
  | S754_finite s m e =>
      (if s then "-" else EmptyString)
      ++ (if (0 <=? e)%Z then decimal (Zpos m * 2 ^ e)
          else
            let k := (- e)%Z in
            let r := (Zpos m mod 2 ^ k)%Z in
            decimal (Zpos m / 2 ^ k)
            ++ (if (r =? 0)%Z then EmptyString
                else "." ++ fraction_digits (Z.to_nat k) r k))
  end.

Fixpoint text_of (v : json) : string :=
  match v with
  | JNull => "null"
  | JBool b => if b then "true" else "false"
  | JNum n => number_text n
  | JStr s => s
  | JArr items =>
      join "," (map (fun x => match x with JNull => EmptyString | _ => text_of x end) items)
  | JObj _ => "[object Object]"
  end.

Definition to_string (v : jsvalue) : string :=
  match v with
  | None => "undefined"
  | Some j => text_of j
  end.

Fixpoint stringify (v : json) : string :=
  match v with
  | JNull => "null"
  | JBool b => if b then "true" else "false"
  | JNum n => number_text n
  | JStr s => dquote ++ s ++ dquote
  | JArr items => "[" ++ join "," (map stringify items) ++ "]"
  | JObj ms =>
      "{" ++ join "," (map (fun m => dquote ++ fst m ++ dquote ++ ":" ++ stringify (snd m)) ms)
      ++ "}"
  end.

(** [Math.round(x)] for [x = z * 2 ^ e]: the integer nearest to [x], the
    greater one at a tie. *)
Definition round (z e : Z) : Z :=
  if (0 <=? e)%Z then (z * 2 ^ e)%Z
  else ((2 * z + 2 ^ (- e)) / 2 ^ (1 - e))%Z.

(** [`${Math.round(v / 1024)}`] for a number, whose division by 1024 is
    exact, and for true; any other truthy value is taken as not numeric. *)
Definition kilobytes (v : json) : string :=
  match v with
  | JNum (S754_finite s m e) => decimal (round (if s then Zneg m else Zpos m) (e - 10))
  | JNum n => number_text n
  | JBool true => "0"
  | _ => "NaN"
  end.

(** The value of an unsigned decimal literal without exponent at the start
    of [s]; NaN when there is none. *)
Definition unsigned_literal (s : string) : number :=
  match s with
  | String c _ =>
      if is_digit c || N.eqb c "."%char then
        let (whole, rest) := digits 0 s in
        match rest with
        | String dot after =>
            if N.eqb dot "."%char then
              let (scaled, rest') := digits whole after in
              let places := (JsString.length after - JsString.length rest')%nat in
              if (N.eqb c "."%char && (places =? 0)%nat)%bool then S754_nan
              else SFdiv 53 1024 (JsNumber.of_Z scaled) (JsNumber.of_Z (10 ^ Z.of_nat places))
            else JsNumber.of_Z whole
        | EmptyString => JsNumber.of_Z whole
        end
      else S754_nan
  | EmptyString => S754_nan
  end.

(** [parseFloat(s)] for the decimal literals without exponent. *)
Definition parse_float (s : string) : number :=
  match trim_start s with
  | String c rest as text =>
      if N.eqb c "-"%char then SFopp (unsigned_literal rest)
      else if N.eqb c "+"%char then unsigned_literal rest
      else unsigned_literal text
  | EmptyString => S754_nan
  end.

Definition runtime : Runtime :=
  {| JSON_parse := parse;
     JSON_stringify := stringify;
     toLowerCase := lower;
     Number_toString := number_text;
     parseFloat := parse_float;
     ToString := to_string;
     round_kb := kilobytes |}.

(** The world in which the JSON listing prints [jsonOutput], the table
    listing prints [tableOutput], every other command prints nothing, and
    the user gives [answer] to every question. *)
Definition world (jsonOutput tableOutput : string) (answer : option string) : Env :=
  {| cli := fun _ cmd =>
              if JsString.prefix "container list" cmd || JsString.prefix "container image list" cmd
              then inr jsonOutput
              else if JsString.prefix "container ls" cmd then inr tableOutput
              else inr EmptyString;
     user := fun _ => answer;
     workspaceFolder := Some "/work" |}.

(** The world in which every command fails with [text]. *)
Definition broken (text : string) : Env :=
  {| cli := fun _ _ => inl text;
     user := fun _ => None;
     workspaceFolder := None |}.

End ExampleRuntime.

(** * The vocabulary of the properties *)

(** The definitions below name what the theorems talk about; those that
    restate the specification say so. *)

(** A line that the parser keeps: six tokens or more. *)
Definition long (line : string) : bool :=
  (6 <=? List.length (split_ws (trim line)))%nat.

Definition jsonCmd (all : bool) : string :=
  if all then "container list --all --format json" else "container list --format json".

Definition tableCmd (all : bool) : string :=
  if all then "container ls --all" else "container ls".

Definition imagesCmd : string := "container image list --format json".

(** [rawContainer.configuration || {}] *)
Definition rawConfig (rawContainer : json) : jsvalue :=
  Js.or (Js.get_opt (Some rawContainer) "configuration") Js.empty_object.

(** [config.id || 'unknown']: the id under which the entry is joined. *)
Definition rawId (rawContainer : json) : jsvalue :=
  Js.or (Js.get_opt (rawConfig rawContainer) "id") (Js.str "unknown").

(** [config.hostname || id] *)
Definition rawName (rawContainer : json) : jsvalue :=
  Js.or (Js.get_opt (rawConfig rawContainer) "hostname") (rawId rawContainer).

(** The table entry joined to an id: the first one with that id. *)
Definition tableEntryFor (containerTable : list TableEntry.t) (id : jsvalue)
  : option TableEntry.t :=
  find (fun entry => Js.strict_eq_string (TableEntry.id entry) id) containerTable.

(** The reconciliation in the words of the specification.  The rows of the
    table listing are its lines after the header, each cut into its
    white-space separated tokens, without the lines of fewer than six
    tokens. *)
Definition tableRows (tableOutput : string) : list (list string) :=
  filter (fun tokens => (6 <=? List.length tokens)%nat)
    (map (fun line => split_ws (trim line)) (skipn 1 (split newline tableOutput))).

(** The row joined to an id: the first row whose first token is the id,
    under strict equality. *)
Definition rowFor (tableOutput : string) (id : jsvalue) : option (list string) :=
  find (fun tokens => Js.strict_eq_string (nth 0 tokens EmptyString) id)
    (tableRows tableOutput).

(** The address of a row: its sixth token, unless that is the text N/A. *)
Definition rowAddress (tokens : list string) : option string :=
  if JsString.eqb (nth 5 tokens EmptyString) "N/A" then None
  else Some (nth 5 tokens EmptyString).

(** The table entry of a row. *)
Definition entryOf (tokens : list string) : TableEntry.t :=
  {| TableEntry.id := nth 0 tokens EmptyString;
     TableEntry.os := Some (nth 2 tokens EmptyString);
     TableEntry.arch := Some (nth 3 tokens EmptyString);
     TableEntry.ipAddress := rowAddress tokens |}.

(** The merged record of a JSON entry: identity, image and status from the
    entry; address, system and architecture from the row joined to its id,
    and absent when there is no such row. *)
Definition mergedRecord (tableOutput : string) (rawContainer : json) : Container.t :=
  let row := rowFor tableOutput (rawId rawContainer) in
  {| Container.id := rawId rawContainer;
     Container.name := rawName rawContainer;
     Container.image :=
       Js.or (Js.get_opt (Js.get_opt (rawConfig rawContainer) "image") "reference")
         (Js.str "unknown");
     Container.status := Js.or (Js.get_opt (Some rawContainer) "status") (Js.str "unknown");
     Container.ports := Some EmptyString;
     Container.created := "unknown";
     Container.ipAddress := opt_get rowAddress row;
     Container.os := option_map (fun tokens => nth 2 tokens EmptyString) row;
     Container.arch := option_map (fun tokens => nth 3 tokens EmptyString) row |}.

(** An array element on which the callback of the listing throws. *)
Definition isNull (rawContainer : json) : bool :=
  match rawContainer with
  | JNull => true
  | _ => false
  end.

(** The container listing fails: one of its two commands is rejected, or
    [JSON.parse] rejects the output of the first. *)
Definition containersListingFails (rt : Runtime) (env : Env) (tr : list Event) (all : bool)
  : bool :=
  match cli env tr (jsonCmd all) with
  | inl _ => true
  | inr jsonOutput =>
      match JSON_parse rt jsonOutput with
      | inl _ => true
      | inr _ =>
          match cli env (tr ++ [Exec (jsonCmd all)]) (tableCmd all) with
          | inl _ => true
          | inr _ => false
          end
      end
  end.

Definition imagesListingFails (rt : Runtime) (env : Env) (tr : list Event) : bool :=
  match cli env tr imagesCmd with
  | inl _ => true
  | inr stdout =>
      match JSON_parse rt stdout with
      | inl _ => true
      | inr _ => false
      end
  end.

Definition isExec (e : Event) : Prop :=
  match e with
  | Exec _ => True
  | _ => False
  end.

(** [c] occurs in [s]. *)
Fixpoint occurs (c : char) (s : string) : bool :=
  match s with
  | EmptyString => false
  | String a s' => N.eqb a c || occurs c s'
  end.

(** The end-to-end scenario of the specification. *)
Definition scenarioPayload : string :=
  q "[{'configuration':{'id':'abc','hostname':'web1','image':{'reference':'nginx:latest'}},'status':'running'}]".

(** The value of [scenarioPayload]. *)
Definition scenarioValue : json :=
  JArr [JObj [("configuration",
               JObj [("id", JStr "abc");
                     ("hostname", JStr "web1");
                     ("image", JObj [("reference", JStr "nginx:latest")])]);
              ("status", JStr "running")]].

Definition scenarioLine : string := "abc  -  linux  arm64  -  10.0.0.5".

Definition scenarioRecord : Container.t :=
  {| Container.id := Js.str "abc";
     Container.name := Js.str "web1";
     Container.image := Js.str "nginx:latest";
     Container.status := Js.str "running";
     Container.ports := Some EmptyString;
     Container.created := "unknown";
     Container.ipAddress := Some "10.0.0.5";
     Container.os := Some "linux";
     Container.arch := Some "arm64" |}.

(** The row that [getContainerDetails] pushes last for a record whose
    [created] is the text unknown. *)
Definition createdRow : ContainerProvider.ContainerDetailItem :=
  ContainerProvider.item "🕒 Created" (Js.str "unknown") "created" Js.undefined.

Definition redisExample (ip : string) : ContainerProvider.Example :=
  ContainerProvider.example "🔗 Redis CLI" ("redis-cli -h " ++ ip ++ " -p 6379").

Definition webServerExample (ip : string) : ContainerProvider.Example :=
  ContainerProvider.example "🌐 Web Server" ("curl http://" ++ ip ++ ":80").

(** The image-name fragments that the connection heuristic knows, in the
    order of the specification. *)
Definition knownFragments : list string :=
  ["redis"; "postgres"; "postgresql"; "mysql"; "mariadb"; "mongo"; "cassandra";
   "nginx"; "apache"; "httpd"; "node"; "express"; "python"; "flask"; "django";
   "java"; "spring"; "tomcat"; "rabbitmq"; "kafka"; "elasticsearch"; "jenkins"; "gitlab"].

(** The fragments that make an image a likely web service. *)
Definition webFragments : list string := ["web"; "server"; "api"].

(** [text] contains one of the [fragments]. *)
Definition names (fragments : list string) (text : string) : bool :=
  existsb (includes text) fragments.

(** The address that the examples show: the text undefined when the record
    has none. *)
Definition shownAddress (c : Container.t) : string :=
  match Container.ipAddress c with
  | Some ip => ip
  | None => "undefined"
  end.

Definition defaultWebPortExample (ip : string) : ContainerProvider.Example :=
  ContainerProvider.example "🌐 Default Web Port" ("http://" ++ ip ++ ":8080").

Definition commonPortsExample (ip : string) : ContainerProvider.Example :=
  {| ContainerProvider.label := "🔗 Common Ports";
     ContainerProvider.value := ip ++ ":PORT (80, 8080, 3000, 5000)";
     ContainerProvider.copyValue := ip ++ ":" |}.

(** The segments of the command line, in the words of the specification. *)
Definition flag (on : bool) (text : string) : string :=
  if on then text else EmptyString.

(** A flag with a value: emitted when the value is there and not empty. *)
Definition valued (text : string) (v : option string) : string :=
  flag (present v) (text ++ or_else_none v).

Definition quoted (text : string) (v : option string) : string :=
  flag (present v) (text ++ dquote ++ or_else_none v ++ dquote).

(** A flag that is repeated: once per item, in the order of the items. *)
Definition repeated (text : string) (xs : option (list string)) : string :=
  match xs with
  | Some items => fold_right (fun x rest => text ++ x ++ rest) EmptyString items
  | None => EmptyString
  end.

Definition runtimeFlags (options : option RunOptions.t) : string :=
  flag (set (opt_get RunOptions.detach options)) " --detach"
  ++ flag (set (opt_get RunOptions.interactive options)) " --interactive"
  ++ flag (set (opt_get RunOptions.tty options)) " --tty"
  ++ flag (set (opt_get RunOptions.remove options)) " --rm".

Definition identityFlags (options : option RunOptions.t) : string :=
  valued " --name " (opt_get RunOptions.name options)
  ++ quoted " --workdir " (opt_get RunOptions.workdir options)
  ++ valued " --user " (opt_get RunOptions.user options)
  ++ quoted " --entrypoint " (opt_get RunOptions.entrypoint options).

Definition repeatedFlags (options : option RunOptions.t) : string :=
  repeated " --dns " (opt_get RunOptions.dns options)
  ++ repeated " -v " (opt_get RunOptions.volumes options)
  ++ repeated " -e " (opt_get RunOptions.env options)
  ++ repeated " -l " (opt_get RunOptions.labels options).

Definition commandOverride (options : option RunOptions.t) : string :=
  valued " " (opt_get RunOptions.command options).

Section CommandLine.
Variable rt : Runtime.

Definition resourceFlags (options : option RunOptions.t) : string :=
  match opt_get RunOptions.cpus options with
  | Some n => flag (JsNumber.truthy n) (" --cpus " ++ Number_toString rt n)
  | None => EmptyString
  end
  ++ valued " --memory " (opt_get RunOptions.memory options).

(** The command line as the specification orders it. *)
Definition runCommandSpec (image : string) (options : option RunOptions.t) : string :=
  "container run"
  ++ runtimeFlags options
  ++ identityFlags options
  ++ resourceFlags options
  ++ repeatedFlags options
  ++ " " ++ image
  ++ commandOverride options.

(** The command line that deletes a container. *)
Definition deleteCommand (force : bool) (c : Container.t) : string :=
  "container delete" ++ (if force then " --force" else EmptyString) ++ " "
  ++ template rt (Container.id c).

End CommandLine.

(** The options with other ports, reference ports and network. *)
Definition withPortsAndNetwork (o : RunOptions.t)
  (ports referencePorts : option (list string)) (network : option string)
  : RunOptions.t :=
  {| RunOptions.name := RunOptions.name o;
     RunOptions.ports := ports;
     RunOptions.referencePorts := referencePorts;
     RunOptions.volumes := RunOptions.volumes o;
     RunOptions.env := RunOptions.env o;
     RunOptions.detach := RunOptions.detach o;
     RunOptions.interactive := RunOptions.interactive o;
     RunOptions.tty := RunOptions.tty o;
     RunOptions.remove := RunOptions.remove o;
     RunOptions.command := RunOptions.command o;
     RunOptions.workdir := RunOptions.workdir o;
     RunOptions.user := RunOptions.user o;
     RunOptions.entrypoint := RunOptions.entrypoint o;
     RunOptions.cpus := RunOptions.cpus o;
     RunOptions.memory := RunOptions.memory o;
     RunOptions.network := network;
     RunOptions.labels := RunOptions.labels o;
     RunOptions.dns := RunOptions.dns o |}.

(** The reference ports that were supplied: a list that is there and is
    not empty. *)
Definition suppliedPorts (options : option RunOptions.t) : option (list string) :=
  match opt_get RunOptions.referencePorts options with
  | Some (p :: ps) => Some (p :: ps)
  | _ => None
  end.

(** What follows the run command in the trace of the run: the timer of the
    advisory when reference ports were supplied, and nothing otherwise. *)
Definition advisoryTimer (options : option RunOptions.t) : list Event :=
  match suppliedPorts options with
  | Some items => [SetTimeout (AccessInstructions (join ", " items)) 2000]
  | None => []
  end.

(** The advisory: the notice that names the ports, with the one button
    that offers the container listing. *)
Definition advisory (portsList : string) : Event :=
  ShowInformation
    ("Container started! Use 'container ls' to get the IP address, then access ports "
     ++ portsList ++ " directly on that IP.")
    ["Show Container List"].

(** What the advisory leads to: the container listing in a terminal when
    the button is chosen, and nothing otherwise. *)
Definition listingOffer (selection : option string) : list Event :=
  match selection with
  | Some choice =>
      if JsString.eqb choice "Show Container List"
      then [Terminal "Container List" "container ls"]
      else []
  | None => []
  end.

(** The text before the last colon and the text after it. *)
Fixpoint splitAtLastColon (s : string) : option (string * string) :=
  match s with
  | EmptyString => None
  | String a s' =>
      match splitAtLastColon s' with
      | Some (before, after) => Some (String a before, after)
      | None => if N.eqb a ":"%char then Some (EmptyString, s') else None
      end
  end.

(** The split of the specification: the digest is stripped, the
    repository is what stands before the last colon, the tag what stands
    after it, and latest when there is no colon. *)
Definition splitReferenceSpec (reference : string) : string * string :=
  let repositoryWithTag := hd EmptyString (split "@" reference) in
  match splitAtLastColon repositoryWithTag with
  | Some (repository, tag) => (repository, tag)
  | None => (repositoryWithTag, "latest")
  end.

(** The repository and the tag that [toImage] gives a reference. *)
Definition splitReference (rt : Runtime) (reference : string) : option (string * string) :=
  match ContainerManager.toImage rt (JObj [("reference", JStr reference)]) with
  | inr image => Some (Image.repository image, Image.tag image)
  | inl _ => None
  end.

(** Every run of [m] extends the trace by events that satisfy [P]. *)
Definition emits {A : Type} (P : Event -> Prop) (m : M A) : Prop :=
  forall env tr,
    exists new, snd (run m env tr) = (tr ++ new)%list /\ Forall P new.

(** Every run of [m] starts by running the command line [command]. *)
Definition issues {A : Type} (command : string) (m : M A) : Prop :=
  forall env tr,
    exists rest, snd (run m env tr) = (tr ++ Exec command :: rest)%list.

(** A yes/no question, or any other warning message. *)
Definition isQuestion (e : Event) : Prop :=
  match e with
  | ShowWarning _ _ => True
  | _ => False
  end.

(** [m] asks for no confirmation. *)
Definition unconfirmed {A : Type} (m : M A) : Prop :=
  emits (fun e => ~ isQuestion e) m.

(** [m] asks a yes/no question first; it runs [command] next when the
    answer is Yes, and does nothing more on any other answer or when the
    question is dismissed. *)
Definition gated {A : Type} (m : M A) (command : string) : Prop :=
  forall env tr,
    exists text,
      let asked := (tr ++ [ShowWarning text ["Yes"; "No"]])%list in
      if confirmed (user env asked)
      then exists rest, snd (run m env tr) = (asked ++ Exec command :: rest)%list
      else snd (run m env tr) = asked.

Definition pruneQuestion : string :=
  "Are you sure you want to prune unused images? This will remove all dangling images.".

(** [s] has a white space character. *)
Fixpoint has_space (s : string) : bool :=
  match s with
  | EmptyString => false
  | String c s' => is_space c || has_space s'
  end.

(** The last character of [s] is white space. *)
Fixpoint ends_with_space (s : string) : bool :=
  match s with
  | EmptyString => false
  | String c s' =>
      match s' with
      | EmptyString => is_space c
      | String _ _ => ends_with_space s'
      end
  end.

(** A token: not empty, and without white space. *)
Definition isToken (s : string) : bool := nonempty s && negb (has_space s).

(** A field of a table entry that is there holds a token. *)
Definition holdsToken (field : option string) : Prop :=
  exists token, field = Some token /\ isToken token = true.

(** A name without the separators of a reference: not empty, and with no
    colon and no at sign. *)
Definition plainName (s : string) : bool :=
  nonempty s && negb (occurs ":" s) && negb (occurs "@" s).

(** [m] runs the one command line [command] and shows one notice: it
    resolves to true with an information message when the command
    succeeds, and to false with an error message when it fails. *)
Definition reportsOutcome (m : M bool) (command : string) : Prop :=
  forall env tr,
    exists result notice,
      run m env tr = (inr result, tr ++ [Exec command; notice])%list
      /\ match cli env tr command with
         | inr _ => result = true /\ exists text, notice = ShowInformation text []
         | inl _ => result = false /\ exists text, notice = ShowError text
         end.

(** What an inspection shows once its command has resolved to [stdout] or
    has been rejected with a text: an error with the text of the rejection
    or of the SyntaxError, the parsed value in a document when it is truthy,
    and nothing when it is falsy. *)
Definition inspectionShows (rt : Runtime) (failed : string) (result : string + string)
  : list Event :=
  match result with
  | inl text => [ShowError (failed ++ text)]
  | inr stdout =>
      match JSON_parse rt stdout with
      | inl msg => [ShowError (failed ++ "SyntaxError: " ++ msg)]
      | inr inspection =>
          if Js.truthy (Some inspection)
          then [OpenDocument (JSON_stringify rt inspection)]
          else []
      end
  end.



(** The text after the last [c] of [s]: the whole of [s] when [c] does not
    occur in it. *)
Fixpoint afterLast (c : char) (s : string) : string :=
  match s with
  | EmptyString => EmptyString
  | String a s' =>
      if occurs c s' then afterLast c s'
      else if N.eqb a c then s' else s
  end.

(** The status bar when the listing gave [n] running containers. *)
Definition runningStatus (rt : Runtime) (n : nat) : Event :=
  StatusBar ("$(server-environment) " ++ Number_toString rt (JsNumber.of_nat n) ++ " running")
    (Number_toString rt (JsNumber.of_nat n) ++ " containers running. Click to refresh.").

(** The status bar when counting the running containers threw. *)
Definition unavailableStatus : Event :=
  StatusBar "$(server-environment) Container CLI unavailable"
    "Apple Container CLI is not available".

Definition isStatusBar (e : Event) : Prop :=
  match e with
  | StatusBar _ _ => True
  | _ => False
  end.

(** [c.status.toLowerCase().includes('running')] holds and does not throw. *)
Definition isRunning (rt : Runtime) (c : Container.t) : bool :=
  match value_toLowerCase rt "c.status" (Container.status c) with
  | inr lower => includes lower "running"
  | inl _ => false
  end.

(** The question that the tree and the details panel ask before they
    remove a container. *)
Definition removeQuestion (rt : Runtime) (c : Container.t) : Event :=
  ShowWarning
    ("Are you sure you want to remove container " ++ dquote
     ++ template rt (Js.or (Container.name c) (Container.id c)) ++ dquote ++ "?")
    ["Yes"; "No"].

(** A notice of success or of failure. *)
Definition isNotice (e : Event) : Prop :=
  (exists text, e = ShowInformation text []) \/ (exists text, e = ShowError text).

Definition pullPrompt : string := "Enter image name to pull (e.g., nginx:latest)".

Definition execPrompt : string := "Enter command to execute".

Definition namePrompt : string := "Container name (optional)".

Definition portsPrompt : string :=
  "Ports to expose (for reference, comma-separated, e.g., 80,3000,6379)".

(** The three input boxes of the build command, in their order. *)
Definition buildPrompts : list Event :=
  [ShowInputBox "Build context path"; ShowInputBox "Image tag (optional)";
   ShowInputBox "Dockerfile path (optional)"].

(** The build command line for the three answers. *)
Definition buildCommand (contextPath tag dockerfile : string) : string :=
  "container build " ++ contextPath
  ++ valued " --tag " (Some tag) ++ valued " --file " (Some dockerfile).

(** The command line that the tree runs for an image and a container name. *)
Definition runFromImageCommand (rt : Runtime) (image : Image.t) (name : string) : string :=
  "container run --detach --interactive --tty" ++ valued " --name " (Some name)
  ++ " " ++ ContainerProvider.ii_label (ContainerProvider.newImageItem rt image).

(** A port as the tree keeps it for reference: not empty, without comma,
    and without white space at either end. *)
Definition isPort (p : string) : bool :=
  nonempty p && negb (occurs "," p) && negb (starts_with_space p)
  && negb (ends_with_space p).


(** The first three rows of every detail list, and the only ones besides
    the Created row when the record has no address and no platform. *)
Definition plainRows (rt : Runtime) (c : Container.t) (status : string)
  : list ContainerProvider.ContainerDetailItem :=
  [ContainerProvider.item "📋 Container ID" (Container.id c) "copy-id" (Container.id c);
   ContainerProvider.item "📦 Image" (Container.image c) "copy-image" (Container.image c);
   ContainerProvider.item "📊 Status"
     (Js.str ((if includes (toLowerCase rt status) "running" then "▶️" else "⏹️")
              ++ " " ++ status))
     "status" Js.undefined].

(** The Status row of a container with the status [status]. *)
Definition statusRow (rt : Runtime) (status : string) : ContainerProvider.ContainerDetailItem :=
  ContainerProvider.item "📊 Status"
    (Js.str ((if includes (toLowerCase rt status) "running" then "▶️" else "⏹️")
             ++ " " ++ status))
    "status" Js.undefined.


(** The pieces that [toImage] cuts out of a reference: those of the text
    before the first at sign, between its colons. *)
Definition pieces (reference : string) : list string :=
  split ":" (hd EmptyString (split "@" reference)).

(** A row is a copy command exactly when its type says so. *)
Definition copiesAsTyped (row : ContainerProvider.ContainerDetailItem) : Prop :=
  ContainerProvider.detailClickable row
  = JsString.prefix "copy-" (ContainerProvider.item_type row).

(** * Properties *)

(** ** Equality of strings *)

Lemma string_eqb_eq (a b : string) : JsString.eqb a b = true <-> a = b.
Proof.
  revert b. induction a as [|x a IH]; intros [|y b]; simpl; split; intros H;
    try reflexivity; try discriminate.
  - apply andb_true_iff in H as [Hx Hab]. apply N.eqb_eq in Hx. apply IH in Hab.
    now subst.
  - injection H as -> ->. rewrite N.eqb_refl. now apply IH.
Qed.

Lemma string_eqb_refl (a : string) : JsString.eqb a a = true.
Proof. now apply string_eqb_eq. Qed.

Lemma string_eqb_neq (a b : string) : JsString.eqb a b = false <-> a <> b.
Proof.
  split.
  - intros H Heq. apply string_eqb_eq in Heq. congruence.
  - intros H. destruct (JsString.eqb a b) eqn:E; [|reflexivity].
    apply string_eqb_eq in E. contradiction.
Qed.

(** ** Tokens of a table line *)

Section Tokens.

Lemma split_ws_not_nil (s : string) : split_ws s <> [].
Proof.
  induction s as [|a s IH]; simpl; [discriminate|].
  destruct (is_space a).
  - destruct (starts_with_space s); [assumption | discriminate].
  - destruct (split_ws s); discriminate.
Qed.

Lemma trim_start_head (s : string) : starts_with_space (trim_start s) = false.
Proof.
  induction s as [|a s IH]; simpl; [reflexivity|].
  destruct (is_space a) eqn:Ha; [assumption | simpl; assumption].
Qed.

Lemma trim_end_head (s : string) :
  starts_with_space s = false -> starts_with_space (trim_end s) = false.
Proof.
  destruct s as [|a s]; simpl; [reflexivity|].
  intros Ha. rewrite Ha. simpl. assumption.
Qed.

Lemma trim_head (s : string) : starts_with_space (trim s) = false.
Proof. unfold trim. apply trim_end_head, trim_start_head. Qed.

(** The first token of a text that starts with no white space is not
    empty, unless the text is. *)
Lemma split_ws_first (s : string) :
  starts_with_space s = false -> nonempty s = true ->
  nonempty (nth 0 (split_ws s) EmptyString) = true.
Proof.
  destruct s as [|a s]; simpl; [discriminate|].
  intros Ha _. rewrite Ha.
  destruct (split_ws s); reflexivity.
Qed.

End Tokens.

(** ** The table parser *)

Section Table.

Lemma parseLine_long (line : string) :
  long line = true ->
  nonempty (TableEntry.id (ContainerManager.parseLine line)) = true.
Proof.
  unfold long, ContainerManager.parseLine. intros Hlong. rewrite Hlong. simpl.
  apply split_ws_first; [apply trim_head|].
  destruct (trim line); [discriminate Hlong | reflexivity].
Qed.

Lemma parseLine_short (line : string) :
  long line = false ->
  nonempty (TableEntry.id (ContainerManager.parseLine line)) = false.
Proof.
  unfold long, ContainerManager.parseLine. intros Hshort. rewrite Hshort. reflexivity.
Qed.

Lemma keep_long (lines : list string) :
  filter (fun entry => nonempty (TableEntry.id entry))
    (map ContainerManager.parseLine lines)
  = map ContainerManager.parseLine (filter long lines).
Proof.
  induction lines as [|l lines IH]; simpl; [reflexivity|].
  destruct (long l) eqn:Hl.
  - rewrite (parseLine_long l Hl). simpl. now rewrite IH.
  - rewrite (parseLine_short l Hl). assumption.
Qed.

(** The parsed table is the image of the lines after the header that have
    six tokens or more, in their order. *)
Lemma parseContainerTable_lines (output : string) :
  ContainerManager.parseContainerTable output
  = map ContainerManager.parseLine (filter long (skipn 1 (split newline output))).
Proof. unfold ContainerManager.parseContainerTable. apply keep_long. Qed.

Lemma filter_long_without (before after : list string) (line : string) :
  long line = false ->
  filter long (before ++ line :: after) = filter long (before ++ after).
Proof.
  intros Hshort. rewrite !filter_app. simpl. now rewrite Hshort.
Qed.

End Table.

(** C4: a line of the table listing (any line after the header) that has
    fewer than six white-space separated tokens contributes no entry to the
    parsed table: the table parsed from the listing is the table parsed from
    the listing without that line, and so is every record reconciled against
    it. *)
Theorem short_line_contributes_nothing
  (output output' header line : string) (before after : list string) :
  split newline output = header :: before ++ line :: after ->
  split newline output' = header :: before ++ after ->
  (List.length (split_ws (trim line)) < 6)%nat ->
  filter (fun entry => nonempty (TableEntry.id entry)) [ContainerManager.parseLine line] = []
  /\ ContainerManager.parseContainerTable output
     = ContainerManager.parseContainerTable output'
  /\ forall rawContainer,
       ContainerManager.toContainer (ContainerManager.parseContainerTable output) rawContainer
       = ContainerManager.toContainer (ContainerManager.parseContainerTable output') rawContainer.
Proof.
  intros Hlines Hlines' Hfew.
  assert (Hshort : long line = false).
  { unfold long. apply Nat.leb_gt. exact Hfew. }
  assert (Htable : ContainerManager.parseContainerTable output
                   = ContainerManager.parseContainerTable output').
  { rewrite !parseContainerTable_lines, Hlines, Hlines'. simpl.
    now rewrite filter_long_without. }
  split; [|split].
  - simpl. now rewrite (parseLine_short line Hshort).
  - exact Htable.
  - intros rawContainer. now rewrite Htable.
Qed.

(** C4 on a listing with a three-token line between two entries. *)
Lemma short_line_contributes_nothing_witness :
  ContainerManager.parseContainerTable
    ("ID IMAGE OS ARCH STATE ADDR" ++ String newline "a - linux arm64 - 10.0.0.5"
     ++ String newline "x y z" ++ String newline "b - linux arm64 - N/A")
  = ContainerManager.parseContainerTable
    ("ID IMAGE OS ARCH STATE ADDR" ++ String newline "a - linux arm64 - 10.0.0.5"
     ++ String newline "b - linux arm64 - N/A").
Proof.
  refine (proj1 (proj2 (short_line_contributes_nothing _ _
            "ID IMAGE OS ARCH STATE ADDR" "x y z"
            ["a - linux arm64 - 10.0.0.5"] ["b - linux arm64 - N/A"] _ _ _))).
  - reflexivity.
  - reflexivity.
  - simpl. lia.
Defined.

(** White space is the class of ECMAScript: a line whose six columns are
    separated by no-break spaces and an ideographic space is an entry. *)
Example no_break_space_separates_tokens :
  let nbsp := String 160%N EmptyString in
  let wide := String 12288%N EmptyString in
  ContainerManager.parseContainerTable
    ("ID IMAGE OS ARCH STATE ADDR"
     ++ String newline ("a" ++ nbsp ++ "-" ++ nbsp ++ "linux" ++ wide ++ "arm64" ++ nbsp ++ "-"
                        ++ nbsp ++ "10.0.0.5" ++ nbsp))
  = [{| TableEntry.id := "a"; TableEntry.ipAddress := Some "10.0.0.5";
        TableEntry.os := Some "linux"; TableEntry.arch := Some "arm64" |}].
Proof. reflexivity. Qed.

(** ** The listings, step by step *)

Section Listings.
Variable rt : Runtime.

(** Every path through [listContainers]. *)
Lemma listContainers_run (env : Env) (tr : list Event) (all : bool) :
  run (ContainerManager.listContainers rt all) env tr =
  match cli env tr (jsonCmd all) with
  | inl text =>
      (inr [], tr ++ [Exec (jsonCmd all);
                      ShowError ("Failed to list containers: " ++ text)])
  | inr jsonOutput =>
      match JSON_parse rt jsonOutput with
      | inl msg =>
          (inr [], tr ++ [Exec (jsonCmd all);
                          ShowError ("Failed to list containers: SyntaxError: " ++ msg)])
      | inr rawContainers =>
          match cli env (tr ++ [Exec (jsonCmd all)]) (tableCmd all) with
          | inl text =>
              (inr [], tr ++ [Exec (jsonCmd all); Exec (tableCmd all);
                              ShowError ("Failed to list containers: " ++ text)])
          | inr tableOutput =>
              match array_map "rawContainers" rawContainers
                      (ContainerManager.toContainer
                         (ContainerManager.parseContainerTable tableOutput)) with
              | inl error =>
                  (inr [], tr ++ [Exec (jsonCmd all); Exec (tableCmd all);
                                  ShowError ("Failed to list containers: "
                                             ++ exn_text error)])
              | inr containers =>
                  (inr containers, tr ++ [Exec (jsonCmd all); Exec (tableCmd all)])
              end
          end
      end
  end%list.
Proof.
  unfold run, ContainerManager.listContainers, try_catch, bind, execAsync,
    ContainerManager.parse, lift, showErrorMessage, emit, ret, jsonCmd, tableCmd.
  destruct all;
    repeat match goal with
           | |- context [match ?x with _ => _ end] =>
               match x with
               | cli _ _ _ => destruct x
               | JSON_parse _ _ => destruct x
               | array_map _ _ _ => destruct x
               end
           end; simpl; rewrite <- ?app_assoc; reflexivity.
Qed.

(** Every path through [listImages]. *)
Lemma listImages_run (env : Env) (tr : list Event) :
  run (ContainerManager.listImages rt) env tr =
  match cli env tr imagesCmd with
  | inl text =>
      (inr [], tr ++ [Exec imagesCmd; ShowError ("Failed to list images: " ++ text)])
  | inr stdout =>
      match JSON_parse rt stdout with
      | inl msg =>
          (inr [], tr ++ [Exec imagesCmd;
                          ShowError ("Failed to list images: SyntaxError: " ++ msg)])
      | inr rawImages =>
          match array_map "rawImages" rawImages (ContainerManager.toImage rt) with
          | inl error =>
              (inr [], tr ++ [Exec imagesCmd;
                              ShowError ("Failed to list images: " ++ exn_text error)])
          | inr images => (inr images, tr ++ [Exec imagesCmd])
          end
      end
  end%list.
Proof.
  unfold run, ContainerManager.listImages, try_catch, bind, execAsync,
    ContainerManager.parse, lift, showErrorMessage, emit, ret, imagesCmd.
  repeat match goal with
         | |- context [match ?x with _ => _ end] =>
             match x with
             | cli _ _ _ => destruct x
             | JSON_parse _ _ => destruct x
             | array_map _ _ _ => destruct x
             end
         end; simpl; rewrite <- ?app_assoc; reflexivity.
Qed.

End Listings.

(** ** Reconciliation of one JSON entry *)

Section Reconciliation.

Lemma get_truthy (v : jsvalue) (k : string) :
  Js.truthy v = true -> Js.get v k = inr (Js.get_opt v k).
Proof.
  destruct v as [[| | | | |]|]; simpl; intros H; try reflexivity; discriminate.
Qed.

Lemma get_not_null (j : json) (k : string) :
  j <> JNull -> Js.get (Some j) k = inr (Js.get_opt (Some j) k).
Proof. destruct j; simpl; intros H; try reflexivity. now contradiction H. Qed.

Lemma or_truthy (a b : jsvalue) :
  Js.truthy b = true -> Js.truthy (Js.or a b) = true.
Proof. unfold Js.or. destruct (Js.truthy a) eqn:Ha; auto. Qed.

Lemma rawConfig_truthy (rawContainer : json) : Js.truthy (rawConfig rawContainer) = true.
Proof. apply or_truthy. reflexivity. Qed.

Lemma rawId_truthy (rawContainer : json) : Js.truthy (rawId rawContainer) = true.
Proof. apply or_truthy. reflexivity. Qed.

(** What [toContainer] returns on an entry that is not [null]. *)
Lemma toContainer_not_null (containerTable : list TableEntry.t) (rawContainer : json) :
  rawContainer <> JNull ->
  ContainerManager.toContainer containerTable rawContainer =
  inr {| Container.id := rawId rawContainer;
         Container.name := rawName rawContainer;
         Container.image :=
           Js.or (Js.get_opt (Js.get_opt (rawConfig rawContainer) "image") "reference")
             (Js.str "unknown");
         Container.status :=
           Js.or (Js.get_opt (Some rawContainer) "status") (Js.str "unknown");
         Container.ports := Some EmptyString;
         Container.created := "unknown";
         Container.ipAddress :=
           opt_get TableEntry.ipAddress (tableEntryFor containerTable (rawId rawContainer));
         Container.os :=
           opt_get TableEntry.os (tableEntryFor containerTable (rawId rawContainer));
         Container.arch :=
           opt_get TableEntry.arch (tableEntryFor containerTable (rawId rawContainer)) |}.
Proof.
  intros Hnn. unfold ContainerManager.toContainer.
  rewrite !(get_not_null rawContainer) by assumption. cbn [bindE].
  fold (rawConfig rawContainer).
  rewrite !(get_truthy (rawConfig rawContainer)) by apply rawConfig_truthy.
  reflexivity.
Qed.

(** [null] is the one array element on which the callback throws. *)
Lemma toContainer_null (containerTable : list TableEntry.t) :
  exists text, ContainerManager.toContainer containerTable JNull = inl (TypeError text).
Proof. eexists. reflexivity. Qed.

Lemma toContainer_returns (containerTable : list TableEntry.t) (rawContainer : json)
  (c : Container.t) :
  ContainerManager.toContainer containerTable rawContainer = inr c ->
  rawContainer <> JNull.
Proof. intros H Hnull. subst. discriminate H. Qed.

Lemma mapE_Forall2 {A B : Type} (f : A -> E B) (xs : list A) (ys : list B) :
  mapE f xs = inr ys <-> Forall2 (fun x y => f x = inr y) xs ys.
Proof.
  revert ys. induction xs as [|x xs IH]; intros ys; simpl.
  - split.
    + intros H. injection H as <-. constructor.
    + intros H. inversion H. reflexivity.
  - split.
    + destruct (f x) as [e|y] eqn:Hx; simpl; [discriminate|].
      destruct (mapE f xs) as [e|ys'] eqn:Hxs; simpl; [discriminate|].
      intros H. injection H as <-. constructor; [assumption|]. now apply IH.
    + intros H. inversion H as [|x' y xs' ys' Hx Hrest]; subst.
      rewrite Hx. simpl. apply IH in Hrest. rewrite Hrest. reflexivity.
Qed.


Lemma find_all_false {A : Type} (p : A -> bool) (xs : list A) :
  (forall x, In x xs -> p x = false) -> find p xs = None.
Proof.
  induction xs as [|x xs IH]; simpl; intros H; [reflexivity|].
  rewrite (H x) by now left. apply IH. intros y Hy. apply H. now right.
Qed.

Lemma find_app_first {A : Type} (p : A -> bool) (xs ys : list A) (y : A) :
  (forall x, In x xs -> p x = false) -> p y = true ->
  find p (xs ++ y :: ys) = Some y.
Proof.
  induction xs as [|x xs IH]; simpl; intros H Hy.
  - now rewrite Hy.
  - rewrite (H x) by now left. apply IH; [|assumption].
    intros z Hz. apply H. now right.
Qed.

End Reconciliation.

(** C6: for every invocation of the container or image listing in which the
    external command fails or its output is not parseable JSON, the operation
    returns the empty list and shows one error notice (the only event besides
    the commands it ran); and no invocation at all ends in an exception. *)
Theorem listing_failure_is_contained (rt : Runtime) (env : Env) (tr : list Event) :
  (forall all : bool,
      (exists containers tr',
          run (ContainerManager.listContainers rt all) env tr = (inr containers, tr'))
      /\ (containersListingFails rt env tr all = true ->
          exists commands notice,
            run (ContainerManager.listContainers rt all) env tr
            = (inr [], tr ++ commands ++ [ShowError notice])%list
            /\ Forall isExec commands))
  /\ (exists images tr', run (ContainerManager.listImages rt) env tr = (inr images, tr'))
  /\ (imagesListingFails rt env tr = true ->
      exists notice,
        run (ContainerManager.listImages rt) env tr
        = (inr [], tr ++ [Exec imagesCmd; ShowError notice])%list).
Proof.
  split; [intros all; split | split].
  - rewrite listContainers_run.
    repeat match goal with
           | |- context [match ?x with _ => _ end] => destruct x
           end; eauto.
  - unfold containersListingFails. rewrite listContainers_run.
    destruct (cli env tr (jsonCmd all)) as [text|jsonOutput].
    + intros _. exists [Exec (jsonCmd all)]. eexists. split; [reflexivity|].
      repeat constructor.
    + destruct (JSON_parse rt jsonOutput) as [msg|rawContainers].
      * intros _. exists [Exec (jsonCmd all)]. eexists. split; [reflexivity|].
        repeat constructor.
      * destruct (cli env (tr ++ [Exec (jsonCmd all)]) (tableCmd all)) as [text|tableOutput];
          [|discriminate].
        intros _. exists [Exec (jsonCmd all); Exec (tableCmd all)]. eexists.
        split; [reflexivity|]. repeat constructor.
  - rewrite listImages_run.
    repeat match goal with
           | |- context [match ?x with _ => _ end] => destruct x
           end; eauto.
  - unfold imagesListingFails. rewrite listImages_run.
    destruct (cli env tr imagesCmd) as [text|stdout]; [eauto|].
    destruct (JSON_parse rt stdout) as [msg|rawImages]; [eauto | discriminate].
Qed.

(** C6 where the command line tool is missing, and where it prints text
    that is not JSON. *)
Lemma listing_failure_is_contained_witness :
  (exists commands notice,
      run (ContainerManager.listContainers ExampleRuntime.runtime true)
        (ExampleRuntime.broken "Error: Command failed: container: command not found") []
      = (inr [], [] ++ commands ++ [ShowError notice])%list
      /\ Forall isExec commands)
  /\ (exists notice,
         run (ContainerManager.listImages ExampleRuntime.runtime)
           (ExampleRuntime.world "not json" EmptyString None) []
         = (inr [], [] ++ [Exec imagesCmd; ShowError notice])%list).
Proof.
  split.
  - apply (proj1 (listing_failure_is_contained ExampleRuntime.runtime
                    (ExampleRuntime.broken "Error: Command failed: container: command not found")
                    []) true).
    reflexivity.
  - apply (listing_failure_is_contained ExampleRuntime.runtime
             (ExampleRuntime.world "not json" EmptyString None) []).
    reflexivity.
Defined.

Section LeftJoin.

Lemma parseContainerTable_rows (tableOutput : string) :
  ContainerManager.parseContainerTable tableOutput = map entryOf (tableRows tableOutput).
Proof.
  rewrite parseContainerTable_lines. unfold tableRows.
  induction (skipn 1 (split newline tableOutput)) as [|line lines IH]; [reflexivity|].
  cbn [map filter]. unfold long at 1.
  destruct (6 <=? List.length (split_ws (trim line)))%nat eqn:Hlong.
  - cbn [map]. rewrite IH. f_equal.
    unfold ContainerManager.parseLine, entryOf, rowAddress. rewrite Hlong.
    destruct (JsString.eqb (nth 5 (split_ws (trim line)) EmptyString) "N/A"); reflexivity.
  - exact IH.
Qed.

Lemma find_map {A B : Type} (p : B -> bool) (f : A -> B) (xs : list A) :
  find p (map f xs) = option_map f (find (fun x => p (f x)) xs).
Proof.
  induction xs as [|x xs IH]; [reflexivity|]. simpl.
  destruct (p (f x)); [reflexivity | exact IH].
Qed.

Lemma tableEntryFor_row (tableOutput : string) (id : jsvalue) :
  tableEntryFor (ContainerManager.parseContainerTable tableOutput) id
  = option_map entryOf (rowFor tableOutput id).
Proof. unfold tableEntryFor, rowFor. rewrite parseContainerTable_rows. apply find_map. Qed.

(** The callback of the listing gives the merged record of the
    specification on every entry but null, where it throws. *)
Lemma toContainer_merged (tableOutput : string) (rawContainer : json) :
  ContainerManager.toContainer (ContainerManager.parseContainerTable tableOutput) rawContainer
  = if isNull rawContainer
    then inl (TypeError "Cannot read properties of null (reading 'configuration')")
    else inr (mergedRecord tableOutput rawContainer).
Proof.
  destruct (isNull rawContainer) eqn:Hnull.
  - destruct rawContainer; try discriminate Hnull. reflexivity.
  - rewrite toContainer_not_null by (intros ->; discriminate Hnull).
    rewrite tableEntryFor_row. unfold mergedRecord.
    destruct (rowFor tableOutput (rawId rawContainer)); reflexivity.
Qed.

Lemma mapE_merged (tableOutput : string) (rawContainers : list json) :
  mapE (ContainerManager.toContainer (ContainerManager.parseContainerTable tableOutput))
    rawContainers
  = if existsb isNull rawContainers
    then inl (TypeError "Cannot read properties of null (reading 'configuration')")
    else inr (map (mergedRecord tableOutput) rawContainers).
Proof.
  induction rawContainers as [|raw raws IH]; [reflexivity|].
  simpl. rewrite toContainer_merged, IH.
  destruct (isNull raw); [reflexivity|]. simpl.
  destruct (existsb isNull raws); reflexivity.
Qed.

End LeftJoin.

(** C2: the container listing is a left join on id from the JSON listing.
    When the JSON output parses to an array and the table command succeeds,
    the listing resolves to the merged records of the JSON entries, one per
    entry and in the JSON order, so that no record comes from the table
    alone: the record of an entry carries the identity, image and status of
    that entry, and the address, system and architecture of the first table
    row whose first token is exactly the id of the entry (the address absent
    when the row says N/A); an entry whose id no table row has gives a record
    without address, system and architecture.  The one array on which this
    fails is an array with a null element, where the listing shows an error
    and resolves to the empty list. *)
Theorem listContainers_left_join
  (rt : Runtime) (env : Env) (tr : list Event) (all : bool)
  (jsonOutput tableOutput : string) (rawContainers : list json) :
  cli env tr (jsonCmd all) = inr jsonOutput ->
  JSON_parse rt jsonOutput = inr (JArr rawContainers) ->
  cli env (tr ++ [Exec (jsonCmd all)]) (tableCmd all) = inr tableOutput ->
  run (ContainerManager.listContainers rt all) env tr
  = (if existsb isNull rawContainers
     then (inr [],
           tr ++ [Exec (jsonCmd all); Exec (tableCmd all);
                  ShowError ("Failed to list containers: TypeError: "
                             ++ "Cannot read properties of null (reading 'configuration')")])
     else (inr (map (mergedRecord tableOutput) rawContainers),
           tr ++ [Exec (jsonCmd all); Exec (tableCmd all)]))%list
  /\ (forall rawContainer,
         (forall tokens,
             In tokens (tableRows tableOutput) ->
             Js.strict_eq_string (nth 0 tokens EmptyString) (rawId rawContainer) = false) ->
         Container.ipAddress (mergedRecord tableOutput rawContainer) = None
         /\ Container.os (mergedRecord tableOutput rawContainer) = None
         /\ Container.arch (mergedRecord tableOutput rawContainer) = None)
  /\ (forall rawContainer before tokens after,
         tableRows tableOutput = (before ++ tokens :: after)%list ->
         (forall earlier,
             In earlier before ->
             Js.strict_eq_string (nth 0 earlier EmptyString) (rawId rawContainer) = false) ->
         rawId rawContainer = Js.str (nth 0 tokens EmptyString) ->
         Container.ipAddress (mergedRecord tableOutput rawContainer) = rowAddress tokens
         /\ Container.os (mergedRecord tableOutput rawContainer)
            = Some (nth 2 tokens EmptyString)
         /\ Container.arch (mergedRecord tableOutput rawContainer)
            = Some (nth 3 tokens EmptyString)).
Proof.
  intros Hjson Hparse Htable. split; [|split].
  - rewrite listContainers_run, Hjson, Hparse, Htable.
    cbn [array_map]. rewrite mapE_merged.
    destruct (existsb isNull rawContainers); reflexivity.
  - intros rawContainer Hnone. unfold mergedRecord, rowFor.
    rewrite (find_all_false _ _ Hnone). repeat split; reflexivity.
  - intros rawContainer before tokens after Hrows Hearlier Hid.
    unfold mergedRecord, rowFor. rewrite Hrows, (find_app_first _ _ _ _ Hearlier).
    + repeat split; reflexivity.
    + rewrite Hid. simpl. apply string_eqb_refl.
Qed.

(** C2 on two JSON entries and a table that lists the first of them and a
    container the JSON does not have: two records, the first with the row of
    the table, the second without address, system and architecture. *)
Lemma listContainers_left_join_witness :
  run (ContainerManager.listContainers ExampleRuntime.runtime false)
    (ExampleRuntime.world
       (q "[{'configuration':{'id':'a','hostname':'web'}},{'configuration':{'id':'b'}}]")
       ("ID IMAGE OS ARCH STATE ADDR" ++ String newline "a - linux arm64 - 10.0.0.5"
        ++ String newline "z - linux arm64 - 10.0.0.9")
       None) []
  = (inr [{| Container.id := Js.str "a"; Container.name := Js.str "web";
             Container.image := Js.str "unknown"; Container.status := Js.str "unknown";
             Container.ports := Some EmptyString; Container.created := "unknown";
             Container.ipAddress := Some "10.0.0.5"; Container.os := Some "linux";
             Container.arch := Some "arm64" |};
          {| Container.id := Js.str "b"; Container.name := Js.str "b";
             Container.image := Js.str "unknown"; Container.status := Js.str "unknown";
             Container.ports := Some EmptyString; Container.created := "unknown";
             Container.ipAddress := None; Container.os := None;
             Container.arch := None |}],
     [Exec (jsonCmd false); Exec (tableCmd false)]).
Proof.
  exact (proj1 (listContainers_left_join ExampleRuntime.runtime
                  (ExampleRuntime.world
                     (q "[{'configuration':{'id':'a','hostname':'web'}},{'configuration':{'id':'b'}}]")
                     ("ID IMAGE OS ARCH STATE ADDR"
                      ++ String newline "a - linux arm64 - 10.0.0.5"
                      ++ String newline "z - linux arm64 - 10.0.0.9")
                     None) [] false
                  (q "[{'configuration':{'id':'a','hostname':'web'}},{'configuration':{'id':'b'}}]")
                  ("ID IMAGE OS ARCH STATE ADDR" ++ String newline "a - linux arm64 - 10.0.0.5"
                   ++ String newline "z - linux arm64 - 10.0.0.9")
                  [JObj [("configuration", JObj [("id", JStr "a"); ("hostname", JStr "web")])];
                   JObj [("configuration", JObj [("id", JStr "b")])]]
                  eq_refl eq_refl eq_refl)).
Defined.

(** ** Lines of a text *)

Section Lines.

Lemma split_no_separator (c : char) (s : string) :
  occurs c s = false -> split c s = [s].
Proof.
  induction s as [|a s IH]; simpl; [reflexivity|].
  intros H. apply orb_false_iff in H as [Ha Hs].
  rewrite Ha, (IH Hs). reflexivity.
Qed.

Lemma split_first_line (c : char) (first rest : string) :
  occurs c first = false ->
  split c (first ++ String c rest) = first :: split c rest.
Proof.
  induction first as [|a first IH]; simpl; intros H.
  - now rewrite N.eqb_refl.
  - apply orb_false_iff in H as [Ha Hs].
    rewrite Ha, (IH Hs). reflexivity.
Qed.

End Lines.

(** C3: when the JSON listing prints the payload
    [{configuration: {id: abc, hostname: web1, image: {reference:
    nginx:latest}}, status: running}] and the table listing prints a header
    line followed by the line [abc  -  linux  arm64  -  10.0.0.5], the
    container listing yields exactly one record, with id abc, name web1,
    image nginx:latest, status running, ipAddress 10.0.0.5, os linux and
    arch arm64. *)
Theorem listContainers_scenario
  (rt : Runtime) (env : Env) (tr : list Event) (all : bool) (header : string) :
  JSON_parse rt scenarioPayload = inr scenarioValue ->
  cli env tr (jsonCmd all) = inr scenarioPayload ->
  occurs newline header = false ->
  cli env (tr ++ [Exec (jsonCmd all)]) (tableCmd all)
  = inr (header ++ String newline scenarioLine) ->
  run (ContainerManager.listContainers rt all) env tr
  = (inr [scenarioRecord], tr ++ [Exec (jsonCmd all); Exec (tableCmd all)])%list.
Proof.
  intros Hparse Hjson Hheader Htable.
  rewrite listContainers_run, Hjson, Hparse, Htable.
  rewrite parseContainerTable_lines, (split_first_line newline header _ Hheader).
  reflexivity.
Qed.

(** C3 with the example runtime, whose parser reads the payload itself. *)
Lemma listContainers_scenario_witness :
  run (ContainerManager.listContainers ExampleRuntime.runtime false)
    (ExampleRuntime.world scenarioPayload
       ("ID  IMAGE  OS  ARCH  STATE  ADDR" ++ String newline scenarioLine) None) []
  = (inr [scenarioRecord], [Exec (jsonCmd false); Exec (tableCmd false)]).
Proof.
  apply (listContainers_scenario ExampleRuntime.runtime
           (ExampleRuntime.world scenarioPayload
              ("ID  IMAGE  OS  ARCH  STATE  ADDR" ++ String newline scenarioLine) None)
           [] false "ID  IMAGE  OS  ARCH  STATE  ADDR").
  - vm_compute. reflexivity.
  - reflexivity.
  - reflexivity.
  - reflexivity.
Defined.

(** The first line of the table output is always taken for the header: when
    the table command prints the scenario line alone, the record has no
    address and no platform. *)
Example listContainers_scenario_without_header :
  fst (run (ContainerManager.listContainers ExampleRuntime.runtime false)
         (ExampleRuntime.world scenarioPayload scenarioLine None) [])
  = inr [{| Container.id := Js.str "abc";
            Container.name := Js.str "web1";
            Container.image := Js.str "nginx:latest";
            Container.status := Js.str "running";
            Container.ports := Some EmptyString;
            Container.created := "unknown";
            Container.ipAddress := None;
            Container.os := None;
            Container.arch := None |}].
Proof. vm_compute. reflexivity. Qed.

(** A [null] among the JSON entries ends the whole listing: the callback
    throws on it, and the listing resolves to the empty list. *)
Example listContainers_null_entry :
  run (ContainerManager.listContainers ExampleRuntime.runtime false)
    (ExampleRuntime.world (q "[{'configuration':{'id':'a'}},null]") EmptyString None) []
  = (inr [],
     [Exec "container list --format json"; Exec "container ls";
      ShowError ("Failed to list containers: TypeError: "
                 ++ "Cannot read properties of null (reading 'configuration')")]).
Proof. vm_compute. reflexivity. Qed.

(** ** The literal N/A *)

Section NotAvailable.

Lemma parseLine_never_NA (line : string) :
  TableEntry.ipAddress (ContainerManager.parseLine line) <> Some "N/A".
Proof.
  unfold ContainerManager.parseLine.
  destruct (6 <=? List.length (split_ws (trim line)))%nat; simpl; [|discriminate].
  destruct (JsString.eqb (nth 5 (split_ws (trim line)) EmptyString) "N/A") eqn:Heq;
    simpl; [discriminate|].
  intros H. injection H as H. rewrite H in Heq. discriminate Heq.
Qed.

Lemma table_never_NA (output : string) (entry : TableEntry.t) :
  In entry (ContainerManager.parseContainerTable output) ->
  TableEntry.ipAddress entry <> Some "N/A".
Proof.
  rewrite parseContainerTable_lines. intros Hin.
  apply in_map_iff in Hin as (line & <- & _). apply parseLine_never_NA.
Qed.

Lemma toContainer_never_NA (output : string) (rawContainer : json) (c : Container.t) :
  ContainerManager.toContainer (ContainerManager.parseContainerTable output) rawContainer
  = inr c ->
  Container.ipAddress c <> Some "N/A".
Proof.
  intros Hc.
  pose proof (toContainer_returns _ _ _ Hc) as Hnn.
  rewrite (toContainer_not_null _ _ Hnn) in Hc. injection Hc as <-. simpl.
  unfold tableEntryFor.
  destruct (find _ (ContainerManager.parseContainerTable output)) as [entry|] eqn:Hfind;
    simpl; [|discriminate].
  apply find_some in Hfind as [Hin _]. now apply (table_never_NA output).
Qed.

End NotAvailable.

(** C5, as amended: a line of the table listing whose sixth token is the
    literal N/A parses to an entry without ipAddress, and the record
    reconciled with that line, when the line is the first of the table with
    its id (the one the join finds), has its ipAddress absent; no record of
    any listing has the text N/A as its ipAddress. *)
Theorem not_available_ip_is_absent
  (output header line : string) (before after : list string)
  (rawContainer : json) (c : Container.t) :
  let tokens := split_ws (trim line) in
  split newline output = header :: before ++ line :: after ->
  (6 <= List.length tokens)%nat ->
  nth 5 tokens EmptyString = "N/A" ->
  (forall earlier, In earlier before ->
     TableEntry.id (ContainerManager.parseLine earlier) <> nth 0 tokens EmptyString) ->
  ContainerManager.toContainer (ContainerManager.parseContainerTable output) rawContainer
  = inr c ->
  Container.id c = Js.str (nth 0 tokens EmptyString) ->
  TableEntry.ipAddress (ContainerManager.parseLine line) = None
  /\ Container.ipAddress c = None
  /\ forall rawContainer' c',
       ContainerManager.toContainer (ContainerManager.parseContainerTable output)
         rawContainer' = inr c' ->
       Container.ipAddress c' <> Some "N/A".
Proof.
  intros tokens Hlines Hsix Hna Hfirst Hc Hid.
  assert (Hlong : long line = true) by (apply Nat.leb_le; exact Hsix).
  assert (Hentry : TableEntry.ipAddress (ContainerManager.parseLine line) = None
                   /\ TableEntry.id (ContainerManager.parseLine line)
                      = nth 0 tokens EmptyString).
  { unfold ContainerManager.parseLine. fold tokens. unfold long in Hlong. fold tokens in Hlong.
    rewrite Hlong, Hna. split; reflexivity. }
  destruct Hentry as [Hip Hentry_id].
  split; [exact Hip|]. split; [|intros raw' c'; apply toContainer_never_NA].
  pose proof (toContainer_returns _ _ _ Hc) as Hnn.
  rewrite (toContainer_not_null _ _ Hnn) in Hc. injection Hc as <-.
  simpl in Hid |- *. rewrite Hid. unfold tableEntryFor.
  rewrite parseContainerTable_lines, Hlines. simpl skipn.
  rewrite filter_app. simpl filter. rewrite Hlong, map_app. simpl map.
  rewrite (find_app_first _ _ _ (ContainerManager.parseLine line)).
  - simpl. exact Hip.
  - intros entry Hin. apply in_map_iff in Hin as (earlier & <- & Hin).
    apply filter_In in Hin as [Hin _]. simpl.
    apply string_eqb_neq. apply Hfirst. exact Hin.
  - simpl. rewrite Hentry_id. apply string_eqb_refl.
Qed.

(** C5 on a table whose second entry has no address. *)
Lemma not_available_ip_is_absent_witness :
  exists c,
    ContainerManager.toContainer
      (ContainerManager.parseContainerTable
         ("ID IMAGE OS ARCH STATE ADDR" ++ String newline "a - linux arm64 - 10.0.0.5"
          ++ String newline "b - linux arm64 - N/A"))
      (JObj [("configuration", JObj [("id", JStr "b")])]) = inr c
    /\ Container.ipAddress c = None.
Proof.
  eexists. split; [reflexivity|].
  refine (proj1 (proj2 (not_available_ip_is_absent
            ("ID IMAGE OS ARCH STATE ADDR" ++ String newline "a - linux arm64 - 10.0.0.5"
             ++ String newline "b - linux arm64 - N/A")
            "ID IMAGE OS ARCH STATE ADDR" "b - linux arm64 - N/A"
            ["a - linux arm64 - 10.0.0.5"] []
            (JObj [("configuration", JObj [("id", JStr "b")])]) _ _ _ _ _ _ _))).
  - reflexivity.
  - simpl. lia.
  - reflexivity.
  - intros earlier [<-|[]]. discriminate.
  - reflexivity.
  - reflexivity.
Defined.

(** C5 as the specification states it, for every line with N/A, fails on
    a table that has two lines for one id: the listing joins the first of
    them, so the record of b has the address of that line although the
    second line for b says N/A. *)
Lemma not_available_ip_second_line_counterexample :
  let line := "b - linux arm64 - N/A" in
  let tableOutput :=
    "ID IMAGE OS ARCH STATE ADDR" ++ String newline "b - linux arm64 - 10.0.0.5"
    ++ String newline line in
  In line (skipn 1 (split newline tableOutput))
  /\ nth 0 (split_ws (trim line)) EmptyString = "b"
  /\ nth 5 (split_ws (trim line)) EmptyString = "N/A"
  /\ run (ContainerManager.listContainers ExampleRuntime.runtime false)
       (ExampleRuntime.world (q "[{'configuration':{'id':'b'}}]") tableOutput None) []
     = (inr [{| Container.id := Js.str "b"; Container.name := Js.str "b";
                Container.image := Js.str "unknown"; Container.status := Js.str "unknown";
                Container.ports := Some EmptyString; Container.created := "unknown";
                Container.ipAddress := Some "10.0.0.5"; Container.os := Some "linux";
                Container.arch := Some "arm64" |}],
        [Exec (jsonCmd false); Exec (tableCmd false)]).
Proof.
  cbv zeta. split; [right; left; reflexivity|].
  split; [reflexivity|]. split; [reflexivity|].
  vm_compute. reflexivity.
Qed.

(** ** Records of the container listing *)

Section ListedRecords.
Variable rt : Runtime.

Lemma Forall2_In_right {A B : Type} (R : A -> B -> Prop) (xs : list A) (ys : list B)
  (y : B) :
  Forall2 R xs ys -> In y ys -> exists x, In x xs /\ R x y.
Proof.
  induction 1 as [|x y' xs ys Hxy _ IH]; simpl; [contradiction|].
  intros [<-|Hin].
  - exists x. split; [now left | assumption].
  - destruct (IH Hin) as (x' & Hx' & HR). exists x'. split; [now right | assumption].
Qed.


(** Every record of the listing is the merged record of the element of the
    parsed JSON array that stands at its place. *)
Lemma listed_record_merged (env : Env) (tr tr' : list Event) (all : bool)
  (containers : list Container.t) (n : nat) (c : Container.t) :
  run (ContainerManager.listContainers rt all) env tr = (inr containers, tr') ->
  nth_error containers n = Some c ->
  exists jsonOutput rawContainers tableOutput rawContainer,
    cli env tr (jsonCmd all) = inr jsonOutput
    /\ JSON_parse rt jsonOutput = inr (JArr rawContainers)
    /\ cli env (tr ++ [Exec (jsonCmd all)])%list (tableCmd all) = inr tableOutput
    /\ nth_error rawContainers n = Some rawContainer
    /\ c = mergedRecord tableOutput rawContainer.
Proof.
  rewrite listContainers_run. intros Hrun Hn.
  assert (Hnil : forall (l : list Container.t), l = [] -> nth_error l n <> Some c)
    by (intros l ->; destruct n; discriminate).
  destruct (cli env tr (jsonCmd all)) as [?|jsonOutput];
    [injection Hrun as <- _; now apply Hnil in Hn|].
  destruct (JSON_parse rt jsonOutput) as [?|rawContainers] eqn:Hparse;
    [injection Hrun as <- _; now apply Hnil in Hn|].
  destruct (cli env (tr ++ [Exec (jsonCmd all)]) (tableCmd all)) as [?|tableOutput];
    [injection Hrun as <- _; now apply Hnil in Hn|].
  destruct (array_map "rawContainers" rawContainers _) as [?|cs] eqn:Hmap;
    [injection Hrun as <- _; now apply Hnil in Hn|].
  injection Hrun as <- _.
  destruct rawContainers as [| | | |raws|]; try discriminate Hmap.
  cbn [array_map] in Hmap. rewrite mapE_merged in Hmap.
  destruct (existsb isNull raws); [discriminate Hmap|]. injection Hmap as <-.
  rewrite nth_error_map in Hn.
  destruct (nth_error raws n) as [raw|] eqn:Hraw; [|discriminate Hn].
  injection Hn as <-. exists jsonOutput, raws, tableOutput, raw.
  split; [reflexivity|]. split; [exact Hparse|]. split; [reflexivity|].
  split; [exact Hraw | reflexivity].
Qed.

Lemma getContainerDetails_created (c : Container.t)
  (details : list ContainerProvider.ContainerDetailItem) :
  Container.created c = "unknown" ->
  ContainerProvider.getContainerDetails rt c = inr details ->
  exists front, details = (front ++ [createdRow])%list.
Proof.
  intros Hcreated. unfold ContainerProvider.getContainerDetails. rewrite Hcreated.
  destruct (value_toLowerCase rt _ (Container.status c)) as [?|statusLower];
    cbn [bindE]; [discriminate|].
  destruct (present (Container.ipAddress c) && includes statusLower "running").
  - destruct (ContainerProvider.getConnectionExamples rt c) as [?|examples];
      cbn [bindE]; [discriminate|].
    intros H. injection H as <-. eexists. reflexivity.
  - cbn [bindE]. intros H. injection H as <-. eexists. reflexivity.
Qed.

Lemma getContainerDetails_returns (c : Container.t) :
  Js.is_string (Container.status c) = true ->
  Js.is_string (Container.image c) = true ->
  exists details, ContainerProvider.getContainerDetails rt c = inr details.
Proof.
  unfold ContainerProvider.getContainerDetails, ContainerProvider.getConnectionExamples.
  destruct (Container.status c) as [[| | |status| |]|]; try discriminate.
  destruct (Container.image c) as [[| | |image| |]|]; try discriminate.
  intros _ _. cbn [value_toLowerCase bindE].
  destruct (present (Container.ipAddress c) && _); cbn [bindE]; eexists; reflexivity.
Qed.

End ListedRecords.

(** C10: every record of the container listing has a truthy name, which is
    the hostname of the JSON entry that stands at the place of the record in
    the parsed output, or else the id of that entry; it has the empty string
    as ports and the lowercase text unknown as created.  The test of the
    detail view, [created && created !== 'Unknown'], therefore holds for it,
    and the detail rows of the record, which exist whenever its status and
    image are strings, end with a Created row that shows unknown. *)
Theorem listed_record_created_row
  (rt : Runtime) (env : Env) (tr tr' : list Event) (all : bool)
  (containers : list Container.t) (n : nat) (c : Container.t) :
  run (ContainerManager.listContainers rt all) env tr = (inr containers, tr') ->
  nth_error containers n = Some c ->
  Js.truthy (Container.name c) = true
  /\ (exists jsonOutput rawContainers rawContainer,
         cli env tr (jsonCmd all) = inr jsonOutput
         /\ JSON_parse rt jsonOutput = inr (JArr rawContainers)
         /\ nth_error rawContainers n = Some rawContainer
         /\ Container.id c = rawId rawContainer
         /\ Container.name c
            = Js.or (Js.get_opt (rawConfig rawContainer) "hostname") (rawId rawContainer))
  /\ Container.ports c = Some EmptyString
  /\ Container.created c = "unknown"
  /\ nonempty (Container.created c) && negb (JsString.eqb (Container.created c) "Unknown")
     = true
  /\ (forall details,
         ContainerProvider.getContainerDetails rt c = inr details ->
         exists front, details = (front ++ [createdRow])%list)
  /\ (Js.is_string (Container.status c) = true ->
      Js.is_string (Container.image c) = true ->
      exists front,
        ContainerProvider.getContainerDetails rt c = inr (front ++ [createdRow])%list).
Proof.
  intros Hrun Hn.
  destruct (listed_record_merged rt env tr tr' all containers n c Hrun Hn)
    as (jsonOutput & raws & tableOutput & raw & Hjson & Hparse & _ & Hraw & Hc).
  assert (Hcreated : Container.created c = "unknown") by now subst c.
  split; [|split; [|split; [|split; [|split; [|split]]]]].
  - subst c. simpl. unfold rawName. apply or_truthy, rawId_truthy.
  - exists jsonOutput, raws, raw. subst c. now repeat split.
  - now subst c.
  - exact Hcreated.
  - now rewrite Hcreated.
  - intros details. now apply getContainerDetails_created.
  - intros Hstatus Himage.
    destruct (getContainerDetails_returns rt c Hstatus Himage) as [details Hdetails].
    destruct (getContainerDetails_created rt c details Hcreated Hdetails) as [front ->].
    now exists front.
Qed.

(** C10 on the record of the end-to-end scenario, whose name is the hostname
    of its JSON entry. *)
Lemma listed_record_created_row_witness :
  Js.truthy (Container.name scenarioRecord) = true
  /\ Container.name scenarioRecord = Js.str "web1"
  /\ Container.ports scenarioRecord = Some EmptyString
  /\ Container.created scenarioRecord = "unknown"
  /\ exists front,
       ContainerProvider.getContainerDetails ExampleRuntime.runtime scenarioRecord
       = inr (front ++ [createdRow])%list.
Proof.
  destruct (listed_record_created_row ExampleRuntime.runtime
              (ExampleRuntime.world scenarioPayload
                 ("ID  IMAGE  OS  ARCH  STATE  ADDR" ++ String newline scenarioLine) None)
              [] [Exec (jsonCmd false); Exec (tableCmd false)] false
              [scenarioRecord] 0 scenarioRecord)
    as (Hname & _ & Hports & Hcreated & _ & _ & Hrow).
  - vm_compute. reflexivity.
  - reflexivity.
  - repeat split; try assumption. apply Hrow; reflexivity.
Defined.

(** A listing whose entry has no hostname: the name is the id. *)
Example listed_name_falls_back_to_id :
  map Container.name
    (match fst (run (ContainerManager.listContainers ExampleRuntime.runtime false)
                  (ExampleRuntime.world
                     (q "[{'configuration':{'id':'a','hostname':''}},{'configuration':{}}]")
                     EmptyString None) []) with
     | inr containers => containers
     | inl _ => []
     end)
  = [Js.str "a"; Js.str "unknown"].
Proof. vm_compute. reflexivity. Qed.

(** ** The connection examples *)

(** The nginx branch alone yields the web server example: the priority of
    redis is what decides an image that names both. *)
Lemma nginx_alone_is_web_server :
  ContainerProvider.getConnectionExamples ExampleRuntime.runtime
    {| Container.id := Js.str "abc"; Container.name := Js.str "web1";
       Container.image := Js.str "my-nginx:latest"; Container.status := Js.str "running";
       Container.ports := Some EmptyString; Container.created := "unknown";
       Container.ipAddress := Some "10.0.0.5"; Container.os := None;
       Container.arch := None |}
  = inr [webServerExample "10.0.0.5"].
Proof. reflexivity. Qed.

(** C9: for an image reference whose lower-case form contains both redis and
    nginx, the connection examples are the Redis CLI example alone, and the
    web server example is not among them: the redis fragment is tested
    first, and the first match wins. *)
Theorem redis_before_nginx
  (rt : Runtime) (container : Container.t) (image ip : string) :
  Container.image container = Js.str image ->
  Container.ipAddress container = Some ip ->
  includes (toLowerCase rt image) "redis" = true ->
  includes (toLowerCase rt image) "nginx" = true ->
  ContainerProvider.getConnectionExamples rt container = inr [redisExample ip]
  /\ forall examples,
       ContainerProvider.getConnectionExamples rt container = inr examples ->
       ~ In (webServerExample ip) examples.
Proof.
  intros Himage Hip Hredis _.
  assert (Hrun : ContainerProvider.getConnectionExamples rt container
                 = inr [redisExample ip]).
  { unfold ContainerProvider.getConnectionExamples.
    rewrite Himage, Hip. cbn [value_toLowerCase Js.str bindE].
    rewrite Hredis. reflexivity. }
  split; [exact Hrun|].
  intros examples Hexamples. rewrite Hrun in Hexamples. injection Hexamples as <-.
  intros [Heq|[]]. discriminate Heq.
Qed.

(** C9 on the image my-redis-nginx:latest. *)
Lemma redis_before_nginx_witness :
  ContainerProvider.getConnectionExamples ExampleRuntime.runtime
    {| Container.id := Js.str "abc"; Container.name := Js.str "web1";
       Container.image := Js.str "my-redis-nginx:latest";
       Container.status := Js.str "running";
       Container.ports := Some EmptyString; Container.created := "unknown";
       Container.ipAddress := Some "10.0.0.5"; Container.os := None;
       Container.arch := None |}
  = inr [redisExample "10.0.0.5"].
Proof.
  apply (redis_before_nginx ExampleRuntime.runtime _ "my-redis-nginx:latest" "10.0.0.5").
  - reflexivity.
  - reflexivity.
  - reflexivity.
  - reflexivity.
Defined.

(** ** The advanced-run command line *)

Section RunCommand.
Variable rt : Runtime.

Lemma append_empty (s : string) : s ++ EmptyString = s.
Proof. induction s as [|a s IH]; simpl; [reflexivity | now rewrite IH]. Qed.

Lemma append_assoc (a b c : string) : (a ++ b) ++ c = a ++ b ++ c.
Proof. induction a as [|x a IH]; simpl; [reflexivity | now rewrite IH]. Qed.

Lemma flag_step (on : bool) (cmd text : string) :
  (if on then cmd ++ text else cmd) = cmd ++ flag on text.
Proof. destruct on; simpl; [reflexivity | now rewrite append_empty]. Qed.

Lemma append_each_step (text : string) (items : list string) (cmd : string) :
  ContainerManager.append_each text items cmd = cmd ++ repeated text (Some items).
Proof.
  unfold ContainerManager.append_each. revert cmd.
  induction items as [|x items IH]; intros cmd; simpl.
  - now rewrite append_empty.
  - rewrite IH. simpl. now rewrite !append_assoc.
Qed.

Lemma append_all_step (text : string) (xs : option (list string)) (cmd : string) :
  ContainerManager.append_all text xs cmd = cmd ++ repeated text xs.
Proof.
  destruct xs as [items|]; simpl; [apply append_each_step | now rewrite append_empty].
Qed.

Lemma cpus_step (cpus : option number) (cmd : string) :
  match cpus with
  | Some n => if JsNumber.truthy n then cmd ++ " --cpus " ++ Number_toString rt n else cmd
  | None => cmd
  end
  = cmd ++ match cpus with
           | Some n => flag (JsNumber.truthy n) (" --cpus " ++ Number_toString rt n)
           | None => EmptyString
           end.
Proof. destruct cpus as [n|]; [apply flag_step | now rewrite append_empty]. Qed.

Lemma runCommand_spec (image : string) (options : option RunOptions.t) :
  ContainerManager.runCommand rt image options = runCommandSpec rt image options.
Proof.
  unfold ContainerManager.runCommand, runCommandSpec, runtimeFlags, identityFlags,
    resourceFlags, repeatedFlags, commandOverride, valued, quoted.
  rewrite !flag_step, cpus_step, !append_all_step, !append_assoc.
  reflexivity.
Qed.

Lemma runContainerAdvanced_run (env : Env) (tr : list Event) (image : string)
  (options : option RunOptions.t) :
  run (ContainerManager.runContainerAdvanced rt image options) env tr
  = (inr true,
     tr ++ Terminal "Container Run" (ContainerManager.runCommand rt image options)
        :: advisoryTimer options)%list.
Proof.
  unfold run, ContainerManager.runContainerAdvanced, try_catch, bind, terminal, emit,
    ret, advisoryTimer, suppliedPorts.
  destruct (opt_get RunOptions.referencePorts options) as [[|p ps]|];
    cbn beta iota; rewrite <- ?app_assoc; reflexivity.
Qed.

Lemma accessInstructions_run (env : Env) (tr : list Event) (portsList : string) :
  run (fire (AccessInstructions portsList)) env tr
  = (inr tt,
     tr ++ advisory portsList
        :: listingOffer (user env (tr ++ [advisory portsList])))%list.
Proof.
  unfold run, fire, ContainerManager.accessInstructions, bind, ask, terminal, emit, ret,
    listingOffer, advisory, ContainerManager.portsNotice.
  cbn beta iota.
  destruct (user env _) as [choice|]; [|reflexivity].
  destruct (JsString.eqb choice "Show Container List");
    cbn beta iota; rewrite <- ?app_assoc; reflexivity.
Qed.

End RunCommand.

(** C8: the command line of the advanced run is [container run] followed by
    the runtime flags (detach, interactive, tty, rm), the identity flags
    (name, workdir, user, entrypoint), the resource flags (cpus, memory),
    the repeated flags (dns, volumes, env, labels, once per item in the
    order of the items), the image and the command override.  It has no
    segment for ports or for a network: it is the same whatever the ports,
    reference ports and network of the options are.  The run sends that
    command line to the terminal and returns true; reference ports that were
    supplied are kept for one thing, the timer that it sets then and there
    when they are not empty.  When that timer fires, the advisory that names
    the ports joined by commas is shown, and the container listing is run in
    a terminal if the user chooses the button of the advisory. *)
Theorem runContainerAdvanced_command_line
  (rt : Runtime) (image : string) (options : option RunOptions.t) :
  ContainerManager.runCommand rt image options = runCommandSpec rt image options
  /\ (forall o ports referencePorts network,
         ContainerManager.runCommand rt image
           (Some (withPortsAndNetwork o ports referencePorts network))
         = ContainerManager.runCommand rt image (Some o))
  /\ (forall env tr,
         run (ContainerManager.runContainerAdvanced rt image options) env tr
         = (inr true,
            tr ++ Terminal "Container Run" (runCommandSpec rt image options)
               :: advisoryTimer options)%list)
  /\ forall portsList env tr,
       run (fire (AccessInstructions portsList)) env tr
       = (inr tt,
          tr ++ advisory portsList
             :: listingOffer (user env (tr ++ [advisory portsList])))%list.
Proof.
  split; [apply runCommand_spec|]. split; [|split].
  - intros o ports referencePorts network. reflexivity.
  - intros env tr. rewrite <- runCommand_spec. apply runContainerAdvanced_run.
  - intros portsList env tr. apply accessInstructions_run.
Qed.

(** A run with every option set: the ports [80] and the network [host]
    leave no trace in the command line, and half a processor is asked for as
    [--cpus 0.5]. *)
Example runContainerAdvanced_command_line_example :
  ContainerManager.runCommand ExampleRuntime.runtime "nginx:latest"
    (Some {| RunOptions.name := Some "web"; RunOptions.ports := Some ["80"];
             RunOptions.referencePorts := Some ["80"];
             RunOptions.volumes := Some ["/a:/b"; "/c:/d"];
             RunOptions.env := Some ["A=1"]; RunOptions.detach := Some true;
             RunOptions.interactive := None; RunOptions.tty := Some true;
             RunOptions.remove := Some true; RunOptions.command := Some "sh";
             RunOptions.workdir := Some "/w"; RunOptions.user := Some "root";
             RunOptions.entrypoint := Some "/e";
             RunOptions.cpus := Some (ExampleRuntime.parse_float "0.5");
             RunOptions.memory := Some "1g"; RunOptions.network := Some "host";
             RunOptions.labels := Some ["l=1"];
             RunOptions.dns := Some ["1.1.1.1"; "8.8.8.8"] |})
  = "container run --detach --tty --rm --name web --workdir " ++ dquote ++ "/w" ++ dquote
    ++ " --user root --entrypoint " ++ dquote ++ "/e" ++ dquote
    ++ " --cpus 0.5 --memory 1g --dns 1.1.1.1 --dns 8.8.8.8 -v /a:/b -v /c:/d -e A=1 -l l=1"
    ++ " nginx:latest sh".
Proof. vm_compute. reflexivity. Qed.

(** The timer of that run, and what its firing shows when the user
    chooses the button. *)
Example runContainerAdvanced_advisory_example :
  let options :=
    {| RunOptions.name := None; RunOptions.ports := None;
       RunOptions.referencePorts := Some ["80"; "443"];
       RunOptions.volumes := None; RunOptions.env := None; RunOptions.detach := None;
       RunOptions.interactive := None; RunOptions.tty := None;
       RunOptions.remove := None; RunOptions.command := None;
       RunOptions.workdir := None; RunOptions.user := None;
       RunOptions.entrypoint := None; RunOptions.cpus := None;
       RunOptions.memory := None; RunOptions.network := None;
       RunOptions.labels := None; RunOptions.dns := None |} in
  let env := ExampleRuntime.world EmptyString EmptyString (Some "Show Container List") in
  run (thenTimers
         (ContainerManager.runContainerAdvanced ExampleRuntime.runtime "nginx" (Some options)))
    env []
  = (inr true,
     [Terminal "Container Run" "container run nginx";
      SetTimeout (AccessInstructions "80, 443") 2000;
      advisory "80, 443";
      Terminal "Container List" "container ls"]).
Proof. vm_compute. reflexivity. Qed.

(** ** The image reference *)

Section ImageReference.

Lemma splitAtLastColon_none (s : string) :
  occurs ":" s = false -> splitAtLastColon s = None.
Proof.
  induction s as [|a s IH]; simpl; [reflexivity|].
  intros H. apply orb_false_iff in H as [Ha Hs]. now rewrite (IH Hs), Ha.
Qed.

Lemma splitAtLastColon_one (before after : string) :
  occurs ":" after = false ->
  splitAtLastColon (before ++ String ":" after) = Some (before, after).
Proof.
  intros Hafter. induction before as [|a before IH]; simpl.
  - now rewrite (splitAtLastColon_none after Hafter).
  - now rewrite IH.
Qed.

(** With one colon at most between non-empty parts, and no digest, the
    code splits as the specification does. *)
Lemma splitReference_without_colon (rt : Runtime) (reference : string) :
  occurs "@" reference = false -> occurs ":" reference = false ->
  nonempty reference = true ->
  splitReference rt reference = Some (splitReferenceSpec reference)
  /\ splitReference rt reference = Some (reference, "latest").
Proof.
  intros Hat Hcolon Hne.
  unfold splitReference, splitReferenceSpec, ContainerManager.toImage.
  simpl Js.get. cbn [bindE]. unfold Js.or. simpl Js.truthy. rewrite Hne.
  cbn [value_split Js.str bindE].
  rewrite (split_no_separator "@" reference Hat). cbn [hd].
  rewrite (split_no_separator ":" reference Hcolon), (splitAtLastColon_none _ Hcolon).
  cbn. unfold or_else. rewrite Hne. split; reflexivity.
Qed.

Lemma splitReference_one_colon (rt : Runtime) (repository tag : string) :
  occurs "@" (repository ++ String ":" tag) = false ->
  occurs ":" repository = false -> occurs ":" tag = false ->
  nonempty repository = true -> nonempty tag = true ->
  splitReference rt (repository ++ String ":" tag)
  = Some (splitReferenceSpec (repository ++ String ":" tag))
  /\ splitReference rt (repository ++ String ":" tag) = Some (repository, tag).
Proof.
  intros Hat Hrepo Htag Hr Ht.
  assert (Hne : nonempty (repository ++ String ":" tag) = true)
    by (destruct repository; [discriminate Hr | reflexivity]).
  unfold splitReference, splitReferenceSpec, ContainerManager.toImage.
  simpl Js.get. cbn [bindE]. unfold Js.or. simpl Js.truthy. rewrite Hne.
  cbn [value_split Js.str bindE].
  rewrite (split_no_separator "@" _ Hat). cbn [hd].
  rewrite (split_first_line ":" repository tag Hrepo), (split_no_separator ":" tag Htag),
    (splitAtLastColon_one repository tag Htag).
  cbn. unfold or_else. rewrite Hr, Ht. split; reflexivity.
Qed.

(** The reference of the specification splits as it says. *)
Lemma splitReference_docker_io (rt : Runtime) :
  splitReference rt "docker.io/library/nginx:latest"
  = Some ("docker.io/library/nginx", "latest").
Proof. reflexivity. Qed.

End ImageReference.

(** C1: on a reference with a registry port, as localhost:5000/nginx:1.2,
    the listing takes the text before the first colon as the repository and
    the text between the first two colons as the tag, localhost and
    5000/nginx, where the split at the last colon gives localhost:5000/nginx
    and 1.2; a digest after the reference does not change this. *)
Theorem image_reference_with_port_splits_at_first_colon (rt : Runtime) :
  splitReference rt "localhost:5000/nginx:1.2" = Some ("localhost", "5000/nginx")
  /\ splitReferenceSpec "localhost:5000/nginx:1.2" = ("localhost:5000/nginx", "1.2")
  /\ splitReference rt "localhost:5000/nginx:1.2@sha256:0123abcd"
     = Some ("localhost", "5000/nginx")
  /\ splitReferenceSpec "localhost:5000/nginx:1.2@sha256:0123abcd"
     = ("localhost:5000/nginx", "1.2").
Proof. repeat split; reflexivity. Qed.

(** ** What a handler shows and runs *)

Section Traces.

Variable P : Event -> Prop.

Lemma emits_ret {A : Type} (a : A) : emits P (ret a).
Proof. intros env tr. exists []. split; [symmetry; apply app_nil_r | constructor]. Qed.

Lemma emits_lift {A : Type} (e : E A) : emits P (lift e).
Proof. intros env tr. exists []. split; [symmetry; apply app_nil_r | constructor]. Qed.

Lemma emits_workspaceFolders : emits P Extension.workspaceFolders.
Proof. intros env tr. exists []. split; [symmetry; apply app_nil_r | constructor]. Qed.

Lemma emits_emit (e : Event) : P e -> emits P (emit e).
Proof. intros He env tr. exists [e]. split; [reflexivity | now constructor]. Qed.

Lemma emits_ask (e : Event) : P e -> emits P (ask e).
Proof. intros He env tr. exists [e]. split; [reflexivity | now constructor]. Qed.

Lemma emits_execAsync (cmd : string) : P (Exec cmd) -> emits P (execAsync cmd).
Proof. intros He env tr. exists [Exec cmd]. split; [reflexivity | now constructor]. Qed.

Lemma emits_bind {A B : Type} (m : M A) (k : A -> M B) :
  emits P m -> (forall a, emits P (k a)) -> emits P (bind m k).
Proof.
  intros Hm Hk env tr. destruct (Hm env tr) as (new & Hnew & HP).
  unfold run, bind in *. destruct (m env tr) as [[e|a] tr']; simpl in Hnew; subst tr'.
  - now exists new.
  - destruct (Hk a env (tr ++ new)%list) as (new' & Hnew' & HP').
    exists (new ++ new')%list. split.
    + unfold run in Hnew'. rewrite Hnew'. now rewrite app_assoc.
    + apply Forall_app. now split.
Qed.

Lemma emits_try_catch {A : Type} (body : M A) (handler : exn -> M A) :
  emits P body -> (forall e, emits P (handler e)) -> emits P (try_catch body handler).
Proof.
  intros Hm Hk env tr. destruct (Hm env tr) as (new & Hnew & HP).
  unfold run, try_catch in *. destruct (body env tr) as [[e|a] tr']; simpl in Hnew; subst tr'.
  - destruct (Hk e env (tr ++ new)%list) as (new' & Hnew' & HP').
    exists (new ++ new')%list. split.
    + unfold run in Hnew'. rewrite Hnew'. now rewrite app_assoc.
    + apply Forall_app. now split.
  - now exists new.
Qed.

Lemma issues_execAsync (cmd : string) : issues cmd (execAsync cmd).
Proof. intros env tr. now exists []. Qed.

Lemma issues_bind {A B : Type} (cmd : string) (m : M A) (k : A -> M B) :
  issues cmd m -> (forall a, emits (fun _ => True) (k a)) -> issues cmd (bind m k).
Proof.
  intros Hm Hk env tr. destruct (Hm env tr) as (rest & Hrest).
  unfold run, bind in *. destruct (m env tr) as [[e|a] tr']; simpl in Hrest; subst tr'.
  - now exists rest.
  - destruct (Hk a env (tr ++ Exec cmd :: rest)%list) as (new' & Hnew' & _).
    exists (rest ++ new')%list. unfold run in Hnew'. rewrite Hnew'.
    now rewrite <- app_assoc.
Qed.

Lemma issues_try_catch {A : Type} (cmd : string) (body : M A) (handler : exn -> M A) :
  issues cmd body -> (forall e, emits (fun _ => True) (handler e)) ->
  issues cmd (try_catch body handler).
Proof.
  intros Hm Hk env tr. destruct (Hm env tr) as (rest & Hrest).
  unfold run, try_catch in *.
  destruct (body env tr) as [[e|a] tr']; simpl in Hrest; subst tr'.
  - destruct (Hk e env (tr ++ Exec cmd :: rest)%list) as (new' & Hnew' & _).
    exists (rest ++ new')%list. unfold run in Hnew'. rewrite Hnew'.
    now rewrite <- app_assoc.
  - now exists rest.
Qed.

(** The shape of every destructive handler. *)
Lemma gated_question {A : Type} (text command : string) (yes : M A) (a : A) :
  issues command yes ->
  gated (confirm <- showWarningMessage text ["Yes"; "No"] ;;
         if confirmed confirm then yes else ret a)
    command.
Proof.
  intros Hyes env tr. exists text. cbv zeta.
  unfold run, bind, showWarningMessage, ask.
  destruct (confirmed (user env (tr ++ [ShowWarning text ["Yes"; "No"]])%list)).
  - apply Hyes.
  - reflexivity.
Qed.

End Traces.

Create HintDb handlers.

#[local] Hint Unfold
  showInformationMessage showErrorMessage showInputBox terminal
  ContainerManager.listContainers ContainerManager.listImages ContainerManager.parse
  ContainerManager.startContainer ContainerManager.stopContainer
  ContainerManager.removeContainer ContainerManager.removeImage
  ContainerManager.inspectContainer ContainerManager.inspectImageJson
  ContainerManager.buildImage ContainerManager.runContainerAdvanced
  ContainerManager.runContainer ContainerManager.pullImage
  ContainerManager.execInContainer ContainerManager.streamContainerLogs
  Extension.refresh Extension.updateStatusBar Extension.showInspection
  Extension.startContainer Extension.stopContainer Extension.inspectContainer
  Extension.inspectImage Extension.execInContainer Extension.runFromImage
  Extension.pullImage Extension.buildImage
  ContainerDetailsPanel.update ContainerDetailsPanel.refreshContainer : handlers.

(** Walks through a handler, one construct at a time. *)
Ltac walk :=
  repeat first
    [ apply emits_ret
    | apply emits_lift
    | apply emits_workspaceFolders
    | apply emits_emit; solve [exact I | simpl; tauto]
    | apply emits_ask; solve [exact I | simpl; tauto]
    | apply emits_execAsync; solve [exact I | simpl; tauto]
    | apply emits_bind; [|intros ?]
    | apply emits_try_catch; [|intros ?]
    | match goal with
      | |- emits _ (match ?x with _ => _ end) => destruct x
      end
    | progress cbv zeta
    | progress autounfold with handlers ].

Lemma emits_weaken {A : Type} (P Q : Event -> Prop) (m : M A) :
  (forall e, P e -> Q e) -> emits P m -> emits Q m.
Proof.
  intros HPQ Hm env tr. destruct (Hm env tr) as (new & Hnew & Hall).
  exists new. split; [assumption|]. eapply Forall_impl; [|exact Hall]. exact HPQ.
Qed.

Lemma unconfirmed_extends {A : Type} (m : M A) :
  unconfirmed m -> emits (fun _ => True) m.
Proof. apply emits_weaken. trivial. Qed.

Section Confirmation.
Variable rt : Runtime.

Lemma updateStatusBar_unconfirmed : unconfirmed (Extension.updateStatusBar rt).
Proof. unfold unconfirmed. walk. Qed.

Lemma after_removal_extends :
  emits (fun _ => True) (Extension.refresh ;;; Extension.updateStatusBar rt).
Proof. apply unconfirmed_extends. unfold unconfirmed. walk. Qed.

Lemma removeContainer_issues (containerId : jsvalue) (force : bool) :
  issues ("container delete" ++ (if force then " --force" else EmptyString) ++ " "
          ++ template rt containerId)
    (ContainerManager.removeContainer rt containerId force).
Proof.
  unfold ContainerManager.removeContainer. cbv zeta.
  apply issues_try_catch; [|intros e; walk].
  apply issues_bind; [apply issues_execAsync | intros _; walk].
Qed.

Lemma removeImage_issues (imageId : jsvalue) :
  issues ("container image delete " ++ template rt imageId)
    (ContainerManager.removeImage rt imageId).
Proof.
  unfold ContainerManager.removeImage.
  apply issues_try_catch; [|intros e; walk].
  apply issues_bind; [apply issues_execAsync | intros _; walk].
Qed.

(** [ContainerManager.pruneImages]: the question, then the command on Yes
    alone; [false] on any other answer. *)
Lemma pruneImages_run (env : Env) (tr : list Event) :
  let asked :=
    (tr ++ [ShowWarning
              "Are you sure you want to prune unused images? This will remove all dangling images."
              ["Yes"; "No"]])%list in
  if confirmed (user env asked)
  then exists result rest,
      run ContainerManager.pruneImages env tr
      = (inr result, asked ++ Exec "container image prune --force" :: rest)%list
  else run ContainerManager.pruneImages env tr = (inr false, asked).
Proof.
  cbv zeta.
  unfold run, ContainerManager.pruneImages, try_catch, bind, showWarningMessage, ask,
    execAsync, showInformationMessage, showErrorMessage, emit, ret.
  destruct (confirmed (user env _)); [|reflexivity].
  destruct (cli env _ _); simpl; eexists; eexists; rewrite <- !app_assoc; reflexivity.
Qed.

End Confirmation.

Section Dispatch.
Variable rt : Runtime.

Lemma removeContainer_gated (c : Container.t) :
  gated (Extension.removeContainer rt (Some c)) (deleteCommand rt false c).
Proof.
  unfold Extension.removeContainer. apply gated_question.
  apply issues_bind; [apply removeContainer_issues|].
  intros _. apply after_removal_extends.
Qed.

Lemma forceRemoveContainer_gated (c : Container.t) :
  gated (Extension.forceRemoveContainer rt (Some c)) (deleteCommand rt true c).
Proof.
  unfold Extension.forceRemoveContainer. apply gated_question.
  apply issues_bind; [apply removeContainer_issues|].
  intros _. apply after_removal_extends.
Qed.

Lemma removeImage_gated (image : Image.t) :
  gated (Extension.removeImage rt (Some image))
    ("container image delete " ++ template rt (Image.id image)).
Proof.
  unfold Extension.removeImage. apply gated_question.
  apply issues_bind; [apply removeImage_issues|].
  intros _. unfold Extension.refresh. walk.
Qed.

Lemma pruneImages_gated : gated Extension.pruneImages "container image prune --force".
Proof.
  intros env tr. exists pruneQuestion. cbv zeta.
  pose proof (pruneImages_run env tr) as Hrun. cbv zeta in Hrun.
  fold pruneQuestion in Hrun. unfold run, Extension.pruneImages, bind in *.
  destruct (confirmed (user env _)).
  - destruct Hrun as (result & rest & ->).
    destruct result; simpl.
    + exists (rest ++ [TreeRefresh])%list. now rewrite <- !app_assoc.
    + now exists rest.
  - rewrite Hrun. reflexivity.
Qed.

Lemma panel_removeContainer_gated (c : Container.t) :
  gated (ContainerDetailsPanel.onDidReceiveMessage rt c "removeContainer")
    (deleteCommand rt false c).
Proof.
  unfold ContainerDetailsPanel.onDidReceiveMessage. cbn [JsString.eqb N.eqb Pos.eqb andb].
  apply gated_question.
  apply issues_bind; [apply removeContainer_issues|].
  intros _. walk.
Qed.

(** The commands that ask for input. *)

Lemma pullImage_run (env : Env) (tr : list Event) :
  run Extension.pullImage env tr
  = (inr tt,
     (tr ++ [ShowInputBox pullPrompt])
     ++ match user env (tr ++ [ShowInputBox pullPrompt]) with
        | Some image =>
            if nonempty image
            then [Terminal "Image Pull" ("container image pull " ++ image); TreeRefresh]
            else []
        | None => []
        end)%list.
Proof.
  unfold run, Extension.pullImage, ContainerManager.pullImage, Extension.refresh, try_catch,
    bind, showInputBox, ask, terminal, emit, ret, pullPrompt.
  destruct (user env _) as [[|a image]|]; simpl; rewrite <- ?app_assoc, ?app_nil_r; reflexivity.
Qed.

Lemma execInContainer_run (env : Env) (tr : list Event) (c : Container.t) :
  run (Extension.execInContainer rt (Some c)) env tr
  = (inr tt,
     (tr ++ [ShowInputBox execPrompt])
     ++ match user env (tr ++ [ShowInputBox execPrompt]) with
        | Some command =>
            if nonempty command
            then [Terminal ("Container Exec - " ++ template rt (Container.id c))
                    ("container exec --interactive --tty " ++ template rt (Container.id c)
                     ++ " " ++ command)]
            else []
        | None => []
        end)%list.
Proof.
  unfold run, Extension.execInContainer, ContainerManager.execInContainer, try_catch,
    bind, showInputBox, ask, terminal, emit, ret, execPrompt.
  destruct (user env _) as [[|a command]|]; simpl; rewrite <- ?app_assoc, ?app_nil_r;
    reflexivity.
Qed.

Lemma buildImage_run (env : Env) (tr : list Event) :
  run Extension.buildImage env tr
  = (inr tt,
     tr ++
     match workspaceFolder env with
     | None => [ShowError "No workspace folder open"]
     | Some _ =>
         match user env (tr ++ firstn 1 buildPrompts) with
         | None => firstn 1 buildPrompts
         | Some contextPath =>
             match user env (tr ++ firstn 2 buildPrompts) with
             | None => firstn 2 buildPrompts
             | Some tag =>
                 match user env (tr ++ buildPrompts) with
                 | None => buildPrompts
                 | Some dockerfile =>
                     if nonempty contextPath
                     then buildPrompts
                          ++ [Terminal "Container Build"
                                (buildCommand contextPath tag dockerfile);
                              TreeRefresh]
                     else buildPrompts
                 end
             end
         end
     end)%list.
Proof.
  unfold run, Extension.buildImage, ContainerManager.buildImage, Extension.workspaceFolders,
    Extension.refresh, try_catch, bind, showInputBox, showErrorMessage, ask, terminal, emit,
    ret, buildPrompts, buildCommand, valued, flag.
  destruct (workspaceFolder env); [|reflexivity].
  cbn [firstn]. cbn beta iota.
  destruct (user env (tr ++ [ShowInputBox "Build context path"])%list) as [contextPath|];
    [|reflexivity].
  cbn beta iota. rewrite <- !app_assoc. cbn [app].
  destruct (user env (tr ++ [ShowInputBox "Build context path";
                             ShowInputBox "Image tag (optional)"])%list) as [tag|];
    [|reflexivity].
  cbn beta iota. rewrite <- !app_assoc. cbn [app].
  destruct (user env (tr ++ [ShowInputBox "Build context path";
                             ShowInputBox "Image tag (optional)";
                             ShowInputBox "Dockerfile path (optional)"])%list)
    as [dockerfile|]; [|reflexivity].
  cbn beta iota.
  destruct (nonempty contextPath); [|reflexivity].
  cbv zeta. cbn [present or_else_none].
  destruct (nonempty tag), (nonempty dockerfile); cbn beta iota;
    rewrite <- ?app_assoc, ?append_empty, ?append_assoc; reflexivity.
Qed.

(** The options that [runFromImage] builds from its two answers. *)
Lemma runFromImage_command (image : Image.t) (name : string)
  (referencePorts : option (list string)) :
  ContainerManager.runCommand rt
    (Image.repository image ++ ":" ++ Image.tag image)
    (Some {| RunOptions.name := if nonempty name then Some name else None;
             RunOptions.ports := None;
             RunOptions.referencePorts := referencePorts;
             RunOptions.volumes := None;
             RunOptions.env := None;
             RunOptions.detach := Some true;
             RunOptions.interactive := Some true;
             RunOptions.tty := Some true;
             RunOptions.remove := None;
             RunOptions.command := None;
             RunOptions.workdir := None;
             RunOptions.user := None;
             RunOptions.entrypoint := None;
             RunOptions.cpus := None;
             RunOptions.memory := None;
             RunOptions.network := None;
             RunOptions.labels := None;
             RunOptions.dns := None |})
  = runFromImageCommand rt image name.
Proof.
  unfold runFromImageCommand, valued, flag. destruct name as [|a name]; reflexivity.
Qed.

Lemma runFromImage_sends (env : Env) (tr : list Event) (image : Image.t)
  (name ports : string) :
  user env (tr ++ [ShowInputBox namePrompt])%list = Some name ->
  user env (tr ++ [ShowInputBox namePrompt; ShowInputBox portsPrompt])%list = Some ports ->
  exists rest,
    snd (run (Extension.runFromImage rt (Some image)) env tr)
    = ((tr ++ [ShowInputBox namePrompt; ShowInputBox portsPrompt])
       ++ Terminal "Container Run" (runFromImageCommand rt image name) :: rest)%list.
Proof.
  unfold namePrompt, portsPrompt.
  intros Hname Hports.
    unfold run, Extension.runFromImage.
  unfold bind at 1. unfold showInputBox at 1, ask. rewrite Hname.
  unfold bind at 1. unfold showInputBox, ask.
  rewrite <- app_assoc. cbn [app]. rewrite Hports. cbv zeta.
  unfold ContainerManager.runContainer.
  match goal with
  | |- context [ContainerManager.runContainerAdvanced rt ?img ?opts] =>
      pose proof (runContainerAdvanced_run rt env
                    (tr ++ [ShowInputBox "Container name (optional)";
                            ShowInputBox
                              "Ports to expose (for reference, comma-separated, e.g., 80,3000,6379)"])%list
                    img opts) as Hrun
  end.
  rewrite runFromImage_command in Hrun.
  assert (Hafter : emits (fun _ => True)
                     (Extension.refresh ;;; Extension.updateStatusBar rt))
    by apply after_removal_extends.
  unfold run in Hrun. unfold bind at 1. rewrite Hrun.
  match goal with
  | |- context [(Extension.refresh ;;; Extension.updateStatusBar rt) env ?t] =>
      destruct (Hafter env t) as (more & Hmore & _)
  end.
  unfold run in Hmore. rewrite Hmore.
  eexists. cbn [snd]. rewrite <- !app_assoc. cbn [app]. reflexivity.
Qed.


Lemma startContainer_issues (containerId : jsvalue) :
  issues ("container start " ++ template rt containerId)
    (ContainerManager.startContainer rt containerId).
Proof.
  unfold ContainerManager.startContainer.
  apply issues_try_catch; [|intros e; walk].
  apply issues_bind; [apply issues_execAsync | intros _; walk].
Qed.

Lemma stopContainer_issues (containerId : jsvalue) :
  issues ("container stop " ++ template rt containerId)
    (ContainerManager.stopContainer rt containerId).
Proof.
  unfold ContainerManager.stopContainer.
  apply issues_try_catch; [|intros e; walk].
  apply issues_bind; [apply issues_execAsync | intros _; walk].
Qed.

Lemma inspectContainer_issues (containerId : jsvalue) :
  issues ("container inspect " ++ template rt containerId)
    (ContainerManager.inspectContainer rt containerId).
Proof.
  unfold ContainerManager.inspectContainer.
  apply issues_try_catch; [|intros e; walk].
  apply issues_bind; [apply issues_execAsync | intros stdout; walk].
Qed.

Lemma inspectImageJson_issues (imageReference : jsvalue) :
  issues ("container image inspect " ++ template rt imageReference)
    (ContainerManager.inspectImageJson rt imageReference).
Proof.
  unfold ContainerManager.inspectImageJson.
  apply issues_try_catch; [|intros e; walk].
  apply issues_bind; [apply issues_execAsync | intros stdout; walk].
Qed.

Lemma refreshContainer_extends (c : Container.t) :
  emits (fun _ => True) (ContainerDetailsPanel.refreshContainer rt c).
Proof. walk. Qed.

End Dispatch.

(** C7: each destructive action (remove container, force-remove container,
    remove image, prune images, and the Remove button of the details panel)
    first asks a question with the answers Yes and No; on Yes the next thing
    it does is to run its command, and on No or when the question is
    dismissed it does nothing more, [ContainerManager.pruneImages] then
    resolving to false.  The other actions execute, and ask no such question
    on any path: start, stop and inspect, from the tree or from the panel,
    begin by running their command; run, pull, build and exec ask for their
    input and, once it is given, send their command line to a terminal as
    the next thing they do. *)
Theorem destructive_actions_are_confirmed (rt : Runtime) :
  ((forall c, gated (Extension.removeContainer rt (Some c)) (deleteCommand rt false c))
   /\ (forall c, gated (Extension.forceRemoveContainer rt (Some c)) (deleteCommand rt true c))
   /\ (forall image,
          gated (Extension.removeImage rt (Some image))
            ("container image delete " ++ template rt (Image.id image)))
   /\ gated Extension.pruneImages "container image prune --force"
   /\ (forall c,
          gated (ContainerDetailsPanel.onDidReceiveMessage rt c "removeContainer")
            (deleteCommand rt false c))
   /\ (forall env tr,
          if confirmed (user env (tr ++ [ShowWarning pruneQuestion ["Yes"; "No"]])%list)
          then exists result rest,
              run ContainerManager.pruneImages env tr
              = (inr result,
                 (tr ++ [ShowWarning pruneQuestion ["Yes"; "No"]])
                 ++ Exec "container image prune --force" :: rest)%list
          else run ContainerManager.pruneImages env tr
               = (inr false, tr ++ [ShowWarning pruneQuestion ["Yes"; "No"]])%list))
  /\ ((forall item, unconfirmed (Extension.startContainer rt item))
      /\ (forall item, unconfirmed (Extension.stopContainer rt item))
      /\ (forall item, unconfirmed (Extension.runFromImage rt item))
      /\ unconfirmed Extension.pullImage
      /\ unconfirmed Extension.buildImage
      /\ (forall item, unconfirmed (Extension.execInContainer rt item))
      /\ (forall c, unconfirmed (Extension.inspectContainer rt c))
      /\ (forall image, unconfirmed (Extension.inspectImage rt image))
      /\ (forall c, unconfirmed (ContainerDetailsPanel.onDidReceiveMessage rt c "startContainer"))
      /\ (forall c, unconfirmed (ContainerDetailsPanel.onDidReceiveMessage rt c "stopContainer")))
  /\ ((forall c,
          issues ("container start " ++ template rt (Container.id c))
            (Extension.startContainer rt (Some c)))
      /\ (forall c,
             issues ("container stop " ++ template rt (Container.id c))
               (Extension.stopContainer rt (Some c)))
      /\ (forall c,
             issues ("container inspect " ++ template rt (Container.id c))
               (Extension.inspectContainer rt c))
      /\ (forall image,
             issues ("container image inspect " ++ template rt (Image.reference image))
               (Extension.inspectImage rt image))
      /\ (forall c,
             issues ("container start " ++ template rt (Container.id c))
               (ContainerDetailsPanel.onDidReceiveMessage rt c "startContainer"))
      /\ (forall c,
             issues ("container stop " ++ template rt (Container.id c))
               (ContainerDetailsPanel.onDidReceiveMessage rt c "stopContainer")))
  /\ ((forall env tr image name ports,
          user env (tr ++ [ShowInputBox namePrompt])%list = Some name ->
          user env (tr ++ [ShowInputBox namePrompt; ShowInputBox portsPrompt])%list
          = Some ports ->
          exists rest,
            snd (run (Extension.runFromImage rt (Some image)) env tr)
            = ((tr ++ [ShowInputBox namePrompt; ShowInputBox portsPrompt])
               ++ Terminal "Container Run" (runFromImageCommand rt image name) :: rest)%list)
      /\ (forall env tr image,
             user env (tr ++ [ShowInputBox pullPrompt])%list = Some image ->
             nonempty image = true ->
             run Extension.pullImage env tr
             = (inr tt,
                tr ++ [ShowInputBox pullPrompt;
                       Terminal "Image Pull" ("container image pull " ++ image);
                       TreeRefresh])%list)
      /\ (forall env tr folder contextPath tag dockerfile,
             workspaceFolder env = Some folder ->
             user env (tr ++ firstn 1 buildPrompts)%list = Some contextPath ->
             user env (tr ++ firstn 2 buildPrompts)%list = Some tag ->
             user env (tr ++ buildPrompts)%list = Some dockerfile ->
             nonempty contextPath = true ->
             run Extension.buildImage env tr
             = (inr tt,
                tr ++ buildPrompts
                   ++ [Terminal "Container Build" (buildCommand contextPath tag dockerfile);
                       TreeRefresh])%list)
      /\ (forall env tr c command,
             user env (tr ++ [ShowInputBox execPrompt])%list = Some command ->
             nonempty command = true ->
             run (Extension.execInContainer rt (Some c)) env tr
             = (inr tt,
                tr ++ [ShowInputBox execPrompt;
                       Terminal ("Container Exec - " ++ template rt (Container.id c))
                         ("container exec --interactive --tty "
                          ++ template rt (Container.id c) ++ " " ++ command)])%list)).
Proof.
  split; [|split; [|split]].
  - split; [apply removeContainer_gated|].
    split; [apply forceRemoveContainer_gated|].
    split; [apply removeImage_gated|].
    split; [apply pruneImages_gated|].
    split; [apply panel_removeContainer_gated|].
    apply pruneImages_run.
  - unfold unconfirmed. repeat split; intros; walk.
  - repeat split; intros c.
    + unfold Extension.startContainer.
      apply issues_bind; [apply startContainer_issues | intros _; apply after_removal_extends].
    + unfold Extension.stopContainer.
      apply issues_bind; [apply stopContainer_issues | intros _; apply after_removal_extends].
    + unfold Extension.inspectContainer.
      apply issues_bind; [apply inspectContainer_issues | intros inspection; walk].
    + unfold Extension.inspectImage.
      apply issues_bind; [apply inspectImageJson_issues | intros inspection; walk].
    + unfold ContainerDetailsPanel.onDidReceiveMessage.
      cbn [JsString.eqb N.eqb Pos.eqb andb].
      apply issues_bind; [apply startContainer_issues
                         | intros _; apply refreshContainer_extends].
    + unfold ContainerDetailsPanel.onDidReceiveMessage.
      cbn [JsString.eqb N.eqb Pos.eqb andb].
      apply issues_bind; [apply stopContainer_issues
                         | intros _; apply refreshContainer_extends].
  - split; [|split; [|split]].
    + intros env tr image name ports. apply runFromImage_sends.
    + intros env tr image Himage Hne.
      rewrite pullImage_run, Himage, Hne, <- app_assoc. reflexivity.
    + intros env tr folder contextPath tag dockerfile Hfolder Hpath Htag Hfile Hne.
      now rewrite buildImage_run, Hfolder, Hpath, Htag, Hfile, Hne.
    + intros env tr c command Hcommand Hne.
      rewrite execInContainer_run, Hcommand, Hne, <- app_assoc. reflexivity.
Qed.

(** C7 on a tree where the user answers every input box with the same
    text, a workspace folder being open. *)
Lemma destructive_actions_are_confirmed_witness :
  let env := ExampleRuntime.world "[]" EmptyString (Some "web") in
  let image :=
    {| Image.id := Js.str "sha256:0123"; Image.repository := "nginx"; Image.tag := "1.2";
       Image.size := "unknown"; Image.created := "unknown";
       Image.reference := Js.str "nginx:1.2" |} in
  (exists rest,
      snd (run (Extension.runFromImage ExampleRuntime.runtime (Some image)) env [])
      = ([ShowInputBox namePrompt; ShowInputBox portsPrompt]
         ++ Terminal "Container Run"
              "container run --detach --interactive --tty --name web nginx:1.2" :: rest)%list)
  /\ run Extension.pullImage env []
     = (inr tt,
        [ShowInputBox pullPrompt; Terminal "Image Pull" "container image pull web";
         TreeRefresh])
  /\ run Extension.buildImage env []
     = (inr tt,
        buildPrompts
        ++ [Terminal "Container Build" "container build web --tag web --file web";
            TreeRefresh])%list
  /\ run (Extension.execInContainer ExampleRuntime.runtime (Some scenarioRecord)) env []
     = (inr tt,
        [ShowInputBox execPrompt;
         Terminal "Container Exec - abc" "container exec --interactive --tty abc web"]).
Proof.
  cbv zeta.
  destruct (destructive_actions_are_confirmed ExampleRuntime.runtime)
    as (_ & _ & _ & Hrun & Hpull & Hbuild & Hexec).
  split; [|split; [|split]].
  - exact (Hrun (ExampleRuntime.world "[]" EmptyString (Some "web")) [] _ "web" "web"
             eq_refl eq_refl).
  - exact (Hpull (ExampleRuntime.world "[]" EmptyString (Some "web")) [] "web"
             eq_refl eq_refl).
  - exact (Hbuild (ExampleRuntime.world "[]" EmptyString (Some "web")) [] "/work"
             "web" "web" "web" eq_refl eq_refl eq_refl eq_refl eq_refl).
  - exact (Hexec (ExampleRuntime.world "[]" EmptyString (Some "web")) [] scenarioRecord "web"
             eq_refl eq_refl).
Defined.

(** Removing a container: the answer No leaves the question alone in the
    trace; the answer Yes is followed by the command. *)
Example removeContainer_declined_and_confirmed :
  run (Extension.removeContainer ExampleRuntime.runtime (Some scenarioRecord))
    (ExampleRuntime.world "[]" EmptyString (Some "No")) []
  = (inr tt,
     [ShowWarning ("Are you sure you want to remove container " ++ dquote ++ "web1"
                   ++ dquote ++ "?") ["Yes"; "No"]])
  /\ run (Extension.removeContainer ExampleRuntime.runtime (Some scenarioRecord))
       (ExampleRuntime.world "[]" EmptyString (Some "Yes")) []
     = (inr tt,
        [ShowWarning ("Are you sure you want to remove container " ++ dquote ++ "web1"
                      ++ dquote ++ "?") ["Yes"; "No"];
         Exec "container delete abc";
         ShowInformation "Container abc removed successfully" [];
         TreeRefresh;
         Exec "container list --format json";
         Exec "container ls";
         StatusBar "$(server-environment) 0 running"
           "0 containers running. Click to refresh."]).
Proof. split; vm_compute; reflexivity. Qed.


(** * Further properties of the code *)

(** ** The fields of a table entry *)

Section TableEntries.

Lemma trim_end_empty (s : string) : trim_end s = EmptyString -> all_space s = true.
Proof.
  destruct s as [|c s]; [reflexivity|]. simpl.
  destruct (is_space c && all_space s); [reflexivity | discriminate].
Qed.

Lemma trim_end_tail (s : string) : ends_with_space (trim_end s) = false.
Proof.
  induction s as [|c s IH]; [reflexivity|].
  change (trim_end (String c s))
    with (if all_space (String c s) then EmptyString else String c (trim_end s)).
  destruct (all_space (String c s)) eqn:Hall; [reflexivity|].
  simpl. destruct (trim_end s) eqn:Hs; [|exact IH].
  apply trim_end_empty in Hs. simpl in Hall. rewrite Hs, andb_true_r in Hall. exact Hall.
Qed.

Lemma trim_tail (s : string) : ends_with_space (trim s) = false.
Proof. apply trim_end_tail. Qed.

Lemma split_ws_no_space (s : string) :
  Forall (fun token => has_space token = false) (split_ws s).
Proof.
  induction s as [|a s IH]; simpl; [repeat constructor|].
  destruct (is_space a) eqn:Ha.
  - destruct (starts_with_space s); [assumption | now constructor].
  - destruct (split_ws s) as [|h t]; [repeat constructor; simpl; now rewrite Ha|].
    inversion IH; subst. constructor; [simpl; now rewrite Ha | assumption].
Qed.

(** In a text that ends with no white space every token after the first
    is not empty, and so is the first when the text starts with none. *)
Lemma split_ws_nonempty (s : string) :
  nonempty s = true -> ends_with_space s = false ->
  Forall (fun token => nonempty token = true) (tl (split_ws s))
  /\ (starts_with_space s = false -> nonempty (hd EmptyString (split_ws s)) = true).
Proof.
  induction s as [|a s IH]; [discriminate|]. intros _ Hend.
  destruct s as [|b s].
  - simpl in Hend. simpl. rewrite Hend. split; [constructor | reflexivity].
  - destruct (IH eq_refl Hend) as [Htail Hhead]. clear IH.
    assert (Hsplit : split_ws (String a (String b s))
                     = if is_space a
                       then if starts_with_space (String b s)
                            then split_ws (String b s)
                            else EmptyString :: split_ws (String b s)
                       else match split_ws (String b s) with
                            | h :: t => String a h :: t
                            | [] => [String a EmptyString]
                            end) by reflexivity.
    rewrite Hsplit. clear Hsplit.
    change (starts_with_space (String a (String b s))) with (is_space a).
    revert Htail Hhead. generalize (split_ws (String b s)). intros tokens Htail Hhead.
    destruct (is_space a) eqn:Ha.
    + split; [|discriminate].
      destruct (starts_with_space (String b s)) eqn:Hb; [exact Htail|].
      destruct tokens as [|h t]; [constructor|].
      constructor; [exact (Hhead eq_refl) | exact Htail].
    + destruct tokens as [|h t]; split; try reflexivity.
      * constructor.
      * exact Htail.
Qed.

(** The tokens of a trimmed line that is not empty. *)
Lemma tokens_of_line (line : string) :
  nonempty (trim line) = true ->
  Forall (fun token => isToken token = true) (split_ws (trim line)).
Proof.
  intros Hne.
  destruct (split_ws_nonempty (trim line) Hne (trim_tail line)) as [Htail Hhead].
  specialize (Hhead (trim_head line)).
  pose proof (split_ws_no_space (trim line)) as Hclean.
  destruct (split_ws (trim line)) as [|h t]; [constructor|].
  simpl in Htail, Hhead.
  assert (Hall : Forall (fun token => nonempty token = true) (h :: t))
    by (constructor; assumption).
  clear Htail Hhead. revert Hall Hclean. generalize (h :: t). intros tokens Hall Hclean.
  induction Hall as [|x xs Hx _ IH]; [constructor|].
  inversion Hclean; subst. constructor; [|now apply IH].
  unfold isToken. now rewrite Hx, H1.
Qed.

Lemma long_line_not_empty (line : string) : long line = true -> nonempty (trim line) = true.
Proof.
  unfold long. destruct (trim line); [discriminate | reflexivity].
Qed.

Lemma token_at (line : string) (k : nat) :
  long line = true -> (k < 6)%nat ->
  isToken (nth k (split_ws (trim line)) EmptyString) = true.
Proof.
  intros Hlong Hk.
  pose proof (tokens_of_line line (long_line_not_empty line Hlong)) as Htokens.
  rewrite Forall_forall in Htokens. apply Htokens, nth_In.
  unfold long in Hlong. apply Nat.leb_le in Hlong. lia.
Qed.

End TableEntries.

(** X1: every entry that the table parser returns has a token (a text that
    is not empty and has no white space) as its id, its os and its arch, and
    its ipAddress is either absent or a token other than N/A. *)
Theorem table_entries_hold_tokens (output : string) (entry : TableEntry.t) :
  In entry (ContainerManager.parseContainerTable output) ->
  isToken (TableEntry.id entry) = true
  /\ holdsToken (TableEntry.os entry)
  /\ holdsToken (TableEntry.arch entry)
  /\ (TableEntry.ipAddress entry = None
      \/ (holdsToken (TableEntry.ipAddress entry)
          /\ TableEntry.ipAddress entry <> Some "N/A")).
Proof.
  rewrite parseContainerTable_lines. intros Hin.
  apply in_map_iff in Hin as (line & <- & Hline).
  apply filter_In in Hline as [_ Hlong].
  assert (Htoken : forall k, (k < 6)%nat ->
            isToken (nth k (split_ws (trim line)) EmptyString) = true)
    by (intros k Hk; now apply token_at).
  unfold ContainerManager.parseLine. unfold long in Hlong. rewrite Hlong. simpl.
  split; [apply Htoken; lia|].
  split; [eexists; split; [reflexivity | apply Htoken; lia]|].
  split; [eexists; split; [reflexivity | apply Htoken; lia]|].
  destruct (JsString.eqb (nth 5 (split_ws (trim line)) EmptyString) "N/A") eqn:Hna; simpl.
  - now left.
  - right. split; [eexists; split; [reflexivity | apply Htoken; lia]|].
    intros H. injection H as H. rewrite H in Hna. discriminate Hna.
Qed.

(** X1 on the entry of a line with tabs and surrounding blanks. *)
Lemma table_entries_hold_tokens_witness :
  isToken "abc" = true /\ holdsToken (Some "linux") /\ holdsToken (Some "arm64").
Proof.
  destruct (table_entries_hold_tokens
              ("ID IMAGE OS ARCH STATE ADDR"
               ++ String newline ("  abc" ++ String 9%N "img linux  arm64 up N/A  "))
              {| TableEntry.id := "abc"; TableEntry.ipAddress := None;
                 TableEntry.os := Some "linux"; TableEntry.arch := Some "arm64" |})
    as (Hid & Hos & Harch & _).
  - vm_compute. left. reflexivity.
  - repeat split; assumption.
Defined.

(** X2: the first line of the table output is never an entry, whatever it
    holds: the table is made of the lines after the first line break, it is
    the same for any other first line, and an output of one line gives the
    empty table. *)
Theorem table_skips_header (header header' rest : string) :
  occurs newline header = false ->
  occurs newline header' = false ->
  ContainerManager.parseContainerTable (header ++ String newline rest)
  = map entryOf
      (filter (fun tokens => (6 <=? List.length tokens)%nat)
         (map (fun line => split_ws (trim line)) (split newline rest)))
  /\ ContainerManager.parseContainerTable (header ++ String newline rest)
     = ContainerManager.parseContainerTable (header' ++ String newline rest)
  /\ ContainerManager.parseContainerTable header = [].
Proof.
  intros Hheader Hheader'.
  rewrite !parseContainerTable_rows. unfold tableRows.
  rewrite (split_first_line newline header rest Hheader),
    (split_first_line newline header' rest Hheader'),
    (split_no_separator newline header Hheader).
  repeat split; reflexivity.
Qed.

(** X2 on an output whose first line is a well-formed data line: it is
    taken for the header, with or without lines after it. *)
Lemma table_skips_header_witness :
  ContainerManager.parseContainerTable
    ("abc - linux arm64 - 10.0.0.5" ++ String newline "b - linux arm64 - N/A")
  = ContainerManager.parseContainerTable
      ("ID IMAGE OS ARCH STATE ADDR" ++ String newline "b - linux arm64 - N/A")
  /\ ContainerManager.parseContainerTable "abc - linux arm64 - 10.0.0.5" = [].
Proof.
  exact (proj2 (table_skips_header "abc - linux arm64 - 10.0.0.5"
                  "ID IMAGE OS ARCH STATE ADDR" "b - linux arm64 - N/A" eq_refl eq_refl)).
Defined.

(** X3: when several lines of the table have the same id, the first of them
    supplies the ipAddress, os and arch of the record with that id, whatever
    the later lines say. *)
Theorem first_table_line_wins
  (output header line : string) (before after : list string)
  (rawContainer : json) (c : Container.t) :
  split newline output = header :: before ++ line :: after ->
  long line = true ->
  (forall earlier, In earlier before ->
     TableEntry.id (ContainerManager.parseLine earlier)
     <> TableEntry.id (ContainerManager.parseLine line)) ->
  ContainerManager.toContainer (ContainerManager.parseContainerTable output) rawContainer
  = inr c ->
  Container.id c = Js.str (TableEntry.id (ContainerManager.parseLine line)) ->
  Container.ipAddress c = TableEntry.ipAddress (ContainerManager.parseLine line)
  /\ Container.os c = TableEntry.os (ContainerManager.parseLine line)
  /\ Container.arch c = TableEntry.arch (ContainerManager.parseLine line).
Proof.
  intros Hlines Hlong Hfirst Hc Hid.
  pose proof (toContainer_returns _ _ _ Hc) as Hnn.
  rewrite (toContainer_not_null _ _ Hnn) in Hc. injection Hc as <-.
  simpl in Hid |- *. rewrite Hid. unfold tableEntryFor.
  rewrite parseContainerTable_lines, Hlines. simpl skipn.
  rewrite filter_app. simpl filter. rewrite Hlong, map_app. simpl map.
  rewrite (find_app_first _ _ _ (ContainerManager.parseLine line)).
  - repeat split; reflexivity.
  - intros entry Hin. apply in_map_iff in Hin as (earlier & <- & Hin).
    apply filter_In in Hin as [Hin _]. simpl.
    apply string_eqb_neq. apply Hfirst. exact Hin.
  - simpl. apply string_eqb_refl.
Qed.

(** X3 on a table that lists the id a twice, with two addresses. *)
Lemma first_table_line_wins_witness :
  exists c,
    ContainerManager.toContainer
      (ContainerManager.parseContainerTable
         ("ID IMAGE OS ARCH STATE ADDR" ++ String newline "a - linux arm64 - 10.0.0.5"
          ++ String newline "a - darwin amd64 - 10.0.0.9"))
      (JObj [("configuration", JObj [("id", JStr "a")])]) = inr c
    /\ Container.ipAddress c = Some "10.0.0.5"
    /\ Container.os c = Some "linux"
    /\ Container.arch c = Some "arm64".
Proof.
  eexists. split; [reflexivity|].
  apply (first_table_line_wins
           ("ID IMAGE OS ARCH STATE ADDR" ++ String newline "a - linux arm64 - 10.0.0.5"
            ++ String newline "a - darwin amd64 - 10.0.0.9")
           "ID IMAGE OS ARCH STATE ADDR" "a - linux arm64 - 10.0.0.5"
           [] ["a - darwin amd64 - 10.0.0.9"]
           (JObj [("configuration", JObj [("id", JStr "a")])])).
  - reflexivity.
  - reflexivity.
  - intros earlier [].
  - reflexivity.
  - reflexivity.
Defined.

(** X4: the join compares with strict equality, so a JSON id that is not a
    string (a number, say) matches no table line: its record has no
    ipAddress, os or arch, whatever the table holds. *)
Theorem non_string_id_never_joins
  (containerTable : list TableEntry.t) (rawContainer : json) (c : Container.t) :
  ContainerManager.toContainer containerTable rawContainer = inr c ->
  Js.is_string (Container.id c) = false ->
  Container.ipAddress c = None /\ Container.os c = None /\ Container.arch c = None.
Proof.
  intros Hc Hid.
  pose proof (toContainer_returns _ _ _ Hc) as Hnn.
  rewrite (toContainer_not_null _ _ Hnn) in Hc. injection Hc as <-.
  simpl in Hid |- *. unfold tableEntryFor.
  rewrite find_all_false; [repeat split; reflexivity|].
  intros entry _. destruct (rawId rawContainer) as [[| | |s| |]|]; try reflexivity.
  discriminate Hid.
Qed.

(** X4 on the JSON id 5 and a table line with the id 5. *)
Lemma non_string_id_never_joins_witness :
  exists c,
    ContainerManager.toContainer
      (ContainerManager.parseContainerTable
         ("ID IMAGE OS ARCH STATE ADDR" ++ String newline "5 - linux arm64 - 10.0.0.5"))
      (JObj [("configuration", JObj [("id", JNum (JsNumber.of_Z 5))])]) = inr c
    /\ Container.ipAddress c = None /\ Container.os c = None /\ Container.arch c = None.
Proof.
  eexists. split; [reflexivity|].
  apply (non_string_id_never_joins
           (ContainerManager.parseContainerTable
              ("ID IMAGE OS ARCH STATE ADDR" ++ String newline "5 - linux arm64 - 10.0.0.5"))
           (JObj [("configuration", JObj [("id", JNum (JsNumber.of_Z 5))])])).
  - reflexivity.
  - reflexivity.
Defined.

(** ** The records of the image listing *)

Section ListedImages.
Variable rt : Runtime.

Lemma split_parts_no_separator (c : char) (s : string) :
  Forall (fun part => occurs c part = false) (split c s).
Proof.
  induction s as [|a s IH]; simpl; [repeat constructor|].
  destruct (N.eqb a c) eqn:Ha; [now constructor|].
  destruct (split c s) as [|h t]; [repeat constructor; simpl; now rewrite Ha|].
  inversion IH; subst. constructor; [simpl; now rewrite Ha | assumption].
Qed.

Lemma split_parts_free (c d : char) (s : string) :
  occurs d s = false -> Forall (fun part => occurs d part = false) (split c s).
Proof.
  induction s as [|a s IH]; simpl; [repeat constructor|].
  intros H. apply orb_false_iff in H as [Ha Hs]. specialize (IH Hs).
  destruct (N.eqb a c); [now constructor|].
  destruct (split c s) as [|h t]; [repeat constructor; simpl; now rewrite Ha|].
  inversion IH; subst. constructor; [simpl; now rewrite Ha | assumption].
Qed.

Lemma split_not_nil (c : char) (s : string) : split c s <> [].
Proof.
  destruct s as [|a s]; simpl; [discriminate|].
  destruct (N.eqb a c); [discriminate|]. destruct (split c s); discriminate.
Qed.

Lemma pieces_plain (reference : string) :
  Forall (fun piece => occurs ":" piece = false /\ occurs "@" piece = false)
    (pieces reference).
Proof.
  unfold pieces.
  assert (Hat : occurs "@" (hd EmptyString (split "@" reference)) = false).
  { pose proof (split_parts_no_separator "@" reference) as H.
    destruct (split "@" reference); [reflexivity|]. now inversion H. }
  pose proof (split_parts_no_separator ":" (hd EmptyString (split "@" reference))) as Hcolon.
  pose proof (split_parts_free ":" "@" _ Hat) as Hfree.
  revert Hcolon Hfree. generalize (split ":" (hd EmptyString (split "@" reference))).
  intros parts Hcolon. induction Hcolon as [|x xs Hx _ IH]; intros Hfree; [constructor|].
  inversion Hfree; subst. constructor; [now split | now apply IH].
Qed.

Lemma or_else_plain (piece fallback : string) :
  occurs ":" piece = false /\ occurs "@" piece = false ->
  plainName fallback = true ->
  plainName (or_else piece fallback) = true.
Proof.
  intros [Hcolon Hat] Hfallback. unfold or_else.
  destruct (nonempty piece) eqn:Hne; [|exact Hfallback].
  unfold plainName. now rewrite Hne, Hcolon, Hat.
Qed.

(** What [toImage] returns, whenever it returns. *)
Lemma toImage_fields (rawImage : json) (img : Image.t) :
  ContainerManager.toImage rt rawImage = inr img ->
  exists reference,
    Image.reference img = Js.str reference
    /\ Image.repository img = or_else (nth 0 (pieces reference) EmptyString) "unknown"
    /\ Image.tag img = match nth_error (pieces reference) 1 with
                       | Some t => or_else t "latest"
                       | None => "latest"
                       end
    /\ Image.created img = "unknown"
    /\ (Image.size img = "unknown" \/ exists kb, Image.size img = kb ++ " KB").
Proof.
  unfold ContainerManager.toImage.
  destruct (Js.get (Some rawImage) "reference") as [?|raw_reference];
    cbn [bindE]; [discriminate|].
  destruct (Js.or raw_reference (Js.str EmptyString)) as [[| | |reference| |]|] eqn:Hor;
    cbn [value_split bindE]; try discriminate.
  destruct (Js.get (Some rawImage) "descriptor") as [?|descriptor];
    cbn [bindE]; [discriminate|].
  intros H. injection H as <-. exists reference. cbn.
  repeat split; try reflexivity.
  destruct (Js.get_opt descriptor "size") as [j|]; [|now left].
  destruct (Js.truthy (Some j)); [right; eexists; reflexivity | now left].
Qed.

Lemma listed_image (env : Env) (tr tr' : list Event) (images : list Image.t)
  (img : Image.t) :
  run (ContainerManager.listImages rt) env tr = (inr images, tr') ->
  In img images ->
  exists rawImage, ContainerManager.toImage rt rawImage = inr img.
Proof.
  rewrite listImages_run. intros Hrun Hin.
  destruct (cli env tr imagesCmd) as [?|stdout];
    [injection Hrun as <- _; contradiction|].
  destruct (JSON_parse rt stdout) as [?|rawImages];
    [injection Hrun as <- _; contradiction|].
  destruct (array_map "rawImages" rawImages _) as [?|imgs] eqn:Hmap;
    [injection Hrun as <- _; contradiction|].
  injection Hrun as <- _.
  destruct rawImages; try discriminate Hmap. simpl in Hmap.
  apply mapE_Forall2 in Hmap.
  destruct (Forall2_In_right _ _ _ _ Hmap Hin) as (raw & _ & Hraw).
  eauto.
Qed.

Lemma or_empty_string (text : string) :
  Js.or (Some (JStr text)) (Js.str EmptyString) = Js.str text.
Proof. destruct text; reflexivity. Qed.

(** The repository and the tag of a reference, by its pieces. *)
Lemma splitReference_pieces (reference : string) :
  splitReference rt reference
  = Some (or_else (nth 0 (pieces reference) EmptyString) "unknown",
          match nth_error (pieces reference) 1 with
          | Some t => or_else t "latest"
          | None => "latest"
          end).
Proof.
  unfold splitReference, ContainerManager.toImage.
  simpl Js.get. cbn [bindE]. rewrite or_empty_string. reflexivity.
Qed.

End ListedImages.

(** X5: every record of the image listing has a repository and a tag that
    are not empty and hold neither a colon nor an at sign (unknown and
    latest stand in for an empty piece), the text unknown as created, a
    string as reference, and a size that is the text unknown or ends with
    KB. *)
Theorem listed_image_fields
  (rt : Runtime) (env : Env) (tr tr' : list Event) (images : list Image.t) (img : Image.t) :
  run (ContainerManager.listImages rt) env tr = (inr images, tr') ->
  In img images ->
  plainName (Image.repository img) = true
  /\ plainName (Image.tag img) = true
  /\ Image.created img = "unknown"
  /\ Js.is_string (Image.reference img) = true
  /\ (Image.size img = "unknown" \/ exists kb, Image.size img = kb ++ " KB").
Proof.
  intros Hrun Hin.
  destruct (listed_image rt env tr tr' images img Hrun Hin) as (raw & Hraw).
  destruct (toImage_fields rt raw img Hraw)
    as (reference & Href & Hrepo & Htag & Hcreated & Hsize).
  pose proof (pieces_plain reference) as Hplain. rewrite Forall_forall in Hplain.
  split; [|split; [|split; [|split]]].
  - rewrite Hrepo. apply or_else_plain; [|reflexivity].
    apply Hplain. unfold pieces.
    pose proof (split_not_nil ":" (hd EmptyString (split "@" reference))) as Hnil.
    destruct (split ":" (hd EmptyString (split "@" reference))); [contradiction|].
    now left.
  - rewrite Htag. destruct (nth_error (pieces reference) 1) as [t|] eqn:Ht; [|reflexivity].
    apply or_else_plain; [|reflexivity]. apply Hplain. eapply nth_error_In. exact Ht.
  - exact Hcreated.
  - now rewrite Href.
  - exact Hsize.
Qed.

(** X5 on a listing of two images, one of them with an empty reference. *)
Lemma listed_image_fields_witness :
  plainName "unknown" = true /\ plainName "latest" = true.
Proof.
  destruct (listed_image_fields ExampleRuntime.runtime
              (ExampleRuntime.world (q "[{'reference':'nginx:1.2'},{'reference':''}]")
                 EmptyString None)
              [] [Exec imagesCmd]
              [{| Image.id := Js.str EmptyString; Image.repository := "nginx";
                  Image.tag := "1.2"; Image.size := "unknown"; Image.created := "unknown";
                  Image.reference := Js.str "nginx:1.2" |};
               {| Image.id := Js.str EmptyString; Image.repository := "unknown";
                  Image.tag := "latest"; Image.size := "unknown"; Image.created := "unknown";
                  Image.reference := Js.str EmptyString |}]
              {| Image.id := Js.str EmptyString; Image.repository := "unknown";
                 Image.tag := "latest"; Image.size := "unknown"; Image.created := "unknown";
                 Image.reference := Js.str EmptyString |})
    as (Hrepo & Htag & _).
  - vm_compute. reflexivity.
  - simpl. right. left. reflexivity.
  - split; assumption.
Defined.

(** X6: a digest after the reference changes neither the repository nor the
    tag: whatever follows the first at sign is dropped before the split. *)
Theorem digest_is_dropped (rt : Runtime) (reference digest : string) :
  occurs "@" reference = false ->
  splitReference rt (reference ++ String "@" digest) = splitReference rt reference.
Proof.
  intros Hat. rewrite !splitReference_pieces. unfold pieces.
  rewrite (split_first_line "@" reference digest Hat),
    (split_no_separator "@" reference Hat).
  reflexivity.
Qed.

(** X6 on nginx:1.2 with a sha256 digest. *)
Lemma digest_is_dropped_witness :
  splitReference ExampleRuntime.runtime "nginx:1.2@sha256:0123abcd"
  = splitReference ExampleRuntime.runtime "nginx:1.2".
Proof.
  apply (digest_is_dropped ExampleRuntime.runtime "nginx:1.2" "sha256:0123abcd").
  reflexivity.
Defined.

(** ** The outcome of an action *)

Section Outcomes.
Variable rt : Runtime.

(** The shape of the four actions that run one command. *)
Lemma one_command_reports (command done failed : string) :
  reportsOutcome
    (try_catch
       (execAsync command ;;;
        showInformationMessage done ;;;
        ret true)
       (fun error =>
          showErrorMessage (failed ++ exn_text error) ;;;
          ret false))
    command.
Proof.
  intros env tr.
  unfold run, try_catch, bind, execAsync, showInformationMessage, showErrorMessage, emit, ret.
  destruct (cli env tr command) as [text|stdout]; simpl.
  - exists false. eexists. split; [rewrite <- app_assoc; reflexivity|].
    split; [reflexivity | eexists; reflexivity].
  - exists true. eexists. split; [rewrite <- app_assoc; reflexivity|].
    split; [reflexivity | eexists; reflexivity].
Qed.

(** Every path through an inspection. *)
Lemma inspect_run (command failed : string) (env : Env) (tr : list Event) :
  run (inspection <-
         try_catch
           (stdout <- execAsync command ;;
            ContainerManager.parse rt stdout)
           (fun error =>
              showErrorMessage (failed ++ exn_text error) ;;;
              ret JNull) ;;
       Extension.showInspection rt inspection) env tr
  = (inr tt,
     tr ++ Exec command ::
       match cli env tr command with
       | inl text => [ShowError (failed ++ text)]
       | inr stdout =>
           match JSON_parse rt stdout with
           | inl msg => [ShowError (failed ++ "SyntaxError: " ++ msg)]
           | inr inspection =>
               if Js.truthy (Some inspection)
               then [OpenDocument (JSON_stringify rt inspection)]
               else []
           end
       end)%list.
Proof.
  unfold run, try_catch, bind, execAsync, ContainerManager.parse, lift, showErrorMessage,
    Extension.showInspection, emit, ret.
  destruct (cli env tr command) as [text|stdout].
  - simpl. rewrite <- ?app_assoc. reflexivity.
  - destruct (JSON_parse rt stdout) as [msg|inspection].
    + simpl. rewrite <- ?app_assoc. reflexivity.
    + cbn beta iota.
      destruct (Js.truthy (Some inspection)); simpl; rewrite <- ?app_assoc; reflexivity.
Qed.

End Outcomes.

(** X7: starting, stopping and removing a container and removing an image
    each run exactly one command and show exactly one notice: the action
    resolves to true, with an information message, exactly when the command
    succeeds, and to false, with an error message, when it fails; it never
    rejects.  Removal adds --force to the command exactly when asked to. *)
Theorem actions_report_their_outcome (rt : Runtime) (id : jsvalue) :
  reportsOutcome (ContainerManager.startContainer rt id)
    ("container start " ++ template rt id)
  /\ reportsOutcome (ContainerManager.stopContainer rt id)
       ("container stop " ++ template rt id)
  /\ reportsOutcome (ContainerManager.removeContainer rt id false)
       ("container delete " ++ template rt id)
  /\ reportsOutcome (ContainerManager.removeContainer rt id true)
       ("container delete --force " ++ template rt id)
  /\ reportsOutcome (ContainerManager.removeImage rt id)
       ("container image delete " ++ template rt id).
Proof.
  repeat split; apply one_command_reports.
Qed.

(** Stopping a container when the command line tool fails. *)
Example stopContainer_failure :
  run (ContainerManager.stopContainer ExampleRuntime.runtime (Js.str "abc"))
    (ExampleRuntime.broken "Error: Command failed") []
  = (inr false,
     [Exec "container stop abc"; ShowError "Failed to stop container: Error: Command failed"]).
Proof. reflexivity. Qed.

(** X8: inspecting a container or an image runs one command and then opens
    one document, exactly when the command succeeds, its output parses, and
    the parsed value is truthy; the document is then the value printed by
    JSON.stringify.  A command that fails, or an output that does not parse,
    shows one error and opens nothing; an inspection that parses to null, 0,
    false or the empty string opens nothing and shows nothing. *)
Theorem inspection_opens_document (rt : Runtime) (env : Env) (tr : list Event) :
  (forall c : Container.t,
      let command := "container inspect " ++ template rt (Container.id c) in
      run (Extension.inspectContainer rt c) env tr
      = (inr tt,
         tr ++ Exec command
            :: inspectionShows rt "Failed to inspect container: " (cli env tr command))%list)
  /\ (forall image : Image.t,
         let command := "container image inspect " ++ template rt (Image.reference image) in
         run (Extension.inspectImage rt image) env tr
         = (inr tt,
            tr ++ Exec command
               :: inspectionShows rt "Failed to inspect image: " (cli env tr command))%list).
Proof.
  split; intros x; cbv zeta; unfold inspectionShows; apply inspect_run.
Qed.

(** An inspection that prints null opens no document and shows no error. *)
Example inspection_of_null :
  run (Extension.inspectContainer ExampleRuntime.runtime scenarioRecord)
    {| cli := fun _ _ => inr "null"; user := fun _ => None; workspaceFolder := None |} []
  = (inr tt, [Exec "container inspect abc"]).
Proof. reflexivity. Qed.

(** ** After an action *)

Section FollowUp.
Variable rt : Runtime.

(** Every path through [updateStatusBar], given what the listing did. *)
Lemma updateStatusBar_run (env : Env) (tr tr' : list Event) (cs : list Container.t) :
  run (ContainerManager.listContainers rt false) env tr = (inr cs, tr') ->
  run (Extension.updateStatusBar rt) env tr
  = (inr tt,
     tr' ++ [if forallb (fun c => Js.is_string (Container.status c)) cs
             then runningStatus rt (List.length (filter (isRunning rt) cs))
             else unavailableStatus])%list.
Proof.
  intros Hlist. unfold run in *.
  unfold Extension.updateStatusBar, try_catch, bind. rewrite Hlist.
  unfold lift, emit, runningStatus, unavailableStatus.
  set (test := fun c : Container.t =>
                 let! lower := value_toLowerCase rt "c.status" (Container.status c) in
                 inr (includes lower "running")).
  assert (Hfilter :
            (forallb (fun c => Js.is_string (Container.status c)) cs = true ->
             Extension.filterE test cs = inr (filter (isRunning rt) cs))
            /\ (forallb (fun c => Js.is_string (Container.status c)) cs = false ->
                exists e, Extension.filterE test cs = inl e)).
  { clear Hlist. induction cs as [|c cs [IH1 IH2]]; [split; [reflexivity | discriminate]|].
    simpl. unfold isRunning, test at 1 3.
    destruct (Container.status c) as [[| | |status| |]|]; simpl;
      try (split; [discriminate | intros _; eexists; reflexivity]).
    split.
    - intros Hall. rewrite (IH1 Hall). simpl.
      destruct (includes (toLowerCase rt status) "running"); reflexivity.
    - intros Hall. destruct (IH2 Hall) as [e ->]. eexists. reflexivity. }
  destruct Hfilter as [Hsome Hnone].
  destruct (forallb (fun c => Js.is_string (Container.status c)) cs) eqn:Hall.
  - rewrite (Hsome eq_refl). reflexivity.
  - destruct (Hnone eq_refl) as [e ->]. reflexivity.
Qed.

(** The listing when it fails. *)
Lemma listContainers_fails (env : Env) (tr : list Event) (all : bool) :
  containersListingFails rt env tr all = true ->
  exists tr', run (ContainerManager.listContainers rt all) env tr = (inr [], tr').
Proof.
  unfold containersListingFails. rewrite listContainers_run.
  destruct (cli env tr (jsonCmd all)); [eauto|].
  destruct (JSON_parse rt _); [eauto|].
  destruct (cli env _ (tableCmd all)); [eauto | discriminate].
Qed.

Lemma listContainers_resolves (env : Env) (tr : list Event) (all : bool) :
  exists cs tr', run (ContainerManager.listContainers rt all) env tr = (inr cs, tr').
Proof.
  rewrite listContainers_run.
  repeat match goal with
         | |- context [match ?x with _ => _ end] => destruct x
         end; eauto.
Qed.

End FollowUp.

(** X9: the status bar update ends with exactly one status bar text.  When
    the listing fails (a command is rejected, or the JSON does not parse)
    that text counts zero running containers: the text Container CLI
    unavailable is shown only when the status of a listed record is not a
    string.  Otherwise the count is the number of records whose status, in
    lower case, contains running. *)
Theorem status_bar_counts_running (rt : Runtime) (env : Env) (tr : list Event) :
  (exists before status,
      run (Extension.updateStatusBar rt) env tr = (inr tt, tr ++ before ++ [status])%list
      /\ isStatusBar status
      /\ Forall (fun e => ~ isStatusBar e) before)
  /\ (containersListingFails rt env tr false = true ->
      exists tr',
        run (Extension.updateStatusBar rt) env tr = (inr tt, tr' ++ [runningStatus rt 0])%list)
  /\ (forall cs tr',
         run (ContainerManager.listContainers rt false) env tr = (inr cs, tr') ->
         (forallb (fun c => Js.is_string (Container.status c)) cs = true ->
          run (Extension.updateStatusBar rt) env tr
          = (inr tt, tr' ++ [runningStatus rt (List.length (filter (isRunning rt) cs))])%list)
         /\ (forallb (fun c => Js.is_string (Container.status c)) cs = false ->
             run (Extension.updateStatusBar rt) env tr
             = (inr tt, tr' ++ [unavailableStatus])%list)).
Proof.
  split; [|split].
  - destruct (listContainers_resolves rt env tr false) as (cs & tr' & Hlist).
    rewrite (updateStatusBar_run rt env tr tr' cs Hlist).
    assert (Hquiet : emits (fun e => ~ isStatusBar e) (ContainerManager.listContainers rt false))
      by walk.
    destruct (Hquiet env tr) as (new & Hnew & Hall).
    rewrite Hlist in Hnew. simpl in Hnew. subst tr'.
    exists new. eexists. split; [rewrite <- app_assoc; reflexivity|].
    split; [|exact Hall].
    destruct (forallb _ cs); exact I.
  - intros Hfail. destruct (listContainers_fails rt env tr false Hfail) as (tr' & Hlist).
    exists tr'. now rewrite (updateStatusBar_run rt env tr tr' [] Hlist).
  - intros cs tr' Hlist. rewrite (updateStatusBar_run rt env tr tr' cs Hlist).
    split; intros ->; reflexivity.
Qed.

(** X9 where the command line tool is missing, and where the listing has
    a record whose status is a number. *)
Lemma status_bar_counts_running_witness :
  (exists tr',
      run (Extension.updateStatusBar ExampleRuntime.runtime)
        (ExampleRuntime.broken "Error: Command failed") []
      = (inr tt, tr' ++ [runningStatus ExampleRuntime.runtime 0])%list)
  /\ run (Extension.updateStatusBar ExampleRuntime.runtime)
       (ExampleRuntime.world (q "[{'configuration':{'id':'a'},'status':5}]") EmptyString None)
       []
     = (inr tt, [Exec (jsonCmd false); Exec (tableCmd false)] ++ [unavailableStatus])%list.
Proof.
  split.
  - apply (proj1 (proj2 (status_bar_counts_running ExampleRuntime.runtime
                           (ExampleRuntime.broken "Error: Command failed") []))).
    reflexivity.
  - refine (proj2 (proj2 (proj2 (status_bar_counts_running ExampleRuntime.runtime
                     (ExampleRuntime.world (q "[{'configuration':{'id':'a'},'status':5}]")
                        EmptyString None) []))
                     [{| Container.id := Js.str "a"; Container.name := Js.str "a";
                         Container.image := Js.str "unknown";
                         Container.status := Some (JNum (JsNumber.of_Z 5));
                         Container.ports := Some EmptyString; Container.created := "unknown";
                         Container.ipAddress := None; Container.os := None;
                         Container.arch := None |}]
                     [Exec (jsonCmd false); Exec (tableCmd false)] _) _).
    + vm_compute. reflexivity.
    + reflexivity.
Defined.

(** X10: pruning refreshes the tree exactly when the user answered Yes and
    the prune command succeeded; after a failed prune, or without a Yes,
    the tree is left as it is. *)
Theorem prune_refreshes_on_success (env : Env) (tr : list Event) :
  let asked := (tr ++ [ShowWarning pruneQuestion ["Yes"; "No"]])%list in
  exists new,
    run Extension.pruneImages env tr = (inr tt, asked ++ new)%list
    /\ (In TreeRefresh new
        <-> confirmed (user env asked) = true
            /\ exists stdout, cli env asked "container image prune --force" = inr stdout).
Proof.
  cbv zeta.
  unfold run, Extension.pruneImages, ContainerManager.pruneImages, Extension.refresh,
    try_catch, bind, showWarningMessage, ask, execAsync, showInformationMessage,
    showErrorMessage, emit, ret.
  fold pruneQuestion.
  destruct (confirmed (user env (tr ++ [ShowWarning pruneQuestion ["Yes"; "No"]])%list)).
  - destruct (cli env (tr ++ [ShowWarning pruneQuestion ["Yes"; "No"]])%list
                "container image prune --force") as [text|stdout]; simpl.
    + eexists. split; [rewrite <- ?app_assoc; reflexivity|]. simpl. split.
      * intros [H|[H|[]]]; discriminate H.
      * intros (_ & ? & H). discriminate H.
    + eexists. split; [rewrite <- ?app_assoc; reflexivity|]. simpl. split.
      * intros _. split; [reflexivity | eexists; reflexivity].
      * intros _. right. right. now left.
  - exists []. split; [now rewrite app_nil_r|]. split; [intros [] | intros [H _]; discriminate H].
Qed.

(** A confirmed prune that fails: an error, and no refresh. *)
Example prune_failure_leaves_tree :
  run Extension.pruneImages
    {| cli := fun _ _ => inl "Error: Command failed"; user := fun _ => Some "Yes";
       workspaceFolder := None |} []
  = (inr tt,
     [ShowWarning pruneQuestion ["Yes"; "No"];
      Exec "container image prune --force";
      ShowError "Failed to prune images: Error: Command failed"]).
Proof. reflexivity. Qed.

Section AfterRemoval.
Variable rt : Runtime.

Lemma removeContainer_notice (env : Env) (tr : list Event) (c : Container.t) (force : bool) :
  exists result notice,
    ContainerManager.removeContainer rt (Container.id c) force env tr
    = (inr result, tr ++ [Exec (deleteCommand rt force c); notice])%list
    /\ isNotice notice.
Proof.
  unfold ContainerManager.removeContainer, deleteCommand, try_catch, bind, execAsync,
    showInformationMessage, showErrorMessage, emit, ret.
  destruct (cli env tr _) as [text|stdout]; simpl;
    eexists; eexists; (split; [rewrite <- ?app_assoc; reflexivity|]).
  - right. eexists. reflexivity.
  - left. eexists. reflexivity.
Qed.

End AfterRemoval.

(** X11: once the user has answered Yes, the removal of a container is
    followed up whether or not the delete command succeeded: the details
    panel is disposed right after the notice of the outcome, and the tree
    command refreshes the tree right after it. *)
Theorem removal_is_followed_up
  (rt : Runtime) (env : Env) (tr : list Event) (c : Container.t) :
  let asked := (tr ++ [removeQuestion rt c])%list in
  confirmed (user env asked) = true ->
  (exists notice,
      run (ContainerDetailsPanel.onDidReceiveMessage rt c "removeContainer") env tr
      = (inr c, asked ++ [Exec (deleteCommand rt false c); notice; PanelDispose])%list
      /\ isNotice notice)
  /\ (exists notice rest,
         snd (run (Extension.removeContainer rt (Some c)) env tr)
         = (asked ++ [Exec (deleteCommand rt false c); notice; TreeRefresh] ++ rest)%list
         /\ isNotice notice).
Proof.
  intros asked Hconf. unfold removeQuestion in asked. split.
  - destruct (removeContainer_notice rt env asked c false) as (result & notice & Hrun & Hn).
    exists notice. split; [|exact Hn].
    unfold run, ContainerDetailsPanel.onDidReceiveMessage.
    cbn [JsString.eqb N.eqb Pos.eqb andb].
    unfold bind at 1. unfold showWarningMessage, ask. fold asked. rewrite Hconf.
    unfold bind. rewrite Hrun. unfold emit, ret. cbn.
    rewrite <- ?app_assoc. reflexivity.
  - destruct (removeContainer_notice rt env asked c false) as (result & notice & Hrun & Hn).
    destruct (updateStatusBar_unconfirmed rt env
                (asked ++ [Exec (deleteCommand rt false c); notice; TreeRefresh])%list)
      as (rest & Hrest & _).
    exists notice, rest. split; [|exact Hn].
    unfold run, Extension.removeContainer, Extension.displayName in *.
    unfold bind at 1. unfold showWarningMessage, ask. fold asked. rewrite Hconf.
    unfold bind at 1. rewrite Hrun.
    unfold bind, Extension.refresh, emit.
    replace ((asked ++ [Exec (deleteCommand rt false c); notice]) ++ [TreeRefresh])%list
      with (asked ++ [Exec (deleteCommand rt false c); notice; TreeRefresh])%list
      by (rewrite <- app_assoc; reflexivity).
    rewrite Hrest, <- app_assoc. reflexivity.
Qed.

(** X11 where the user answers Yes and the delete command fails. *)
Lemma removal_is_followed_up_witness :
  exists notice,
    run (ContainerDetailsPanel.onDidReceiveMessage ExampleRuntime.runtime scenarioRecord
           "removeContainer")
      {| cli := fun _ _ => inl "Error: Command failed"; user := fun _ => Some "Yes";
         workspaceFolder := None |} []
    = (inr scenarioRecord,
       [removeQuestion ExampleRuntime.runtime scenarioRecord]
       ++ [Exec "container delete abc"; notice; PanelDispose])%list
    /\ isNotice notice.
Proof.
  apply (removal_is_followed_up ExampleRuntime.runtime
           {| cli := fun _ _ => inl "Error: Command failed"; user := fun _ => Some "Yes";
              workspaceFolder := None |} [] scenarioRecord).
  reflexivity.
Defined.

(** ** The commands that ask for input *)


(** X12: pulling an image and running a command in a container treat an
    empty answer like a dismissed input box: nothing is sent to a terminal
    and the tree is not refreshed.  Any other answer goes to one terminal as
    it was typed. *)
Theorem empty_answer_runs_nothing
  (rt : Runtime) (env : Env) (tr : list Event) (c : Container.t) :
  (exists new,
      run Extension.pullImage env tr = (inr tt, (tr ++ [ShowInputBox pullPrompt]) ++ new)%list
      /\ (new = [] <-> present (user env (tr ++ [ShowInputBox pullPrompt])%list) = false)
      /\ (forall image,
             user env (tr ++ [ShowInputBox pullPrompt])%list = Some image ->
             nonempty image = true ->
             new = [Terminal "Image Pull" ("container image pull " ++ image); TreeRefresh]))
  /\ (exists new,
         run (Extension.execInContainer rt (Some c)) env tr
         = (inr tt, (tr ++ [ShowInputBox execPrompt]) ++ new)%list
         /\ (new = [] <-> present (user env (tr ++ [ShowInputBox execPrompt])%list) = false)
         /\ (forall command,
                user env (tr ++ [ShowInputBox execPrompt])%list = Some command ->
                nonempty command = true ->
                new = [Terminal ("Container Exec - " ++ template rt (Container.id c))
                         ("container exec --interactive --tty "
                          ++ template rt (Container.id c) ++ " " ++ command)])).
Proof.
  split.
  - eexists. split; [apply pullImage_run|].
    destruct (user env _) as [image|]; simpl.
    + destruct (nonempty image) eqn:Hne.
      * split; [split; discriminate|]. intros ? H _. now injection H as <-.
      * split; [split; reflexivity|]. intros ? H Hne'. injection H as <-.
        rewrite Hne in Hne'. discriminate Hne'.
    + split; [split; reflexivity | discriminate].
  - eexists. split; [apply execInContainer_run|].
    destruct (user env _) as [command|]; simpl.
    + destruct (nonempty command) eqn:Hne.
      * split; [split; discriminate|]. intros ? H _. now injection H as <-.
      * split; [split; reflexivity|]. intros ? H Hne'. injection H as <-.
        rewrite Hne in Hne'. discriminate Hne'.
    + split; [split; reflexivity | discriminate].
Qed.

(** X12 where the user confirms the input box of the pull with nothing in
    it, and where the user types a shell for the scenario container. *)
Lemma empty_answer_runs_nothing_witness :
  run Extension.pullImage (ExampleRuntime.world EmptyString EmptyString (Some EmptyString)) []
  = (inr tt, [ShowInputBox pullPrompt])
  /\ run (Extension.execInContainer ExampleRuntime.runtime (Some scenarioRecord))
       (ExampleRuntime.world EmptyString EmptyString (Some "/bin/sh")) []
     = (inr tt,
        [ShowInputBox execPrompt;
         Terminal "Container Exec - abc" "container exec --interactive --tty abc /bin/sh"]).
Proof.
  split.
  - destruct (proj1 (empty_answer_runs_nothing ExampleRuntime.runtime
                       (ExampleRuntime.world EmptyString EmptyString (Some EmptyString))
                       [] scenarioRecord))
      as (new & Hrun & Hempty & _).
    rewrite Hrun. rewrite (proj2 Hempty); reflexivity.
  - destruct (proj2 (empty_answer_runs_nothing ExampleRuntime.runtime
                       (ExampleRuntime.world EmptyString EmptyString (Some "/bin/sh"))
                       [] scenarioRecord))
      as (new & Hrun & _ & Hsome).
    rewrite Hrun. rewrite (Hsome "/bin/sh"); reflexivity.
Defined.


(** X13: the build command sends something to a terminal only after all
    three of its input boxes were answered and the context path is not
    empty; what it sends is container build, the path, and --tag and --file
    for the answers that are not empty.  Without a workspace folder it shows
    one error and asks nothing. *)
Theorem build_needs_three_answers (env : Env) (tr : list Event) :
  exists new,
    run Extension.buildImage env tr = (inr tt, tr ++ new)%list
    /\ (workspaceFolder env = None -> new = [ShowError "No workspace folder open"])
    /\ (forall name text,
           In (Terminal name text) new ->
           exists contextPath tag dockerfile,
             user env (tr ++ firstn 1 buildPrompts)%list = Some contextPath
             /\ user env (tr ++ firstn 2 buildPrompts)%list = Some tag
             /\ user env (tr ++ buildPrompts)%list = Some dockerfile
             /\ nonempty contextPath = true
             /\ name = "Container Build"
             /\ text = buildCommand contextPath tag dockerfile
             /\ new = (buildPrompts ++ [Terminal name text; TreeRefresh])%list).
Proof.
  eexists. split; [apply buildImage_run|].
  split; [now intros ->|].
  intros name text.
  destruct (workspaceFolder env); [|intros [H|[]]; discriminate H].
  destruct (user env (tr ++ firstn 1 buildPrompts)%list) as [contextPath|];
    [|intros [H|[]]; discriminate H].
  destruct (user env (tr ++ firstn 2 buildPrompts)%list) as [tag|];
    [|intros [H|[H|[]]]; discriminate H].
  destruct (user env (tr ++ buildPrompts)%list) as [dockerfile|];
    [|intros [H|[H|[H|[]]]]; discriminate H].
  destruct (nonempty contextPath) eqn:Hne;
    [|intros [H|[H|[H|[]]]]; discriminate H].
  intros [H|[H|[H|[H|[H|[]]]]]]; try discriminate H.
  injection H as <- <-. exists contextPath, tag, dockerfile. now repeat split.
Qed.

(** X13 where every input box is answered, the tag with nothing. *)
Lemma build_needs_three_answers_witness :
  exists new,
    run Extension.buildImage
      {| cli := fun _ _ => inr EmptyString;
         user := fun past =>
                   match List.length past with
                   | 1%nat => Some "/work"
                   | 2%nat => Some EmptyString
                   | _ => Some "Dockerfile.dev"
                   end;
         workspaceFolder := Some "/work" |} []
    = (inr tt, [] ++ new)%list
    /\ In (Terminal "Container Build" "container build /work --file Dockerfile.dev") new.
Proof.
  destruct (build_needs_three_answers
              {| cli := fun _ _ => inr EmptyString;
                 user := fun past =>
                           match List.length past with
                           | 1%nat => Some "/work"
                           | 2%nat => Some EmptyString
                           | _ => Some "Dockerfile.dev"
                           end;
                 workspaceFolder := Some "/work" |} [])
    as (new & Hrun & _ & _).
  exists new. split; [exact Hrun|].
  vm_compute in Hrun. injection Hrun as <-. simpl. tauto.
Defined.

(** ** Running an image from the tree *)

Section RunFromTree.
Variable rt : Runtime.

Lemma occurs_trim_start (c : char) (s : string) :
  occurs c s = false -> occurs c (trim_start s) = false.
Proof.
  induction s as [|a s IH]; simpl; [reflexivity|].
  intros H. destruct (is_space a); [|exact H].
  apply orb_false_iff in H as [_ Hs]. now apply IH.
Qed.

Lemma occurs_trim_end (c : char) (s : string) :
  occurs c s = false -> occurs c (trim_end s) = false.
Proof.
  induction s as [|a s IH]; [reflexivity|].
  change (trim_end (String a s))
    with (if all_space (String a s) then EmptyString else String a (trim_end s)).
  intros H. destruct (all_space (String a s)); [reflexivity|].
  simpl in H |- *. apply orb_false_iff in H as [Ha Hs]. now rewrite Ha, IH.
Qed.

End RunFromTree.

(** X14: running an image from the tree asks for a name and for ports.
    Dismissing either box runs nothing.  Otherwise the terminal gets
    container run --detach --interactive --tty, then --name when a name was
    typed, then the label of the image item (repository:tag): the ports that
    were typed never change the command line. *)
Theorem runFromImage_ignores_ports
  (rt : Runtime) (env : Env) (tr : list Event) (image : Image.t) :
  let asked1 := (tr ++ [ShowInputBox namePrompt])%list in
  let asked2 := (tr ++ [ShowInputBox namePrompt; ShowInputBox portsPrompt])%list in
  (user env asked1 = None ->
   run (Extension.runFromImage rt (Some image)) env tr = (inr tt, asked1))
  /\ (forall name,
         user env asked1 = Some name -> user env asked2 = None ->
         run (Extension.runFromImage rt (Some image)) env tr = (inr tt, asked2))
  /\ (forall name ports,
         user env asked1 = Some name -> user env asked2 = Some ports ->
         exists rest,
           snd (run (Extension.runFromImage rt (Some image)) env tr)
           = (asked2 ++ Terminal "Container Run" (runFromImageCommand rt image name) :: rest)%list).
Proof.
  cbv zeta. unfold namePrompt, portsPrompt.
  split; [|split].
  - intros Hname. unfold run, Extension.runFromImage, bind, showInputBox, ask.
    now rewrite Hname.
  - intros name Hname Hports.
    unfold run, Extension.runFromImage.
    unfold bind at 1. unfold showInputBox at 1, ask. rewrite Hname.
    unfold bind at 1. unfold showInputBox, ask.
    rewrite <- app_assoc. cbn [app]. now rewrite Hports.
  - intros name ports Hname Hports.
    exact (runFromImage_sends rt env tr image name ports Hname Hports).
Qed.

(** X14 where the user names the container web and types two ports. *)
Lemma runFromImage_ignores_ports_witness :
  exists rest,
    snd (run (Extension.runFromImage ExampleRuntime.runtime
                (Some {| Image.id := Js.str "sha256:0123"; Image.repository := "nginx";
                         Image.tag := "1.2"; Image.size := "unknown";
                         Image.created := "unknown";
                         Image.reference := Js.str "nginx:1.2" |}))
           {| cli := fun _ _ => inr EmptyString;
              user := fun past =>
                        match List.length past with
                        | 1%nat => Some "web"
                        | 2%nat => Some "80, 3000"
                        | _ => None
                        end;
              workspaceFolder := None |} [])
    = ([ShowInputBox namePrompt; ShowInputBox portsPrompt]
       ++ Terminal "Container Run"
            "container run --detach --interactive --tty --name web nginx:1.2" :: rest)%list.
Proof.
  apply (proj2 (proj2 (runFromImage_ignores_ports ExampleRuntime.runtime
                         {| cli := fun _ _ => inr EmptyString;
                            user := fun past =>
                                      match List.length past with
                                      | 1%nat => Some "web"
                                      | 2%nat => Some "80, 3000"
                                      | _ => None
                                      end;
                            workspaceFolder := None |} []
                         {| Image.id := Js.str "sha256:0123"; Image.repository := "nginx";
                            Image.tag := "1.2"; Image.size := "unknown";
                            Image.created := "unknown";
                            Image.reference := Js.str "nginx:1.2" |}))
           "web" "80, 3000").
  - reflexivity.
  - reflexivity.
Defined.

(** X15: the ports that the tree keeps for the notice are the pieces of the
    answer between commas, trimmed, without the pieces that are blank: each
    is not empty, holds no comma, and neither starts nor ends with white
    space. *)
Theorem reference_ports_are_trimmed (ports : string) :
  Forall (fun p => isPort p = true) (Extension.splitPorts ports).
Proof.
  unfold Extension.splitPorts. apply Forall_forall. intros p Hin.
  apply filter_In in Hin as [Hin Hne].
  apply in_map_iff in Hin as (piece & <- & Hpiece).
  pose proof (split_parts_no_separator "," ports) as Hfree.
  rewrite Forall_forall in Hfree. specialize (Hfree piece Hpiece).
  unfold isPort. rewrite Hne, (trim_head piece), (trim_tail piece).
  unfold trim. now rewrite (occurs_trim_end "," _ (occurs_trim_start "," _ Hfree)).
Qed.

(** The ports of an answer with blanks and an empty piece. *)
Example reference_ports_example :
  Extension.splitPorts " 80, 3000 ,,  6379" = ["80"; "3000"; "6379"].
Proof. reflexivity. Qed.

(** ** The advanced-run form *)

Section Form.
Variable rt : Runtime.

Lemma handleRunContainer_run (env : Env) (tr : list Event)
  (data : ContainerFormPanel.FormData) :
  run (ContainerFormPanel.handleRunContainer rt data) env tr
  = (inr tt,
     tr ++ Terminal "Container Run"
             (ContainerManager.runCommand rt (ContainerFormPanel.image data)
                (Some (ContainerFormPanel.optionsOf rt data)))
        :: advisoryTimer (Some (ContainerFormPanel.optionsOf rt data))
        ++ [ShowInformation "Container started successfully" []; PanelDispose])%list.
Proof.
  pose proof (runContainerAdvanced_run rt env tr (ContainerFormPanel.image data)
                (Some (ContainerFormPanel.optionsOf rt data))) as Hrun.
  unfold run in *.
  unfold ContainerFormPanel.handleRunContainer, try_catch, bind. rewrite Hrun.
  unfold showInformationMessage, emit. cbn.
  rewrite <- !app_assoc. reflexivity.
Qed.

Lemma thenTimers_run {A : Type} (m : M A) (env : Env) (tr new : list Event) (result : E A) :
  run m env tr = (result, (tr ++ new)%list) ->
  run (thenTimers m) env tr
  = (result, snd (run (fireAll (timers new)) env (tr ++ new)%list)).
Proof.
  unfold run, thenTimers. intros ->.
  replace (skipn (List.length tr) (tr ++ new)%list) with new; [reflexivity|].
  induction tr as [|e tr IH]; [reflexivity | exact IH].
Qed.

Lemma timers_app (xs ys : list Event) : timers (xs ++ ys)%list = (timers xs ++ timers ys)%list.
Proof.
  induction xs as [|e xs IH]; [reflexivity|].
  destruct e; simpl; rewrite IH; reflexivity.
Qed.

End Form.

(** X16: the form hands its command line to a terminal and then at once, on
    every path, shows Container started successfully and closes its panel:
    it runs no command of its own, so what the command line tool does with
    the run is never seen by it.  The advisory about the ports that were
    typed comes after that, when the timer of the run fires, and so does the
    container listing that the advisory offers. *)
Theorem form_reports_success_at_once
  (rt : Runtime) (env : Env) (tr : list Event) (data : ContainerFormPanel.FormData) :
  let options := Some (ContainerFormPanel.optionsOf rt data) in
  let handled :=
    (tr ++ Terminal "Container Run" (runCommandSpec rt (ContainerFormPanel.image data) options)
        :: advisoryTimer options
        ++ [ShowInformation "Container started successfully" []; PanelDispose])%list in
  run (ContainerFormPanel.onDidReceiveMessage rt "runContainer" data) env tr
  = (inr tt, handled)
  /\ run (thenTimers (ContainerFormPanel.onDidReceiveMessage rt "runContainer" data)) env tr
     = (inr tt,
        handled
        ++ match suppliedPorts options with
           | Some items =>
               advisory (join ", " items)
               :: listingOffer (user env (handled ++ [advisory (join ", " items)]))
           | None => []
           end)%list.
Proof.
  cbv zeta.
  assert (Hrun := handleRunContainer_run rt env tr data).
  rewrite runCommand_spec in Hrun.
  change (ContainerFormPanel.onDidReceiveMessage rt "runContainer" data)
    with (ContainerFormPanel.handleRunContainer rt data).
  split; [exact Hrun|].
  rewrite (thenTimers_run _ env tr _ _ Hrun).
  unfold advisoryTimer.
  destruct (suppliedPorts (Some (ContainerFormPanel.optionsOf rt data))) as [items|].
  - cbn [app timers fireAll]. unfold run, bind, ret.
    pose proof (accessInstructions_run env
                  (tr ++ Terminal "Container Run"
                           (runCommandSpec rt (ContainerFormPanel.image data)
                              (Some (ContainerFormPanel.optionsOf rt data)))
                      :: [SetTimeout (AccessInstructions (join ", " items)) 2000;
                          ShowInformation "Container started successfully" []; PanelDispose])%list
                  (join ", " items)) as Hfire.
    unfold run in Hfire. rewrite Hfire. reflexivity.
  - cbn [app timers fireAll]. unfold run, ret. cbn [snd]. now rewrite app_nil_r.
Qed.

(** A form with an image alone, where every command would fail. *)
Example form_reports_success_example :
  run (ContainerFormPanel.onDidReceiveMessage ExampleRuntime.runtime "runContainer"
         {| ContainerFormPanel.image := "no-such-image"; ContainerFormPanel.name := EmptyString;
            ContainerFormPanel.command := EmptyString; ContainerFormPanel.detach := true;
            ContainerFormPanel.interactive := false; ContainerFormPanel.tty := false;
            ContainerFormPanel.remove := false; ContainerFormPanel.ports := EmptyString;
            ContainerFormPanel.dns := EmptyString; ContainerFormPanel.volumes := EmptyString;
            ContainerFormPanel.workdir := EmptyString; ContainerFormPanel.user := EmptyString;
            ContainerFormPanel.entrypoint := EmptyString; ContainerFormPanel.cpus := EmptyString;
            ContainerFormPanel.memory := EmptyString; ContainerFormPanel.env := EmptyString;
            ContainerFormPanel.labels := EmptyString; ContainerFormPanel.network := None |})
    (ExampleRuntime.broken "Error: Command failed") []
  = (inr tt,
     [Terminal "Container Run" "container run --detach no-such-image";
      ShowInformation "Container started successfully" []; PanelDispose]).
Proof. reflexivity. Qed.

(** A form with two ports and half a processor: the panel is closed before
    the advisory is shown. *)
Example form_advisory_comes_last :
  run (thenTimers
         (ContainerFormPanel.onDidReceiveMessage ExampleRuntime.runtime "runContainer"
            {| ContainerFormPanel.image := "nginx"; ContainerFormPanel.name := EmptyString;
               ContainerFormPanel.command := EmptyString; ContainerFormPanel.detach := true;
               ContainerFormPanel.interactive := false; ContainerFormPanel.tty := false;
               ContainerFormPanel.remove := false;
               ContainerFormPanel.ports := "80" ++ String newline "443";
               ContainerFormPanel.dns := EmptyString; ContainerFormPanel.volumes := EmptyString;
               ContainerFormPanel.workdir := EmptyString; ContainerFormPanel.user := EmptyString;
               ContainerFormPanel.entrypoint := EmptyString; ContainerFormPanel.cpus := "0.5";
               ContainerFormPanel.memory := EmptyString; ContainerFormPanel.env := EmptyString;
               ContainerFormPanel.labels := EmptyString; ContainerFormPanel.network := None |}))
    (ExampleRuntime.broken "Error: Command failed") []
  = (inr tt,
     [Terminal "Container Run" "container run --detach --cpus 0.5 nginx";
      SetTimeout (AccessInstructions "80, 443") 2000;
      ShowInformation "Container started successfully" []; PanelDispose;
      advisory "80, 443"]).
Proof. vm_compute. reflexivity. Qed.



(** A line that holds a no-break space alone is blank. *)
Example form_lines_no_break_space :
  ContainerFormPanel.lines (String 160%N (String newline "A=1")) = ["A=1"].
Proof. reflexivity. Qed.

(** Lines are kept as typed: the indentation of the second line stays. *)
Example form_lines_example :
  ContainerFormPanel.lines ("A=1" ++ String newline (String newline "  B=2 "))
  = ["A=1"; "  B=2 "].
Proof. reflexivity. Qed.

(** ** The rows and the items of the tree *)

Section Tree.
Variable rt : Runtime.

Lemma includes_char (c : char) (s : string) :
  includes s (String c EmptyString) = occurs c s.
Proof.
  induction s as [|a s IH]; [reflexivity|].
  simpl. rewrite IH, (N.eqb_sym c a).
  destruct (N.eqb a c); [now destruct s | reflexivity].
Qed.

Lemma last_In {A : Type} (xs : list A) (d : A) : xs <> [] -> In (last xs d) xs.
Proof.
  induction xs as [|x xs IH]; [congruence|]. intros _.
  destruct xs as [|y xs]; [now left|].
  right. apply IH. discriminate.
Qed.

End Tree.

(** X18: for an image that is a string, the connection heuristic returns
    exactly one example when the image, in lower case, contains one of the
    known fragments; otherwise it returns the common ports, preceded by the
    default web port exactly when the image names web, server or api.  It
    never returns none.  For an image that is not a string it throws a
    TypeError. *)
Theorem connection_examples_count (rt : Runtime) (c : Container.t) :
  (forall image,
      Container.image c = Js.str image ->
      if names knownFragments (toLowerCase rt image)
      then exists e, ContainerProvider.getConnectionExamples rt c = inr [e]
      else ContainerProvider.getConnectionExamples rt c
           = inr (if names webFragments (toLowerCase rt image)
                  then [defaultWebPortExample (shownAddress c);
                        commonPortsExample (shownAddress c)]
                  else [commonPortsExample (shownAddress c)]))
  /\ (Js.is_string (Container.image c) = false ->
      exists text, ContainerProvider.getConnectionExamples rt c = inl (TypeError text)).
Proof.
  unfold ContainerProvider.getConnectionExamples. split.
  - intros image ->. unfold Js.str. cbn [value_toLowerCase bindE].
    fold (shownAddress c).
    unfold names, knownFragments, webFragments. cbn [existsb].
    repeat match goal with
           | |- context [includes (toLowerCase rt image) ?fragment] =>
               destruct (includes (toLowerCase rt image) fragment);
               cbn [orb]; cbv iota; try (eexists; reflexivity); try reflexivity
           end.
  - destruct (Container.image c) as [[| | |image| |]|]; try discriminate;
      intros _; cbn [value_toLowerCase bindE]; eexists; reflexivity.
Qed.

(** X18 on an image that no fragment matches and that names an api. *)
Lemma connection_examples_count_witness :
  ContainerProvider.getConnectionExamples ExampleRuntime.runtime
    {| Container.id := Js.str "abc"; Container.name := Js.str "web1";
       Container.image := Js.str "acme/billing-api:2"; Container.status := Js.str "running";
       Container.ports := Some EmptyString; Container.created := "unknown";
       Container.ipAddress := Some "10.0.0.5"; Container.os := None;
       Container.arch := None |}
  = inr [defaultWebPortExample "10.0.0.5"; commonPortsExample "10.0.0.5"].
Proof.
  exact (proj1 (connection_examples_count ExampleRuntime.runtime
                  {| Container.id := Js.str "abc"; Container.name := Js.str "web1";
                     Container.image := Js.str "acme/billing-api:2";
                     Container.status := Js.str "running";
                     Container.ports := Some EmptyString; Container.created := "unknown";
                     Container.ipAddress := Some "10.0.0.5"; Container.os := None;
                     Container.arch := None |})
           "acme/billing-api:2" eq_refl).
Defined.

(** X19: a JSON entry whose id no table line has is shown without network
    and platform rows: when its status is a string, its detail rows are
    exactly Container ID, Image, Status and Created, in this order. *)
Theorem unmatched_record_has_plain_rows
  (rt : Runtime) (containerTable : list TableEntry.t) (rawContainer : json)
  (c : Container.t) (status : string) :
  ContainerManager.toContainer containerTable rawContainer = inr c ->
  (forall entry, In entry containerTable ->
     Js.strict_eq_string (TableEntry.id entry) (Container.id c) = false) ->
  Container.status c = Js.str status ->
  ContainerProvider.getContainerDetails rt c = inr (plainRows rt c status ++ [createdRow])%list.
Proof.
  intros Hc Hnone Hstatus.
  pose proof (toContainer_returns _ _ _ Hc) as Hnn.
  rewrite (toContainer_not_null _ _ Hnn) in Hc.
  assert (Hfields : Container.ipAddress c = None /\ Container.os c = None
                    /\ Container.created c = "unknown").
  { injection Hc as Hc. subst c. simpl in Hnone |- *. unfold tableEntryFor.
    rewrite (find_all_false _ _ Hnone). now repeat split. }
  destruct Hfields as (Hip & Hos & Hcreated).
  unfold ContainerProvider.getContainerDetails, plainRows.
  rewrite Hstatus, Hip, Hos, Hcreated. cbn [value_toLowerCase Js.str bindE].
  destruct (includes (toLowerCase rt status) "running"); reflexivity.
Qed.

(** X19 on an entry with the id b and a table that lists a alone. *)
Lemma unmatched_record_has_plain_rows_witness :
  exists c,
    ContainerManager.toContainer
      (ContainerManager.parseContainerTable
         ("ID IMAGE OS ARCH STATE ADDR" ++ String newline "a - linux arm64 - 10.0.0.5"))
      (JObj [("configuration", JObj [("id", JStr "b")]); ("status", JStr "running")]) = inr c
    /\ ContainerProvider.getContainerDetails ExampleRuntime.runtime c
       = inr (plainRows ExampleRuntime.runtime c "running" ++ [createdRow])%list.
Proof.
  eexists. split; [reflexivity|].
  apply (unmatched_record_has_plain_rows ExampleRuntime.runtime
           (ContainerManager.parseContainerTable
              ("ID IMAGE OS ARCH STATE ADDR" ++ String newline "a - linux arm64 - 10.0.0.5"))
           (JObj [("configuration", JObj [("id", JStr "b")]); ("status", JStr "running")])).
  - reflexivity.
  - intros entry [<-|[]]. reflexivity.
  - reflexivity.
Defined.

(** X20: the Status row tells a running container in two ways that can
    disagree.  Its text starts with the play sign when the status in lower
    case contains running; its icon is play when the status as it is
    written contains running.  For a status such as Running the text shows
    the play sign and the icon is the stop icon. *)
Theorem status_row_icon_is_case_sensitive
  (rt : Runtime) (c : Container.t) (status : string)
  (details : list ContainerProvider.ContainerDetailItem) :
  Container.status c = Js.str status ->
  ContainerProvider.getContainerDetails rt c = inr details ->
  In (statusRow rt status) details
  /\ ContainerProvider.detailIcon (statusRow rt status)
     = inr (if includes status "running" then "play" else "debug-stop").
Proof.
  intros Hstatus Hdetails. split.
  - unfold ContainerProvider.getContainerDetails in Hdetails.
    rewrite Hstatus in Hdetails. cbn [value_toLowerCase Js.str bindE] in Hdetails.
    fold (statusRow rt status) in Hdetails.
    assert (Hgrow : forall front middle back : list ContainerProvider.ContainerDetailItem,
               In (statusRow rt status) (front ++ [statusRow rt status] ++ middle ++ back)%list).
    { intros. apply in_or_app. right. now left. }
    destruct (present (Container.ipAddress c));
      destruct (includes (toLowerCase rt status) "running") eqn:Hrun;
      cbn [andb bindE] in Hdetails;
      try (destruct (ContainerProvider.getConnectionExamples rt c); cbn [bindE] in Hdetails;
           [discriminate|]);
      destruct (present (Container.os c) && present (Container.arch c));
      destruct (nonempty (Container.created c)
                && negb (JsString.eqb (Container.created c) "Unknown"));
      injection Hdetails as <-;
      unfold statusRow; rewrite Hrun;
      repeat (apply in_or_app; first [right; now left | left]);
      simpl; tauto.
  - unfold statusRow, ContainerProvider.detailIcon. cbn [ContainerProvider.item_type
      ContainerProvider.item ContainerProvider.item_value JsString.eqb N.eqb Bool.eqb
      value_includes Js.str bindE].
    destruct (includes (toLowerCase rt status) "running"); reflexivity.
Qed.

(** X20 on the status Running: the row reads as running, its icon does
    not. *)
Lemma status_row_icon_is_case_sensitive_witness :
  ContainerProvider.item_value (statusRow ExampleRuntime.runtime "Running")
  = Js.str "▶️ Running"
  /\ ContainerProvider.detailIcon (statusRow ExampleRuntime.runtime "Running")
     = inr "debug-stop".
Proof.
  split; [reflexivity|].
  refine (proj2 (status_row_icon_is_case_sensitive ExampleRuntime.runtime
                   {| Container.id := Js.str "abc"; Container.name := Js.str "web1";
                      Container.image := Js.str "nginx:latest";
                      Container.status := Js.str "Running";
                      Container.ports := Some EmptyString; Container.created := "unknown";
                      Container.ipAddress := None; Container.os := None;
                      Container.arch := None |}
                   "Running" _ eq_refl eq_refl)).
Defined.

Section ShortName.

Lemma afterLast_absent (c : char) (s : string) :
  occurs c s = false -> afterLast c s = s.
Proof.
  destruct s as [|a s]; [reflexivity|]. simpl. intros H.
  apply orb_false_iff in H as [Ha Hs]. now rewrite Hs, Ha.
Qed.

Lemma afterLast_free (c : char) (s : string) : occurs c (afterLast c s) = false.
Proof.
  induction s as [|a s IH]; [reflexivity|]. simpl.
  destruct (occurs c s) eqn:Hs; [exact IH|].
  destruct (N.eqb a c) eqn:Ha; [exact Hs|]. simpl. now rewrite Ha, Hs.
Qed.

Lemma occurs_after (c : char) (before after : string) :
  occurs c (before ++ String c after) = true.
Proof.
  induction before as [|a before IH]; simpl.
  - now rewrite N.eqb_refl.
  - rewrite IH. apply orb_true_r.
Qed.

Lemma afterLast_after (c : char) (before after : string) :
  occurs c after = false -> afterLast c (before ++ String c after) = after.
Proof.
  intros Hafter. induction before as [|a before IH]; simpl.
  - now rewrite Hafter, N.eqb_refl.
  - now rewrite occurs_after.
Qed.

Lemma split_two (c : char) (s : string) :
  occurs c s = true -> exists h x t, split c s = h :: x :: t.
Proof.
  induction s as [|a s IH]; simpl; [discriminate|].
  destruct (N.eqb a c); simpl.
  - intros _. destruct (split c s) as [|x t] eqn:Hsplit; [now apply split_not_nil in Hsplit|].
    now exists EmptyString, x, t.
  - intros Hs. destruct (IH Hs) as (h & x & t & ->). now exists (String a h), x, t.
Qed.

Lemma last_split (c : char) (s : string) :
  last (split c s) EmptyString = afterLast c s.
Proof.
  induction s as [|a s IH]; [reflexivity|].
  cbn [split afterLast].
  destruct (occurs c s) eqn:Hs.
  - destruct (split_two c s Hs) as (h & x & t & Hsplit). rewrite Hsplit in IH |- *.
    destruct (N.eqb a c); exact IH.
  - rewrite (split_no_separator c s Hs).
    destruct (N.eqb a c); reflexivity.
Qed.

(** The short name of an image that is a string. *)
Lemma imageShort_string (image : string) :
  ContainerProvider.imageShort (Js.str image)
  = inr (Js.str (or_else (afterLast "/" image) image)).
Proof.
  unfold ContainerProvider.imageShort, Js.or, Js.str, or_else.
  cbn [value_includes value_split bindE Js.truthy].
  rewrite includes_char, last_split.
  destruct (occurs "/" image) eqn:Hslash.
  - cbn beta iota. destruct (nonempty (afterLast "/" image)); reflexivity.
  - rewrite (afterLast_absent "/" image Hslash).
    destruct (nonempty image); reflexivity.
Qed.

End ShortName.

(** X21: the short image name in the description of a tree item is the
    text after the last slash of the image, and the whole image when
    nothing follows that slash or when the image has no slash.  So it holds
    no slash unless it is the whole image. *)
Theorem image_short_name (image : string) :
  ContainerProvider.imageShort (Js.str image)
  = inr (Js.str (if nonempty (afterLast "/" image) then afterLast "/" image else image))
  /\ occurs "/" (afterLast "/" image) = false
  /\ (occurs "/" image = false -> afterLast "/" image = image)
  /\ (forall before after,
         image = before ++ String "/" after -> occurs "/" after = false ->
         afterLast "/" image = after).
Proof.
  split; [apply imageShort_string|]. split; [apply afterLast_free|].
  split; [apply afterLast_absent|].
  intros before after -> Hafter. now apply afterLast_after.
Qed.

(** X21 on an image that ends with a slash: nothing follows the last
    slash, and the short name is the whole image. *)
Lemma image_short_name_witness :
  ContainerProvider.imageShort (Js.str "docker.io/library/")
  = inr (Js.str "docker.io/library/")
  /\ afterLast "/" "docker.io/library/" = EmptyString.
Proof.
  destruct (image_short_name "docker.io/library/") as (Hshort & _ & _ & Hafter).
  split; [exact Hshort|].
  exact (Hafter "docker.io/library" EmptyString eq_refl eq_refl).
Defined.

(** The short name of an image with a registry. *)
Example image_short_name_example :
  ContainerProvider.imageShort (Js.str "docker.io/library/nginx:latest")
  = inr (Js.str "nginx:latest").
Proof. reflexivity. Qed.

Section Items.
Variable rt : Runtime.

Lemma newContainerItem_container (c : Container.t) (item : ContainerProvider.ContainerItem) :
  ContainerProvider.newContainerItem rt c = inr item ->
  ContainerProvider.ci_container item = c /\ Js.is_string (Container.status c) = true.
Proof.
  unfold ContainerProvider.newContainerItem.
  destruct (if Js.truthy (Container.name c) then _ else _) as [?|displayName];
    cbn [bindE]; [discriminate|].
  destruct (ContainerProvider.imageShort (Container.image c)) as [?|short];
    cbn [bindE]; [discriminate|].
  destruct (Container.status c) as [[| | |status| |]|]; cbn [value_toLowerCase bindE];
    try discriminate.
  intros H. injection H as <-. split; reflexivity.
Qed.




End Items.



Section PanelRefresh.
Variable rt : Runtime.



End PanelRefresh.



(** ** Rows that copy *)

Section CopyRows.
Variable rt : Runtime.

Lemma append_nonempty (a b : string) : nonempty b = true -> nonempty (a ++ b) = true.
Proof. destruct a; [now intros H | reflexivity]. Qed.

Lemma examples_copy (c : Container.t) (examples : list ContainerProvider.Example) :
  ContainerProvider.getConnectionExamples rt c = inr examples ->
  Forall (fun e => nonempty (ContainerProvider.copyValue e) = true) examples.
Proof.
  unfold ContainerProvider.getConnectionExamples.
  destruct (value_toLowerCase rt _ (Container.image c)) as [?|imageLower];
    cbn [bindE]; [discriminate|].
  intros H. injection H as <-.
  repeat match goal with
         | |- context [if ?b then _ else _] => destruct b
         end;
    repeat constructor; cbn [ContainerProvider.copyValue ContainerProvider.example];
    try reflexivity; apply append_nonempty; reflexivity.
Qed.

Lemma example_rows_copy (examples : list ContainerProvider.Example) :
  Forall (fun e => nonempty (ContainerProvider.copyValue e) = true) examples ->
  Forall copiesAsTyped
    (map (fun e => ContainerProvider.item (ContainerProvider.label e)
                     (Js.str (ContainerProvider.value e)) "copy-command"
                     (Js.str (ContainerProvider.copyValue e))) examples).
Proof.
  induction 1 as [|e examples He _ IH]; simpl; constructor; [|exact IH].
  unfold copiesAsTyped, ContainerProvider.detailClickable. simpl. now rewrite He.
Qed.

End CopyRows.

(** X24: among the detail rows of a container whose id and image are truthy
    (as they are for every listed record), the rows that copy on a click are
    exactly those whose type starts with copy-: the id, the address, the
    image, the connection examples, the base URL and the SSH access each
    carry a value to copy; the status, platform and created rows carry
    none. *)
Theorem copy_rows_copy
  (rt : Runtime) (c : Container.t) (details : list ContainerProvider.ContainerDetailItem) :
  Js.truthy (Container.id c) = true ->
  Js.truthy (Container.image c) = true ->
  ContainerProvider.getContainerDetails rt c = inr details ->
  Forall copiesAsTyped details.
Proof.
  intros Hid Himage. unfold ContainerProvider.getContainerDetails.
  destruct (value_toLowerCase rt _ (Container.status c)) as [?|statusLower];
    cbn [bindE]; [discriminate|].
  assert (Hrow_id : copiesAsTyped
            (ContainerProvider.item "📋 Container ID" (Container.id c) "copy-id"
               (Container.id c)))
    by (unfold copiesAsTyped, ContainerProvider.detailClickable; simpl; now rewrite Hid).
  assert (Hrow_image : copiesAsTyped
            (ContainerProvider.item "📦 Image" (Container.image c) "copy-image"
               (Container.image c)))
    by (unfold copiesAsTyped, ContainerProvider.detailClickable; simpl; now rewrite Himage).
  assert (Hplain : forall l v t,
             JsString.prefix "copy-" t = false ->
             copiesAsTyped (ContainerProvider.item l v t Js.undefined))
    by (intros l v t Ht; unfold copiesAsTyped, ContainerProvider.detailClickable,
          ContainerProvider.item, Js.undefined;
        cbn [ContainerProvider.item_copyValue ContainerProvider.item_type Js.truthy andb];
        now rewrite Ht).
  assert (Hcopy : forall l v t text,
             JsString.prefix "copy-" t = true -> nonempty text = true ->
             copiesAsTyped (ContainerProvider.item l v t (Js.str text)))
    by (intros l v t text Ht Htext; unfold copiesAsTyped, ContainerProvider.detailClickable,
          ContainerProvider.item, Js.str;
        cbn [ContainerProvider.item_copyValue ContainerProvider.item_type Js.truthy];
        now rewrite Ht, Htext).
  destruct (present (Container.ipAddress c)) eqn:Hip.
  - assert (Haddress : nonempty (or_else_none (Container.ipAddress c)) = true)
      by (destruct (Container.ipAddress c); [exact Hip | discriminate Hip]).
    destruct (includes statusLower "running"); cbn [andb bindE].
    + destruct (ContainerProvider.getConnectionExamples rt c) as [?|examples] eqn:Hexamples;
        cbn [bindE]; [discriminate|].
      pose proof (example_rows_copy _ (examples_copy rt c examples Hexamples)) as Hrows.
      intros H. injection H as <-.
      destruct (present (Container.os c) && present (Container.arch c));
        destruct (nonempty (Container.created c)
                  && negb (JsString.eqb (Container.created c) "Unknown"));
        repeat first [exact Hrows | apply Forall_nil | apply Forall_cons
                     | apply Forall_app; split];
        first [exact Hrow_id | exact Hrow_image
              | apply Hplain; reflexivity
              | apply Hcopy; [reflexivity | first [exact Haddress | reflexivity]]].
    + intros H. injection H as <-.
      destruct (present (Container.os c) && present (Container.arch c));
        destruct (nonempty (Container.created c)
                  && negb (JsString.eqb (Container.created c) "Unknown"));
        repeat first [apply Forall_nil | apply Forall_cons | apply Forall_app; split];
        first [exact Hrow_id | exact Hrow_image
              | apply Hplain; reflexivity
              | apply Hcopy; [reflexivity | first [exact Haddress | reflexivity]]].
  - cbn [andb bindE]. intros H. injection H as <-.
    destruct (present (Container.os c) && present (Container.arch c));
      destruct (nonempty (Container.created c)
                && negb (JsString.eqb (Container.created c) "Unknown"));
      repeat first [apply Forall_nil | apply Forall_cons | apply Forall_app; split];
      first [exact Hrow_id | exact Hrow_image | apply Hplain; reflexivity].
Qed.

(** X24 on the rows of the scenario record, a running container with an
    address. *)
Lemma copy_rows_copy_witness :
  exists details,
    ContainerProvider.getContainerDetails ExampleRuntime.runtime scenarioRecord = inr details
    /\ Forall copiesAsTyped details
    /\ List.length details = 9%nat.
Proof.
  eexists. split; [reflexivity|]. split; [|reflexivity].
  apply (copy_rows_copy ExampleRuntime.runtime scenarioRecord); reflexivity.
Defined.

(** ** The tree item of a listed record *)

Section ListedItem.
Variable rt : Runtime.

Lemma join_last_two (sep : string) (front : list string) (a b : string) :
  exists text, join sep (front ++ [a; b]) = text ++ a ++ sep ++ b.
Proof.
  induction front as [|x front [text IH]]; [now exists EmptyString|].
  exists (x ++ sep ++ text).
  assert (Hjoin : join sep ((x :: front) ++ [a; b]) = x ++ sep ++ join sep (front ++ [a; b]))
    by (destruct front; reflexivity).
  rewrite Hjoin, IH. now rewrite !append_assoc.
Qed.

End ListedItem.

(** X25: the tree item of a listed record is labelled with the name of the
    record, never with the first twelve characters of its id, and its
    tooltip always ends with the lines Created: unknown and Ports: N/A: the
    listing supplies neither a creation time nor ports. *)
Theorem listed_item_label_and_tooltip
  (rt : Runtime) (containerTable : list TableEntry.t) (rawContainer : json)
  (c : Container.t) (item : ContainerProvider.ContainerItem) :
  ContainerManager.toContainer containerTable rawContainer = inr c ->
  ContainerProvider.newContainerItem rt c = inr item ->
  ContainerProvider.ci_label item = Container.name c
  /\ exists text,
       ContainerProvider.ci_tooltip item
       = text ++ "Created: unknown" ++ String newline "Ports: N/A".
Proof.
  intros Hc Hitem.
  pose proof (toContainer_returns _ _ _ Hc) as Hnn.
  rewrite (toContainer_not_null _ _ Hnn) in Hc.
  assert (Hfields : Js.truthy (Container.name c) = true
                    /\ Container.ports c = Some EmptyString
                    /\ Container.created c = "unknown").
  { injection Hc as Hc. subst c. simpl. split; [|now split].
    unfold rawName. apply or_truthy, rawId_truthy. }
  destruct Hfields as (Hname & Hports & Hcreated).
  revert Hitem. unfold ContainerProvider.newContainerItem. rewrite Hname. cbn [bindE].
  destruct (ContainerProvider.imageShort (Container.image c)) as [?|short];
    cbn [bindE]; [discriminate|].
  destruct (value_toLowerCase rt _ (Container.status c)) as [?|statusLower];
    cbn [bindE]; [discriminate|].
  intros H. injection H as <-. split; [reflexivity|].
  cbn [ContainerProvider.ci_tooltip]. unfold ContainerProvider.buildTooltip.
  rewrite Hports, Hcreated. cbn [present nonempty]. cbv zeta.
  apply (join_last_two (String newline EmptyString)
           ["Container: " ++ template rt (Js.or (Container.name c) (Js.str "N/A"));
            "ID: " ++ template rt (Container.id c);
            "Image: " ++ template rt (Container.image c);
            "Status: " ++ template rt (Container.status c)]
           "Created: unknown" "Ports: N/A").
Qed.

(** X25 on the record of the end-to-end scenario. *)
Lemma listed_item_label_and_tooltip_witness :
  exists item,
    ContainerProvider.newContainerItem ExampleRuntime.runtime scenarioRecord = inr item
    /\ ContainerProvider.ci_label item = Js.str "web1".
Proof.
  eexists. split; [reflexivity|].
  apply (listed_item_label_and_tooltip ExampleRuntime.runtime
           (ContainerManager.parseContainerTable
              ("ID  IMAGE  OS  ARCH  STATE  ADDR" ++ String newline scenarioLine))
           (JObj [("configuration",
                   JObj [("id", JStr "abc"); ("hostname", JStr "web1");
                         ("image", JObj [("reference", JStr "nginx:latest")])]);
                  ("status", JStr "running")])
           scenarioRecord).
  - reflexivity.
  - reflexivity.
Defined.

(** ** Start-up and logs *)

(** X26: what the user sees when a command of the start-up or of the logs
    fails.  The probe for the command line tool shows nothing and resolves
    to false; starting the container system shows a warning without buttons
    (not an error); reading the logs shows an error and resolves to the
    empty text, as it does for a container that has logged nothing.  None
    of the three rejects, and each runs one command. *)
Theorem startup_and_logs_failures
  (rt : Runtime) (env : Env) (tr : list Event) (id : jsvalue) (follow : bool) :
  let logsCmd :=
    "container logs" ++ (if follow then " --follow" else EmptyString) ++ " "
    ++ template rt id in
  run ContainerManager.isContainerCliAvailable env tr
  = (inr (match cli env tr "which container" with inr _ => true | inl _ => false end),
     tr ++ [Exec "which container"])%list
  /\ run ContainerManager.startContainerSystem env tr
     = (inr tt,
        tr ++ [Exec "container system start";
               match cli env tr "container system start" with
               | inr _ => ShowInformation "Container system started successfully" []
               | inl text => ShowWarning ("Failed to start container system: " ++ text) []
               end])%list
  /\ run (ContainerManager.getContainerLogs rt id follow) env tr
     = match cli env tr logsCmd with
       | inr stdout => (inr stdout, tr ++ [Exec logsCmd])
       | inl text =>
           (inr EmptyString,
            tr ++ [Exec logsCmd; ShowError ("Failed to get container logs: " ++ text)])
       end%list.
Proof.
  cbv zeta.
  unfold run, ContainerManager.isContainerCliAvailable, ContainerManager.startContainerSystem,
    ContainerManager.getContainerLogs, try_catch, bind, execAsync, showInformationMessage,
    showErrorMessage, emit, ret.
  split; [|split].
  - destruct (cli env tr "which container"); reflexivity.
  - destruct (cli env tr "container system start"); simpl; now rewrite <- app_assoc.
  - destruct (cli env tr _); simpl; [now rewrite <- app_assoc | reflexivity].
Qed.

(** ** The children of a tree element *)

(** X27: the images section of the tree has one item per listed image, in
    the order of the listing, labelled repository:tag; and expanding the
    item of a container, once the constructor has built it, resolves to the
    detail rows of its record without touching the outside, for every
    record whose image is a string. *)
Theorem tree_children
  (rt : Runtime) (env : Env) (tr : list Event) (showAll : bool) :
  (forall imgs tr',
      run (ContainerManager.listImages rt) env tr = (inr imgs, tr') ->
      run (ContainerProvider.getChildren rt showAll
             (Some (ContainerProvider.OfSection
                      (ContainerProvider.newSectionItem "Images" ContainerProvider.images))))
        env tr
      = (inr (map (fun img => ContainerProvider.OfImage (ContainerProvider.newImageItem rt img))
                imgs), tr')
      /\ Forall (fun img =>
                   ContainerProvider.ii_label (ContainerProvider.newImageItem rt img)
                   = Image.repository img ++ ":" ++ Image.tag img) imgs)
  /\ (forall c item,
         ContainerProvider.newContainerItem rt c = inr item ->
         Js.is_string (Container.image c) = true ->
         exists rows,
           ContainerProvider.getContainerDetails rt c = inr rows
           /\ run (ContainerProvider.getChildren rt showAll
                     (Some (ContainerProvider.OfContainer item))) env tr
              = (inr (map ContainerProvider.OfDetail rows), tr)).
Proof.
  split.
  - intros imgs tr' Hrun. split; [|apply Forall_forall; reflexivity].
    unfold run in *.
    unfold ContainerProvider.getChildren. cbn [ContainerProvider.si_type
      ContainerProvider.newSectionItem].
    unfold bind at 1. unfold ContainerProvider.getImageItems, try_catch. unfold bind at 1.
    rewrite Hrun. unfold ret. rewrite map_map. reflexivity.
  - intros c item Hitem Himage.
    destruct (newContainerItem_container rt c item Hitem) as [Hcontainer Hstatus].
    destruct (getContainerDetails_returns rt c Hstatus Himage) as [rows Hrows].
    exists rows. split; [exact Hrows|].
    unfold run, ContainerProvider.getChildren, bind, lift, ret.
    rewrite Hcontainer, Hrows. reflexivity.
Qed.

(** X27 on the item of the scenario record. *)
Lemma tree_children_witness :
  exists item rows,
    ContainerProvider.newContainerItem ExampleRuntime.runtime scenarioRecord = inr item
    /\ run (ContainerProvider.getChildren ExampleRuntime.runtime false
              (Some (ContainerProvider.OfContainer item)))
         (ExampleRuntime.broken "Error: Command failed") []
       = (inr (map ContainerProvider.OfDetail rows), []).
Proof.
  eexists.
  destruct (proj2 (tree_children ExampleRuntime.runtime
                     (ExampleRuntime.broken "Error: Command failed") [] false)
              scenarioRecord _ eq_refl eq_refl)
    as (rows & _ & Hrun).
  exists rows. split; [reflexivity | exact Hrun].
Defined.
